(** * GymApp: the plan / exercise store of [src/App.tsx]

    A shallow embedding of the state transformers that the React component
    [App] passes to [setPlans] and [setHistory], together with the loader
    [loadPlans] / [normalizeExercise], and of the two functions of the later
    [gymapp:v3] iteration of the same component that differ from it
    ([moveExerciseByOffset] and [finishWorkout]).

    Conventions of the embedding.
    - A JavaScript [number] that holds a weight is an exact rational [Q];
      [NaN] only arises from [Number.parseFloat], whose result is therefore
      an [option Q].  Rounding of binary floating point is not modelled.
    - A [number] that holds a set count or an index is a [Z].
    - A JavaScript string is the [string] of its UTF-8 bytes.
    - [x ?? d] on a possibly missing field is a [match] on an [option].
    - [createId()] and [new Date().toISOString()] are inputs of the action
      that calls them. *)

From Stdlib Require Import QArith Qround Qabs Lqa.
From stdpp Require Import base list strings pretty.

(** ** JavaScript primitives *)

(** [Math.max] and [Math.min] at two arguments, on rationals. *)
Definition Math_max (a b : Q) : Q := if Qle_bool a b then b else a.
Definition Math_min (a b : Q) : Q := if Qle_bool a b then a else b.

(** [a === b], [a < b] and [a >= b] on numbers. *)
Definition num_eq (a b : Q) : bool := Qeq_bool a b.
Definition num_lt (a b : Q) : bool := negb (Qle_bool b a).
Definition num_ge (a b : Q) : bool := Qle_bool b a.

(** [Number(x.toFixed(1))]: the decimal with one fractional digit closest to
    [x]; of two equally close ones [toFixed] takes the larger in magnitude. *)
Definition toFixed1 (x : Q) : Q :=
  let n := Qfloor (Qabs x * 10 + (1 # 2)) in
  if num_lt x 0 then (- n # 10) else (n # 10).

(** [Array.prototype.findIndex]: the first index whose element satisfies
    [p], or [-1]. *)
Fixpoint findIndex {A} (p : A → bool) (l : list A) : Z :=
  match l with
  | [] => (-1)%Z
  | x :: r =>
      if p x then 0%Z
      else let i := findIndex p r in
           if (i <? 0)%Z then (-1)%Z else (i + 1)%Z
  end.

(** [l.splice(start, deleteCount, ...items)] for [0 <= start]: the removed
    elements and the list left behind.  A [start] beyond the end is the end. *)
Definition splice {A} (start deleteCount : nat) (items l : list A)
  : list A * list A :=
  (take deleteCount (drop start l),
   take start l ++ items ++ drop (start + deleteCount) l).

(** [l.slice(0, n)]. *)
Definition slice0 {A} (n : nat) (l : list A) : list A := take n l.

(** Taking the element at [from] out of [l] and putting it back at [to]:
    what [splice(from, 1)] followed by [splice(to, 0, moved)] leaves. *)
Definition moved_to {A} (from to : nat) (x : A) (l : list A) : list A :=
  take to (delete from l) ++ x :: drop to (delete from l).

(** [String.prototype.trim].  A [string] holds the UTF-8 encoding of the
    JavaScript string; the characters [trim] strips are the white space and
    line terminator code points of ECMAScript: U+0009 to U+000D and U+0020
    (one byte), U+00A0 (two bytes), and U+1680, U+2000 to U+200A, U+2028,
    U+2029, U+202F, U+205F, U+3000 and U+FEFF (three bytes). *)
Definition is_space (a : Ascii.ascii) : bool :=
  let n := Ascii.nat_of_ascii a in
  bool_decide (n = 32 ∨ (9 ≤ n ∧ n ≤ 13)).

Definition is_space2 (a b : Ascii.ascii) : bool :=
  bool_decide (Ascii.nat_of_ascii a = 194 ∧ Ascii.nat_of_ascii b = 160).

Definition is_space3 (a b c : Ascii.ascii) : bool :=
  let x := Ascii.nat_of_ascii a in
  let y := Ascii.nat_of_ascii b in
  let z := Ascii.nat_of_ascii c in
  bool_decide
    ((x = 225 ∧ y = 154 ∧ z = 128)
     ∨ (x = 226 ∧ y = 128
        ∧ ((128 ≤ z ∧ z ≤ 138) ∨ z = 168 ∨ z = 169 ∨ z = 175))
     ∨ (x = 226 ∧ y = 129 ∧ z = 159)
     ∨ (x = 227 ∧ y = 128 ∧ z = 128)
     ∨ (x = 239 ∧ y = 187 ∧ z = 191)).

(** Dropping the white space characters at the head of a list of bytes;
    with [backwards] the list is a reversed string, and so is each
    character in it. *)
Fixpoint dropSpaces (backwards : bool) (l : list Ascii.ascii)
  : list Ascii.ascii :=
  match l with
  | [] => []
  | a :: r =>
      if is_space a then dropSpaces backwards r
      else
        match r with
        | [] => l
        | b :: r2 =>
            if (if backwards then is_space2 b a else is_space2 a b)
            then dropSpaces backwards r2
            else
              match r2 with
              | [] => l
              | c :: r3 =>
                  if (if backwards then is_space3 c b a else is_space3 a b c)
                  then dropSpaces backwards r3
                  else l
              end
        end
  end.

Definition trimStart (s : string) : string :=
  String.string_of_list_ascii
    (dropSpaces false (String.list_ascii_of_string s)).

Definition trimEnd (s : string) : string :=
  String.string_of_list_ascii
    (reverse (dropSpaces true (reverse (String.list_ascii_of_string s)))).

Definition trim (s : string) : string := trimEnd (trimStart s).

(** ** Data model of [src/App.tsx] *)

Module Exercise.
Record t := mk {
    id : string;
    name : string;
    currentWeight : Q;
    previousWeight : option Q;
    bestWeight : Q;
    completed : bool;
    notes : string;
    targetSets : Z;
    completedSets : Z
  }.
End Exercise.

Module TrainingPlan.
Record t := mk {
    id : string;
    name : string;
    exercises : list Exercise.t
  }.
End TrainingPlan.

Module HistoryExercise.
Record t := mk {
    name : string;
    weight : Q;
    completedSets : Z;
    targetSets : Z;
    isPr : bool
  }.
End HistoryExercise.

Module TrainingHistoryEntry.
Record t := mk {
    id : string;
    dateIso : string;
    planId : string;
    planName : string;
    exercises : list HistoryExercise.t
  }.
End TrainingHistoryEntry.

(** [Partial<Exercise> & { id: string; name: string }]: a stored record, of
    which every field but [id] and [name] may be missing. *)
Module RawExercise.
Record t := mk {
    id : string;
    name : string;
    currentWeight : option Q;
    previousWeight : option Q;
    bestWeight : option Q;
    completed : option bool;
    notes : option string;
    targetSets : option Z;
    completedSets : option Z
  }.
End RawExercise.

(** A stored plan; [exercises] is [None] when the stored value is not an
    array. *)
Module RawPlan.
Record t := mk {
    id : string;
    name : string;
    exercises : option (list RawExercise.t)
  }.
End RawPlan.

Definition clampWeight (value : Q) : Q :=
  Math_max 0 (Math_min 300 value).

Definition clampInt (value min max : Z) : Z :=
  Z.max min (Z.min max value).

Definition normalizeExercise (input : RawExercise.t) : Exercise.t :=
  let currentWeight := default 0%Q (RawExercise.currentWeight input) in
  let targetSets := clampInt (default 3%Z (RawExercise.targetSets input)) 1 12 in
  let completedSets :=
    clampInt (default 0%Z (RawExercise.completedSets input)) 0 targetSets in
  {| Exercise.id := RawExercise.id input;
     Exercise.name := RawExercise.name input;
     Exercise.currentWeight := currentWeight;
     Exercise.previousWeight := RawExercise.previousWeight input;
     Exercise.bestWeight := default currentWeight (RawExercise.bestWeight input);
     Exercise.completed :=
       default (targetSets <=? completedSets)%Z (RawExercise.completed input);
     Exercise.notes := default EmptyString (RawExercise.notes input);
     Exercise.targetSets := targetSets;
     Exercise.completedSets := completedSets |}.

(** [loadPlans]: the storage slot holds nothing usable ([None]: the key is
    absent, the text does not parse, or it is not an array) or a list of
    stored plans. *)
Definition loadPlans (raw : option (list RawPlan.t)) : list TrainingPlan.t :=
  match raw with
  | None => []
  | Some parsed =>
      (λ plan,
        {| TrainingPlan.id := RawPlan.id plan;
           TrainingPlan.name := RawPlan.name plan;
           TrainingPlan.exercises :=
             match RawPlan.exercises plan with
             | Some exercises => normalizeExercise <$> exercises
             | None => []
             end |}) <$> parsed
  end.

Definition loadHistory (raw : option (list TrainingHistoryEntry.t))
  : list TrainingHistoryEntry.t :=
  default [] raw.

(** ** The component state

    The three [useState] cells the store logic reads and writes. *)
Record State := mkState {
  plans : list TrainingPlan.t;
  history : list TrainingHistoryEntry.t;
  activePlanId : string
}.

Definition setPlans (f : list TrainingPlan.t → list TrainingPlan.t) (s : State)
  : State :=
  {| plans := f (plans s); history := history s;
     activePlanId := activePlanId s |}.

Definition setHistory
    (f : list TrainingHistoryEntry.t → list TrainingHistoryEntry.t) (s : State)
  : State :=
  {| plans := plans s; history := f (history s);
     activePlanId := activePlanId s |}.

Definition setActivePlanId (i : string) (s : State) : State :=
  {| plans := plans s; history := history s; activePlanId := i |}.

(** [plans.find((plan) => plan.id === activePlanId) ?? null] *)
Definition activePlan (s : State) : option TrainingPlan.t :=
  List.find (λ plan, bool_decide (TrainingPlan.id plan = activePlanId s))
            (plans s).

(** The effect on [[plans, activePlanId]] that keeps the selection on an
    existing plan. *)
Definition syncActivePlan (s : State) : State :=
  match plans s with
  | [] => setActivePlanId EmptyString s
  | first :: _ =>
      if existsb (λ plan, bool_decide (TrainingPlan.id plan = activePlanId s))
                 (plans s)
      then s
      else setActivePlanId (TrainingPlan.id first) s
  end.

(** [{ ...plan, exercises }] *)
Definition withExercises (plan : TrainingPlan.t) (exercises : list Exercise.t)
  : TrainingPlan.t :=
  {| TrainingPlan.id := TrainingPlan.id plan;
     TrainingPlan.name := TrainingPlan.name plan;
     TrainingPlan.exercises := exercises |}.

(** [previous.map((plan) => plan.id !== activePlan.id ? plan : f(plan))],
    the shape of every updater passed to [setPlans]. *)
Definition mapActivePlan (activeId : string)
    (f : TrainingPlan.t → TrainingPlan.t) (previous : list TrainingPlan.t)
  : list TrainingPlan.t :=
  (λ plan, if bool_decide (TrainingPlan.id plan ≠ activeId) then plan
           else f plan) <$> previous.

(** [plan.exercises.map(g)] inside the active plan. *)
Definition mapActiveExercises (activeId : string)
    (g : Exercise.t → Exercise.t) (previous : list TrainingPlan.t)
  : list TrainingPlan.t :=
  mapActivePlan activeId
    (λ plan, withExercises plan (g <$> TrainingPlan.exercises plan)) previous.

(** ** Operations *)

Definition createPlan (newId planName : string) (s : State) : State :=
  let name := trim planName in
  if bool_decide (name = EmptyString) then s
  else
    let newPlan :=
      {| TrainingPlan.id := newId; TrainingPlan.name := name;
         TrainingPlan.exercises := [] |} in
    setActivePlanId newId (setPlans (λ previous, newPlan :: previous) s).

(** The [newExercise] record of [addExercise]. *)
Definition newExercise (newId name : string) (normalizedWeight : Q)
  : Exercise.t :=
  {| Exercise.id := newId;
     Exercise.name := name;
     Exercise.currentWeight := normalizedWeight;
     Exercise.previousWeight := None;
     Exercise.bestWeight := normalizedWeight;
     Exercise.completed := false;
     Exercise.notes := EmptyString;
     Exercise.targetSets := 3;
     Exercise.completedSets := 0 |}.

Definition addExercise (newId exerciseName : string) (parsedWeight : option Q)
    (s : State) : State :=
  match activePlan s with
  | None => s
  | Some active =>
      let name := trim exerciseName in
      match parsedWeight with
      | None => s
      | Some parsedWeight =>
          if bool_decide (name = EmptyString) || num_lt parsedWeight 0 then s
          else
            let normalizedWeight := toFixed1 parsedWeight in
            setPlans
              (mapActivePlan (TrainingPlan.id active)
                 (λ plan, withExercises plan
                            (TrainingPlan.exercises plan
                               ++ [newExercise newId name normalizedWeight])))
              s
      end
  end.

(** The record both weight operations build once the weight really moves. *)
Definition shiftWeight (exercise : Exercise.t) (nextWeight : Q) : Exercise.t :=
  {| Exercise.id := Exercise.id exercise;
     Exercise.name := Exercise.name exercise;
     Exercise.currentWeight := nextWeight;
     Exercise.previousWeight := Some (Exercise.currentWeight exercise);
     Exercise.bestWeight := Math_max (Exercise.bestWeight exercise) nextWeight;
     Exercise.completed := false;
     Exercise.notes := Exercise.notes exercise;
     Exercise.targetSets := Exercise.targetSets exercise;
     Exercise.completedSets := Exercise.completedSets exercise |}.

Definition updateExerciseWeight_exercise (exerciseId : string) (nextWeight : Q)
    (exercise : Exercise.t) : Exercise.t :=
  if bool_decide (Exercise.id exercise ≠ exerciseId) then exercise
  else if num_eq (Exercise.currentWeight exercise) nextWeight then exercise
  else shiftWeight exercise nextWeight.

Definition updateExerciseWeight (exerciseId : string) (parsedWeight : option Q)
    (s : State) : State :=
  match parsedWeight, activePlan s with
  | Some parsedWeight, Some active =>
      if num_lt parsedWeight 0 then s
      else
        let nextWeight := toFixed1 parsedWeight in
        setPlans
          (mapActiveExercises (TrainingPlan.id active)
             (updateExerciseWeight_exercise exerciseId nextWeight))
          s
  | _, _ => s
  end.

Definition changeExerciseByDelta_exercise (exerciseId : string) (delta : Q)
    (exercise : Exercise.t) : Exercise.t :=
  if bool_decide (Exercise.id exercise ≠ exerciseId) then exercise
  else
    let nextWeight :=
      clampWeight (toFixed1 (Exercise.currentWeight exercise + delta)) in
    if num_eq nextWeight (Exercise.currentWeight exercise) then exercise
    else shiftWeight exercise nextWeight.

Definition changeExerciseByDelta (exerciseId : string) (delta : Q) (s : State)
  : State :=
  match activePlan s with
  | None => s
  | Some active =>
      setPlans
        (mapActiveExercises (TrainingPlan.id active)
           (changeExerciseByDelta_exercise exerciseId delta))
        s
  end.

Definition setExerciseCompleted_exercise (exerciseId : string)
    (completed : bool) (exercise : Exercise.t) : Exercise.t :=
  if bool_decide (Exercise.id exercise = exerciseId) then
    {| Exercise.id := Exercise.id exercise;
       Exercise.name := Exercise.name exercise;
       Exercise.currentWeight := Exercise.currentWeight exercise;
       Exercise.previousWeight := Exercise.previousWeight exercise;
       Exercise.bestWeight := Exercise.bestWeight exercise;
       Exercise.completed := completed;
       Exercise.notes := Exercise.notes exercise;
       Exercise.targetSets := Exercise.targetSets exercise;
       Exercise.completedSets :=
         if completed then Exercise.targetSets exercise else 0%Z |}
  else exercise.

Definition setExerciseCompleted (exerciseId : string) (completed : bool)
    (s : State) : State :=
  match activePlan s with
  | None => s
  | Some active =>
      setPlans
        (mapActiveExercises (TrainingPlan.id active)
           (setExerciseCompleted_exercise exerciseId completed))
        s
  end.

Definition setExerciseSets_exercise (exerciseId : string)
    (nextCompletedSets : Z) (exercise : Exercise.t) : Exercise.t :=
  if bool_decide (Exercise.id exercise ≠ exerciseId) then exercise
  else
    let clamped := clampInt nextCompletedSets 0 (Exercise.targetSets exercise) in
    {| Exercise.id := Exercise.id exercise;
       Exercise.name := Exercise.name exercise;
       Exercise.currentWeight := Exercise.currentWeight exercise;
       Exercise.previousWeight := Exercise.previousWeight exercise;
       Exercise.bestWeight := Exercise.bestWeight exercise;
       Exercise.completed := (Exercise.targetSets exercise <=? clamped)%Z;
       Exercise.notes := Exercise.notes exercise;
       Exercise.targetSets := Exercise.targetSets exercise;
       Exercise.completedSets := clamped |}.

Definition setExerciseSets (exerciseId : string) (nextCompletedSets : Z)
    (s : State) : State :=
  match activePlan s with
  | None => s
  | Some active =>
      setPlans
        (mapActiveExercises (TrainingPlan.id active)
           (setExerciseSets_exercise exerciseId nextCompletedSets))
        s
  end.

(** [Partial<Pick<Exercise, 'name' | 'notes' | 'targetSets'>>] *)
Module ExercisePatch.
Record t := mk {
    name : option string;
    notes : option string;
    targetSets : option Z
  }.
End ExercisePatch.

Definition updateExerciseMeta_exercise (exerciseId : string)
    (patch : ExercisePatch.t) (exercise : Exercise.t) : Exercise.t :=
  if bool_decide (Exercise.id exercise ≠ exerciseId) then exercise
  else
    let targetSets :=
      match ExercisePatch.targetSets patch with
      | Some n => if (n =? 0)%Z then Exercise.targetSets exercise
                  else clampInt n 1 12
      | None => Exercise.targetSets exercise
      end in
    {| Exercise.id := Exercise.id exercise;
       Exercise.name :=
         default (Exercise.name exercise) (ExercisePatch.name patch);
       Exercise.currentWeight := Exercise.currentWeight exercise;
       Exercise.previousWeight := Exercise.previousWeight exercise;
       Exercise.bestWeight := Exercise.bestWeight exercise;
       Exercise.completed :=
         (targetSets <=? clampInt (Exercise.completedSets exercise) 0 targetSets)%Z;
       Exercise.notes :=
         default (Exercise.notes exercise) (ExercisePatch.notes patch);
       Exercise.targetSets := targetSets;
       Exercise.completedSets :=
         clampInt (Exercise.completedSets exercise) 0 targetSets |}.

Definition updateExerciseMeta (exerciseId : string) (patch : ExercisePatch.t)
    (s : State) : State :=
  match activePlan s with
  | None => s
  | Some active =>
      setPlans
        (mapActiveExercises (TrainingPlan.id active)
           (updateExerciseMeta_exercise exerciseId patch))
        s
  end.

Definition deleteExercise (exerciseId : string) (s : State) : State :=
  match activePlan s with
  | None => s
  | Some active =>
      setPlans
        (mapActivePlan (TrainingPlan.id active)
           (λ plan, withExercises plan
                      (filter (λ exercise, Exercise.id exercise ≠ exerciseId)
                              (TrainingPlan.exercises plan))))
        s
  end.

Definition renameActivePlan (planEditName : string) (s : State) : State :=
  match activePlan s with
  | None => s
  | Some active =>
      let nextName := trim planEditName in
      if bool_decide (nextName = EmptyString) then s
      else
        setPlans
          (mapActivePlan (TrainingPlan.id active)
             (λ plan,
               {| TrainingPlan.id := TrainingPlan.id plan;
                  TrainingPlan.name := nextName;
                  TrainingPlan.exercises := TrainingPlan.exercises plan |}))
          s
  end.

Definition deleteActivePlan (s : State) : State :=
  match activePlan s with
  | None => s
  | Some active =>
      setPlans
        (filter (λ plan, TrainingPlan.id plan ≠ TrainingPlan.id active)) s
  end.

(** The body of the updater of [moveExercise] on the active plan.  The
    empty [removed] branch cannot be taken: [fromIndex] is the index of an
    element. *)
Definition moveExercise_plan (dragId targetId : string) (plan : TrainingPlan.t)
  : TrainingPlan.t :=
  let fromIndex :=
    findIndex (λ exercise, bool_decide (Exercise.id exercise = dragId))
              (TrainingPlan.exercises plan) in
  let toIndex :=
    findIndex (λ exercise, bool_decide (Exercise.id exercise = targetId))
              (TrainingPlan.exercises plan) in
  if (fromIndex <? 0)%Z || (toIndex <? 0)%Z || (fromIndex =? toIndex)%Z
  then plan
  else
    let reordered := TrainingPlan.exercises plan in
    let '(removed, reordered) := splice (Z.to_nat fromIndex) 1 [] reordered in
    match removed with
    | moved :: _ =>
        withExercises plan
          (snd (splice (Z.to_nat toIndex) 0 [moved] reordered))
    | [] => plan
    end.

Definition moveExercise (dragId targetId : string) (s : State) : State :=
  match activePlan s with
  | None => s
  | Some active =>
      if bool_decide (dragId = targetId) then s
      else
        setPlans
          (mapActivePlan (TrainingPlan.id active)
             (moveExercise_plan dragId targetId))
          s
  end.

(** The [isPr] flag of a history snapshot. *)
Definition isPr_of (exercise : Exercise.t) : bool :=
  match Exercise.previousWeight exercise with
  | None => false
  | Some previousWeight =>
      num_ge (Exercise.currentWeight exercise) (Exercise.bestWeight exercise)
      && num_lt previousWeight (Exercise.currentWeight exercise)
  end.

Definition snapshot (exercise : Exercise.t) : HistoryExercise.t :=
  {| HistoryExercise.name := Exercise.name exercise;
     HistoryExercise.weight := Exercise.currentWeight exercise;
     HistoryExercise.completedSets := Exercise.completedSets exercise;
     HistoryExercise.targetSets := Exercise.targetSets exercise;
     HistoryExercise.isPr := isPr_of exercise |}.

Definition finishTraining_entry (newId dateIso : string)
    (active : TrainingPlan.t) : TrainingHistoryEntry.t :=
  {| TrainingHistoryEntry.id := newId;
     TrainingHistoryEntry.dateIso := dateIso;
     TrainingHistoryEntry.planId := TrainingPlan.id active;
     TrainingHistoryEntry.planName := TrainingPlan.name active;
     TrainingHistoryEntry.exercises := snapshot <$> TrainingPlan.exercises active |}.

Definition finishTraining_exercise (exercise : Exercise.t) : Exercise.t :=
  {| Exercise.id := Exercise.id exercise;
     Exercise.name := Exercise.name exercise;
     Exercise.currentWeight := Exercise.currentWeight exercise;
     Exercise.previousWeight := Exercise.previousWeight exercise;
     Exercise.bestWeight := Exercise.bestWeight exercise;
     Exercise.completed := false;
     Exercise.notes := Exercise.notes exercise;
     Exercise.targetSets := Exercise.targetSets exercise;
     Exercise.completedSets := 0 |}.

Definition finishTraining (newId dateIso : string) (s : State) : State :=
  match activePlan s with
  | None => s
  | Some active =>
      if (length (TrainingPlan.exercises active) =? 0)%nat then s
      else
        let entry := finishTraining_entry newId dateIso active in
        setPlans
          (mapActiveExercises (TrainingPlan.id active) finishTraining_exercise)
          (setHistory (λ previous, slice0 40 (entry :: previous)) s)
  end.

(** ** Persistence

    What [JSON.parse (JSON.stringify plans)] hands to [loadPlans]: every
    field of every exercise is present. *)
Definition storedExercise (exercise : Exercise.t) : RawExercise.t :=
  {| RawExercise.id := Exercise.id exercise;
     RawExercise.name := Exercise.name exercise;
     RawExercise.currentWeight := Some (Exercise.currentWeight exercise);
     RawExercise.previousWeight := Exercise.previousWeight exercise;
     RawExercise.bestWeight := Some (Exercise.bestWeight exercise);
     RawExercise.completed := Some (Exercise.completed exercise);
     RawExercise.notes := Some (Exercise.notes exercise);
     RawExercise.targetSets := Some (Exercise.targetSets exercise);
     RawExercise.completedSets := Some (Exercise.completedSets exercise) |}.

Definition storedPlan (plan : TrainingPlan.t) : RawPlan.t :=
  {| RawPlan.id := TrainingPlan.id plan;
     RawPlan.name := TrainingPlan.name plan;
     RawPlan.exercises := Some (storedExercise <$> TrainingPlan.exercises plan) |}.

(** The state of the first render on a given storage, once the selection
    effect has run. *)
Definition initialState (storedPlans : option (list RawPlan.t))
    (storedHistory : option (list TrainingHistoryEntry.t)) : State :=
  syncActivePlan
    {| plans := loadPlans storedPlans;
       history := loadHistory storedHistory;
       activePlanId := EmptyString |}.

(** ** Actions of the user, and the transition they cause *)
Inductive Action :=
  | CreatePlan (newId planName : string)
  | RenameActivePlan (planEditName : string)
  | DeleteActivePlan
  | SelectPlan (planId : string)
  | AddExercise (newId exerciseName : string) (parsedWeight : option Q)
  | UpdateExerciseWeight (exerciseId : string) (parsedWeight : option Q)
  | ChangeExerciseByDelta (exerciseId : string) (delta : Q)
  | SetExerciseCompleted (exerciseId : string) (completed : bool)
  | SetExerciseSets (exerciseId : string) (nextCompletedSets : Z)
  | UpdateExerciseMeta (exerciseId : string) (patch : ExercisePatch.t)
  | DeleteExercise (exerciseId : string)
  | MoveExercise (dragId targetId : string)
  | FinishTraining (newId dateIso : string)
  | Reload.

Definition perform (a : Action) (s : State) : State :=
  match a with
  | CreatePlan newId planName => createPlan newId planName s
  | RenameActivePlan planEditName => renameActivePlan planEditName s
  | DeleteActivePlan => deleteActivePlan s
  | SelectPlan planId => setActivePlanId planId s
  | AddExercise newId exerciseName w => addExercise newId exerciseName w s
  | UpdateExerciseWeight exerciseId w => updateExerciseWeight exerciseId w s
  | ChangeExerciseByDelta exerciseId delta =>
      changeExerciseByDelta exerciseId delta s
  | SetExerciseCompleted exerciseId completed =>
      setExerciseCompleted exerciseId completed s
  | SetExerciseSets exerciseId n => setExerciseSets exerciseId n s
  | UpdateExerciseMeta exerciseId patch => updateExerciseMeta exerciseId patch s
  | DeleteExercise exerciseId => deleteExercise exerciseId s
  | MoveExercise dragId targetId => moveExercise dragId targetId s
  | FinishTraining newId dateIso => finishTraining newId dateIso s
  | Reload =>
      {| plans := loadPlans (Some (storedPlan <$> plans s));
         history := loadHistory (Some (history s));
         activePlanId := EmptyString |}
  end.

Definition step (a : Action) (s : State) : State := syncActivePlan (perform a s).

(** The states the component can get to from [s0]. *)
Inductive reachable (s0 : State) : State → Prop :=
  | reachable_start : reachable s0 s0
  | reachable_step a s : reachable s0 s → reachable s0 (step a s).

Definition run (actions : list Action) (s : State) : State :=
  foldl (λ s a, step a s) s actions.

(** ** State predicates *)

Definition all_in_plan (P : Exercise.t → Prop) (plan : TrainingPlan.t) : Prop :=
  Forall P (TrainingPlan.exercises plan).

Definition all_exercises (P : Exercise.t → Prop) (s : State) : Prop :=
  Forall (all_in_plan P) (plans s).

Definition sets_in_range (exercise : Exercise.t) : Prop :=
  (0 ≤ Exercise.completedSets exercise ≤ Exercise.targetSets exercise)%Z.

Definition target_in_range (exercise : Exercise.t) : Prop :=
  (1 ≤ Exercise.targetSets exercise ≤ 12)%Z.

Definition best_covers_current (exercise : Exercise.t) : Prop :=
  (Exercise.currentWeight exercise <= Exercise.bestWeight exercise)%Q.

(** The [completed] flag agrees with the set counter. *)
Definition completed_in_sync (exercise : Exercise.t) : Prop :=
  Exercise.completed exercise
  = (Exercise.targetSets exercise <=? Exercise.completedSets exercise)%Z.

(** The exercise at position [i] of the plan at position [k]. *)
Definition exercise_at (s : State) (k i : nat) : option Exercise.t :=
  plans s !! k ≫= λ plan, TrainingPlan.exercises plan !! i.

(** What a weight operation whose rounded (and, for a delta, clamped) result
    is [nextWeight] does to an exercise. *)
Definition weight_moved_to (nextWeight : Q) (exercise exercise' : Exercise.t)
  : Prop :=
  ((Exercise.currentWeight exercise == nextWeight)%Q → exercise' = exercise)
  ∧ (¬ (Exercise.currentWeight exercise == nextWeight)%Q →
     Exercise.currentWeight exercise' = nextWeight
     ∧ Exercise.bestWeight exercise'
       = Math_max (Exercise.bestWeight exercise)
                  (Exercise.currentWeight exercise')
     ∧ (Exercise.bestWeight exercise <= Exercise.bestWeight exercise')%Q
     ∧ (Exercise.currentWeight exercise' <= Exercise.bestWeight exercise')%Q
     ∧ Exercise.previousWeight exercise'
       = Some (Exercise.currentWeight exercise)).

(** What [finishTraining] does to an exercise of the finished plan: the set
    counter restarts, the progression data stays. *)
Definition sets_reset (exercise exercise' : Exercise.t) : Prop :=
  Exercise.completedSets exercise' = 0%Z
  ∧ Exercise.currentWeight exercise' = Exercise.currentWeight exercise
  ∧ Exercise.bestWeight exercise' = Exercise.bestWeight exercise
  ∧ Exercise.previousWeight exercise' = Exercise.previousWeight exercise
  ∧ Exercise.id exercise' = Exercise.id exercise
  ∧ Exercise.name exercise' = Exercise.name exercise
  ∧ Exercise.notes exercise' = Exercise.notes exercise
  ∧ Exercise.targetSets exercise' = Exercise.targetSets exercise.

(** The plan is the same plan with its exercises in another order. *)
Definition reordered (plan plan' : TrainingPlan.t) : Prop :=
  TrainingPlan.id plan' = TrainingPlan.id plan
  ∧ TrainingPlan.name plan' = TrainingPlan.name plan
  ∧ TrainingPlan.exercises plan' ≡ₚ TrainingPlan.exercises plan.

(** Frames of the operations aimed at the exercise [exerciseId] of the
    active plan.  [touches_only]: position by position, every exercise with
    another id is the same record.  [others]: the exercises that do not
    carry the id, in order. *)
Definition touches_only (exerciseId : string) (l l' : list Exercise.t) : Prop :=
  Forall2 (λ exercise exercise',
             Exercise.id exercise ≠ exerciseId → exercise' = exercise) l l'.

Definition others (exerciseId : string) (l : list Exercise.t)
  : list Exercise.t :=
  filter (λ exercise, Exercise.id exercise ≠ exerciseId) l.

Definition framed (inside : list Exercise.t → list Exercise.t → Prop)
    (s s' : State) : Prop :=
  history s' = history s
  ∧ activePlanId s' = activePlanId s
  ∧ Forall2
      (λ plan plan',
         TrainingPlan.id plan' = TrainingPlan.id plan
         ∧ TrainingPlan.name plan' = TrainingPlan.name plan
         ∧ (TrainingPlan.id plan ≠ activePlanId s → plan' = plan)
         ∧ inside (TrainingPlan.exercises plan) (TrainingPlan.exercises plan'))
      (plans s) (plans s').

(** A stored record whose best weight, when there is one, is not below its
    current weight; and a storage slot holding only such records. *)
Definition stored_best_ok (input : RawExercise.t) : Prop :=
  match RawExercise.bestWeight input with
  | None => True
  | Some bestWeight =>
      (default 0%Q (RawExercise.currentWeight input) <= bestWeight)%Q
  end.

Definition storage_best_ok (storedPlans : option (list RawPlan.t)) : Prop :=
  ∀ parsed plan exercises,
    storedPlans = Some parsed → plan ∈ parsed →
    RawPlan.exercises plan = Some exercises →
    Forall stored_best_ok exercises.

(** How the exercises of a plan, and the plans, change in one transition. *)
Definition best_not_lowered (exercise exercise' : Exercise.t) : Prop :=
  Exercise.id exercise' = Exercise.id exercise
  ∧ (Exercise.bestWeight exercise <= Exercise.bestWeight exercise')%Q.

Inductive exercises_evolve : list Exercise.t → list Exercise.t → Prop :=
  | evolve_each l l' :
      Forall2 best_not_lowered l l' → exercises_evolve l l'
  | evolve_added l exercise :
      Exercise.bestWeight exercise = Exercise.currentWeight exercise →
      exercises_evolve l (l ++ [exercise])
  | evolve_deleted l exerciseId :
      exercises_evolve l (others exerciseId l)
  | evolve_moved l l' :
      l' ≡ₚ l → exercises_evolve l l'.

Inductive plans_evolve : list TrainingPlan.t → list TrainingPlan.t → Prop :=
  | plans_each previous next :
      Forall2 (λ plan plan',
                 TrainingPlan.id plan' = TrainingPlan.id plan
                 ∧ exercises_evolve (TrainingPlan.exercises plan)
                                    (TrainingPlan.exercises plan'))
              previous next →
      plans_evolve previous next
  | plans_created previous plan :
      TrainingPlan.exercises plan = [] →
      plans_evolve previous (plan :: previous)
  | plans_deleted previous planId :
      plans_evolve previous
        (filter (λ plan, TrainingPlan.id plan ≠ planId) previous).

(** What a weight operation that really moves the weight to [nextWeight]
    leaves behind. *)
Definition weight_applied (nextWeight : Q) (exercise exercise' : Exercise.t)
  : Prop :=
  Exercise.previousWeight exercise' = Some (Exercise.currentWeight exercise)
  ∧ Exercise.currentWeight exercise' = nextWeight
  ∧ Exercise.bestWeight exercise'
    = Math_max (Exercise.bestWeight exercise) nextWeight
  ∧ Exercise.completed exercise' = false
  ∧ Exercise.completedSets exercise' = Exercise.completedSets exercise
  ∧ Exercise.targetSets exercise' = Exercise.targetSets exercise
  ∧ Exercise.id exercise' = Exercise.id exercise
  ∧ Exercise.name exercise' = Exercise.name exercise
  ∧ Exercise.notes exercise' = Exercise.notes exercise.

(** ** Derived views and the rest timer of [src/App.tsx] *)

(** [formatDelta].  [None] is [null]; [Some d] is the text
    [`+${deltaKg.toFixed(1)} kg / +${deltaPercent.toFixed(1)}%`], of which
    the model keeps the two numbers handed to [toFixed]: which digits are
    printed depends on the binary rounding of the quotient. *)
Record DeltaText := mkDeltaText {
  deltaKg : Q;
  deltaPercent : Q
}.

Definition formatDelta (exercise : Exercise.t) : option DeltaText :=
  match Exercise.previousWeight exercise with
  | None => None
  | Some previousWeight =>
      let deltaKg := (Exercise.currentWeight exercise - previousWeight)%Q in
      if Qle_bool deltaKg 0 then None
      else
        let deltaPercent :=
          if num_lt 0 previousWeight
          then (deltaKg / previousWeight * 100)%Q else 100%Q in
        Some {| deltaKg := deltaKg; deltaPercent := deltaPercent |}
  end.

(** [s.padStart(2, '0')] *)
Definition padStart2 (s : string) : string :=
  match String.length s with
  | 0 => "00" | 1 => "0" +:+ s | _ => s
  end.

(** [formatTimer], on a whole number of seconds. *)
Definition formatTimer (seconds : Z) : string :=
  let m := padStart2 (pretty (seconds `div` 60)%Z) in
  let s := padStart2 (pretty (seconds `rem` 60)%Z) in
  m +:+ ":" +:+ s.

(** The filter of [progressCount]. *)
Definition progressed (exercise : Exercise.t) : bool :=
  match Exercise.previousWeight exercise with
  | None => false
  | Some previousWeight => num_lt previousWeight (Exercise.currentWeight exercise)
  end.

(** The statistics of the active plan.  [avgWeight] is the quotient of the
    sum by the count as numbers are modelled here, exactly; the component
    computes both in binary floating point. *)
Record PlanStats := mkPlanStats {
  exerciseCount : nat;
  avgWeight : Q;
  progressCount : nat;
  completedCount : nat
}.

Definition totalWeight (exercises : list Exercise.t) : Q :=
  foldl (λ sum exercise, (sum + Exercise.currentWeight exercise)%Q) 0%Q
        exercises.

Definition planStats (s : State) : PlanStats :=
  match activePlan s with
  | None =>
      {| exerciseCount := 0; avgWeight := 0; progressCount := 0;
         completedCount := 0 |}
  | Some active =>
      let exerciseCount := length (TrainingPlan.exercises active) in
      let totalWeight := totalWeight (TrainingPlan.exercises active) in
      {| exerciseCount := exerciseCount;
         avgWeight :=
           if (0 <? exerciseCount)%nat
           then (totalWeight / inject_Z (Z.of_nat exerciseCount))%Q else 0%Q;
         progressCount :=
           length (List.filter progressed (TrainingPlan.exercises active));
         completedCount :=
           length (List.filter Exercise.completed
                               (TrainingPlan.exercises active)) |}
  end.

(** The click handler of the set chip number [setNumber] of an exercise. *)
Definition clickSetChip (exercise : Exercise.t) (setNumber : Z) (s : State)
  : State :=
  let done := (setNumber <=? Exercise.completedSets exercise)%Z in
  setExerciseSets (Exercise.id exercise)
                  (if done then setNumber - 1 else setNumber)%Z s.

(** The rest timer: the two state cells, the three buttons, and the
    callback the interval runs once a second while [restRunning]. *)
Record RestTimer := mkRestTimer {
  restSeconds : Z;
  restRunning : bool
}.

Definition restTimer_initial : RestTimer :=
  {| restSeconds := 90; restRunning := false |}.

Inductive TimerEvent := Preset90 | Add30 | ToggleRunning | Tick.

Definition restTimer_step (e : TimerEvent) (t : RestTimer) : RestTimer :=
  match e with
  | Preset90 => {| restSeconds := 90; restRunning := restRunning t |}
  | Add30 =>
      {| restSeconds := restSeconds t + 30; restRunning := restRunning t |}
  | ToggleRunning =>
      {| restSeconds := restSeconds t; restRunning := negb (restRunning t) |}
  | Tick =>
      if restRunning t then
        if (restSeconds t <=? 1)%Z
        then {| restSeconds := 0; restRunning := false |}
        else {| restSeconds := restSeconds t - 1;
                restRunning := restRunning t |}
      else t
  end.

Definition restTimer_run (events : list TimerEvent) (t : RestTimer)
  : RestTimer :=
  foldl (λ t e, restTimer_step e t) t events.

(** ** Predicates of the further properties *)

(** The selection refers to a plan, or is empty when there is none. *)
Definition selection_ok (s : State) : Prop :=
  match plans s with
  | [] => activePlanId s = EmptyString
  | _ :: _ => is_Some (activePlan s)
  end.

Definition weight_nonneg (exercise : Exercise.t) : Prop :=
  (0 <= Exercise.currentWeight exercise)%Q.

(** The current weight is a whole number of tenths. *)
Definition one_decimal (exercise : Exercise.t) : Prop :=
  ∃ n : Z, (Exercise.currentWeight exercise == n # 10)%Q.

Definition stored_weight_ok (P : Exercise.t → Prop)
    (storedPlans : option (list RawPlan.t)) : Prop :=
  ∀ parsed plan exercises,
    storedPlans = Some parsed → plan ∈ parsed →
    RawPlan.exercises plan = Some exercises →
    Forall (λ input, P (normalizeExercise input)) exercises.

(** [l'] is [l] with the element [moved] taken out at index [from] and put
    back at index [to]; the other elements keep their order. *)
Definition taken_to {A} (from to : nat) (moved : A) (l l' : list A) : Prop :=
  l !! from = Some moved
  ∧ l' !! to = Some moved
  ∧ delete to l' = delete from l.

(** ** The [gymapp:v3] iteration

    The later iteration of the component drops the [completed] flag and the
    [planId] of a history entry, reorders by one step instead of by drag and
    drop, and retains 60 history entries. *)
Module V3.

Module Exercise.
Record t := mk {
      id : string;
      name : string;
      currentWeight : Q;
      previousWeight : option Q;
      bestWeight : Q;
      notes : string;
      targetSets : Z;
      completedSets : Z
    }.
End Exercise.

Module TrainingPlan.
Record t := mk {
      id : string;
      name : string;
      exercises : list Exercise.t
    }.
End TrainingPlan.

Module TrainingHistoryEntry.
Record t := mk {
      id : string;
      dateIso : string;
      planName : string;
      exercises : list HistoryExercise.t
    }.
End TrainingHistoryEntry.

Record State := mkState {
    plans : list TrainingPlan.t;
    history : list TrainingHistoryEntry.t;
    activePlanId : string
  }.

Definition activePlan (s : State) : option TrainingPlan.t :=
    List.find (λ plan, bool_decide (TrainingPlan.id plan = activePlanId s))
              (plans s).

Definition withExercises (plan : TrainingPlan.t)
      (exercises : list Exercise.t) : TrainingPlan.t :=
    {| TrainingPlan.id := TrainingPlan.id plan;
       TrainingPlan.name := TrainingPlan.name plan;
       TrainingPlan.exercises := exercises |}.

Definition mapActivePlan (activeId : string)
      (f : TrainingPlan.t → TrainingPlan.t) (prev : list TrainingPlan.t)
    : list TrainingPlan.t :=
    (λ plan, if bool_decide (TrainingPlan.id plan ≠ activeId) then plan
             else f plan) <$> prev.

  (** [offset: -1 | 1] *)
Inductive Offset := MinusOne | PlusOne.

Definition offset_value (offset : Offset) : Z :=
    match offset with MinusOne => (-1)%Z | PlusOne => 1%Z end.

Definition moveExerciseByOffset_plan (exerciseId : string) (offset : Offset)
      (plan : TrainingPlan.t) : TrainingPlan.t :=
    let index :=
      findIndex (λ exercise, bool_decide (Exercise.id exercise = exerciseId))
                (TrainingPlan.exercises plan) in
    let target := (index + offset_value offset)%Z in
    if (index <? 0)%Z || (target <? 0)%Z
       || (Z.of_nat (length (TrainingPlan.exercises plan)) <=? target)%Z
    then plan
    else
      let reordered := TrainingPlan.exercises plan in
      let '(removed, reordered) := splice (Z.to_nat index) 1 [] reordered in
      match removed with
      | moved :: _ =>
          withExercises plan
            (snd (splice (Z.to_nat target) 0 [moved] reordered))
      | [] => plan
      end.

Definition moveExerciseByOffset (exerciseId : string) (offset : Offset)
      (s : State) : State :=
    match activePlan s with
    | None => s
    | Some active =>
        {| plans :=
             mapActivePlan (TrainingPlan.id active)
               (moveExerciseByOffset_plan exerciseId offset) (plans s);
           history := history s;
           activePlanId := activePlanId s |}
    end.

Definition isPr_of (exercise : Exercise.t) : bool :=
    match Exercise.previousWeight exercise with
    | None => false
    | Some previousWeight =>
        num_ge (Exercise.currentWeight exercise) (Exercise.bestWeight exercise)
        && num_lt previousWeight (Exercise.currentWeight exercise)
    end.

Definition snapshot (exercise : Exercise.t) : HistoryExercise.t :=
    {| HistoryExercise.name := Exercise.name exercise;
       HistoryExercise.weight := Exercise.currentWeight exercise;
       HistoryExercise.completedSets := Exercise.completedSets exercise;
       HistoryExercise.targetSets := Exercise.targetSets exercise;
       HistoryExercise.isPr := isPr_of exercise |}.

Definition finishWorkout_entry (newId dateIso : string)
      (active : TrainingPlan.t) : TrainingHistoryEntry.t :=
    {| TrainingHistoryEntry.id := newId;
       TrainingHistoryEntry.dateIso := dateIso;
       TrainingHistoryEntry.planName := TrainingPlan.name active;
       TrainingHistoryEntry.exercises :=
         snapshot <$> TrainingPlan.exercises active |}.

Definition finishWorkout_exercise (exercise : Exercise.t) : Exercise.t :=
    {| Exercise.id := Exercise.id exercise;
       Exercise.name := Exercise.name exercise;
       Exercise.currentWeight := Exercise.currentWeight exercise;
       Exercise.previousWeight := Exercise.previousWeight exercise;
       Exercise.bestWeight := Exercise.bestWeight exercise;
       Exercise.notes := Exercise.notes exercise;
       Exercise.targetSets := Exercise.targetSets exercise;
       Exercise.completedSets := 0 |}.

Definition finishWorkout (newId dateIso : string) (s : State) : State :=
    match activePlan s with
    | None => s
    | Some active =>
        if (length (TrainingPlan.exercises active) =? 0)%nat then s
        else
          let entry := finishWorkout_entry newId dateIso active in
          {| plans :=
               mapActivePlan (TrainingPlan.id active)
                 (λ plan, withExercises plan
                            (finishWorkout_exercise
                               <$> TrainingPlan.exercises plan))
                 (plans s);
             history := slice0 60 (entry :: history s);
             activePlanId := activePlanId s |}
    end.

Definition reordered (plan plan' : TrainingPlan.t) : Prop :=
    TrainingPlan.id plan' = TrainingPlan.id plan
    ∧ TrainingPlan.name plan' = TrainingPlan.name plan
    ∧ TrainingPlan.exercises plan' ≡ₚ TrainingPlan.exercises plan.

End V3.

(** ** Sample data *)

Definition bench : Exercise.t :=
  {| Exercise.id := "e1"; Exercise.name := "Bench";
     Exercise.currentWeight := 20; Exercise.previousWeight := Some 18%Q;
     Exercise.bestWeight := 20; Exercise.completed := true;
     Exercise.notes := ""; Exercise.targetSets := 3;
     Exercise.completedSets := 3 |}.

Definition squat : Exercise.t :=
  {| Exercise.id := "e2"; Exercise.name := "Squat";
     Exercise.currentWeight := 19; Exercise.previousWeight := Some 18%Q;
     Exercise.bestWeight := 20; Exercise.completed := false;
     Exercise.notes := ""; Exercise.targetSets := 3;
     Exercise.completedSets := 1 |}.

Definition row : Exercise.t :=
  {| Exercise.id := "e3"; Exercise.name := "Row";
     Exercise.currentWeight := 40; Exercise.previousWeight := None;
     Exercise.bestWeight := 40; Exercise.completed := false;
     Exercise.notes := ""; Exercise.targetSets := 4;
     Exercise.completedSets := 0 |}.

Definition pushDay : TrainingPlan.t :=
  {| TrainingPlan.id := "p1"; TrainingPlan.name := "Push Day";
     TrainingPlan.exercises := [bench; squat; row] |}.

Definition pullDay : TrainingPlan.t :=
  {| TrainingPlan.id := "p2"; TrainingPlan.name := "Pull Day";
     TrainingPlan.exercises := [row] |}.

Definition sampleState : State :=
  {| plans := [pushDay; pullDay]; history := []; activePlanId := "p1" |}.

(** A storage written by hand: counters out of range, a best weight below
    the current one, fields missing. *)
Definition strayExercise : RawExercise.t :=
  {| RawExercise.id := "e9"; RawExercise.name := "Curl";
     RawExercise.currentWeight := Some 50%Q;
     RawExercise.previousWeight := None;
     RawExercise.bestWeight := Some 20%Q;
     RawExercise.completed := None; RawExercise.notes := None;
     RawExercise.targetSets := Some 40%Z;
     RawExercise.completedSets := Some 99%Z |}.

Definition legacyExercise : RawExercise.t :=
  {| RawExercise.id := "e8"; RawExercise.name := "Dip";
     RawExercise.currentWeight := Some 30%Q;
     RawExercise.previousWeight := Some 25%Q;
     RawExercise.bestWeight := None;
     RawExercise.completed := Some true; RawExercise.notes := None;
     RawExercise.targetSets := None;
     RawExercise.completedSets := None |}.

Definition strayStorage : option (list RawPlan.t) :=
  Some [ {| RawPlan.id := "p9"; RawPlan.name := "Arms";
            RawPlan.exercises := Some [strayExercise; legacyExercise] |} ].

Definition legacyStorage : option (list RawPlan.t) :=
  Some [ {| RawPlan.id := "p8"; RawPlan.name := "Old";
            RawPlan.exercises := Some [legacyExercise] |} ].

Definition shrinkTarget : ExercisePatch.t :=
  {| ExercisePatch.name := None; ExercisePatch.notes := None;
     ExercisePatch.targetSets := Some 2%Z |}.

Definition oldEntry : TrainingHistoryEntry.t :=
  {| TrainingHistoryEntry.id := "h0"; TrainingHistoryEntry.dateIso := "2024-01-01";
     TrainingHistoryEntry.planId := "p1";
     TrainingHistoryEntry.planName := "Push Day";
     TrainingHistoryEntry.exercises := [] |}.

(** [sampleState] after 45 finished workouts. *)
Definition seasonedState : State :=
  {| plans := [pushDay; pullDay]; history := replicate 45 oldEntry;
     activePlanId := "p1" |}.

Definition v3Exercise (exerciseId : string) (weight : Q) : V3.Exercise.t :=
  {| V3.Exercise.id := exerciseId; V3.Exercise.name := exerciseId;
     V3.Exercise.currentWeight := weight; V3.Exercise.previousWeight := None;
     V3.Exercise.bestWeight := weight; V3.Exercise.notes := EmptyString;
     V3.Exercise.targetSets := 3; V3.Exercise.completedSets := 0 |}.

Definition v3Plan : V3.TrainingPlan.t :=
  {| V3.TrainingPlan.id := "p1"; V3.TrainingPlan.name := "Full Body";
     V3.TrainingPlan.exercises :=
       [v3Exercise "a" 20; v3Exercise "b" 30; v3Exercise "c" 40] |}.

(** A session under way: a plan "Push Day" with "Bench" at 20.0 kg, all
    three sets checked off. *)
Definition trainedState : State :=
  run [CreatePlan "p1" "Push Day"; AddExercise "e1" "Bench" (Some 20%Q);
       SetExerciseCompleted "e1" true]
      (initialState None None).

(** * Properties *)

(** ** Numbers *)

Lemma Math_max_l a b : (a <= Math_max a b)%Q.
Proof.
  unfold Math_max. destruct (Qle_bool a b) eqn:E.
  - by apply Qle_bool_iff.
  - apply Qle_refl.
Qed.

Lemma Math_max_r a b : (b <= Math_max a b)%Q.
Proof.
  unfold Math_max. destruct (Qle_bool a b) eqn:E.
  - apply Qle_refl.
  - apply Qlt_le_weak, Qnot_le_lt. intros H. apply Qle_bool_iff in H. congruence.
Qed.

Lemma num_eq_refl a : num_eq a a = true.
Proof. apply Qeq_bool_iff. reflexivity. Qed.

Lemma num_eq_true a b : num_eq a b = true ↔ (a == b)%Q.
Proof. apply Qeq_bool_iff. Qed.

Lemma num_eq_false a b : num_eq a b = false ↔ ¬ (a == b)%Q.
Proof.
  rewrite <- num_eq_true. destruct (num_eq a b); split; done.
Qed.

Lemma num_lt_true a b : num_lt a b = true ↔ (a < b)%Q.
Proof.
  unfold num_lt. rewrite negb_true_iff. split.
  - intros H. apply Qnot_le_lt. intros H'. apply Qle_bool_iff in H'. congruence.
  - intros H. destruct (Qle_bool b a) eqn:E; [|done].
    apply Qle_bool_iff in E. by apply Qlt_not_le in H.
Qed.

Lemma num_ge_true a b : num_ge a b = true ↔ (b <= a)%Q.
Proof. apply Qle_bool_iff. Qed.

Lemma clampInt_id value min max :
  (min ≤ value ≤ max)%Z → clampInt value min max = value.
Proof. unfold clampInt. lia. Qed.

(** ** Lists: [findIndex] and the splice-based move *)

Lemma findIndex_ge {A} (p : A → bool) l : (-1 ≤ findIndex p l)%Z.
Proof.
  induction l as [|x r IH]; simpl; [lia|].
  destruct (p x); [lia|]. destruct (findIndex p r <? 0)%Z; lia.
Qed.

Lemma findIndex_found {A} (p : A → bool) l :
  (0 ≤ findIndex p l)%Z →
  ∃ x, l !! Z.to_nat (findIndex p l) = Some x ∧ p x = true.
Proof.
  induction l as [|x r IH]; simpl; [lia|].
  destruct (p x) eqn:Hp; [by exists x|].
  destruct (findIndex p r <? 0)%Z eqn:Hneg; [lia|].
  apply Z.ltb_ge in Hneg. intros _.
  destruct (IH Hneg) as (y & Hy & Hpy). exists y. split; [|done].
  by replace (Z.to_nat (findIndex p r + 1)) with (S (Z.to_nat (findIndex p r)))
    by lia.
Qed.

Lemma findIndex_absent {A} (p : A → bool) l :
  (findIndex p l < 0)%Z ↔ Forall (λ x, p x = false) l.
Proof.
  induction l as [|x r IH]; simpl.
  - split; [constructor | lia].
  - destruct (p x) eqn:Hp.
    + split; [lia|]. intros H. apply Forall_cons in H as [H' _]. congruence.
    + pose proof (findIndex_ge p r) as Hge.
      destruct (findIndex p r <? 0)%Z eqn:Hneg.
      * apply Z.ltb_lt in Hneg. split; [|lia].
        intros _. constructor; [done|]. by apply IH.
      * apply Z.ltb_ge in Hneg. split; [lia|].
        intros H. apply Forall_cons in H as [_ H']. apply IH in H'. lia.
Qed.

Lemma findIndex_lt_length {A} (p : A → bool) l :
  (findIndex p l < Z.of_nat (length l))%Z.
Proof.
  destruct (Z.lt_ge_cases (findIndex p l) 0) as [H|H].
  - lia.
  - destruct (findIndex_found p l H) as (x & Hx & _).
    apply lookup_lt_Some in Hx. lia.
Qed.

Lemma splice_remove_one {A} (l : list A) i x :
  l !! i = Some x → splice i 1 [] l = ([x], delete i l).
Proof.
  intros H. unfold splice. f_equal.
  - rewrite (drop_S l x i H). done.
  - simpl. by rewrite Nat.add_1_r, delete_take_drop.
Qed.

Lemma splice_insert_one {A} (l : list A) i x :
  snd (splice i 0 [x] l) = take i l ++ x :: drop i l.
Proof. unfold splice. simpl. by rewrite Nat.add_0_r. Qed.

Lemma moved_to_perm {A} (l : list A) from to x :
  l !! from = Some x → moved_to from to x l ≡ₚ l.
Proof.
  intros H. unfold moved_to.
  rewrite <- Permutation_middle, take_drop. symmetry. by apply delete_Permutation.
Qed.

Lemma moved_to_lookup {A} (l : list A) from to x :
  l !! from = Some x → to < length l → moved_to from to x l !! to = Some x.
Proof.
  intros H Hto. unfold moved_to.
  assert (length (delete from l) = length l - 1) as Hlen.
  { rewrite length_delete; [lia|]. by eexists. }
  apply list_lookup_middle. rewrite length_take. lia.
Qed.

Lemma moved_to_others {A} (l : list A) from to x :
  l !! from = Some x → to < length l →
  delete to (moved_to from to x l) = delete from l.
Proof.
  intros H Hto. unfold moved_to.
  assert (length (delete from l) = length l - 1) as Hlen.
  { rewrite length_delete; [lia|]. by eexists. }
  rewrite delete_take_drop.
  rewrite take_app_le by (rewrite length_take; lia).
  rewrite take_take, Nat.min_id.
  rewrite drop_app_ge by (rewrite length_take; lia).
  rewrite length_take.
  replace (S to - to `min` length (delete from l)) with 1 by lia.
  simpl. rewrite drop_0. apply take_drop.
Qed.

(** ** Plans: what an updater of the active plan does to the list *)

Lemma plans_syncActivePlan s : plans (syncActivePlan s) = plans s.
Proof.
  unfold syncActivePlan. destruct (plans s) eqn:E; [done|].
  by destruct (existsb _ _).
Qed.

Lemma history_syncActivePlan s : history (syncActivePlan s) = history s.
Proof.
  unfold syncActivePlan. destruct (plans s) eqn:E; [done|].
  by destruct (existsb _ _).
Qed.

Lemma activePlan_id s active :
  activePlan s = Some active → TrainingPlan.id active = activePlanId s.
Proof.
  unfold activePlan. intros H. apply find_some in H as [_ H].
  by apply bool_decide_eq_true in H.
Qed.

Lemma mapActivePlan_lookup activeId f previous k :
  mapActivePlan activeId f previous !! k
  = (λ plan, if bool_decide (TrainingPlan.id plan ≠ activeId) then plan
             else f plan) <$> previous !! k.
Proof. unfold mapActivePlan. apply list_lookup_fmap. Qed.

Lemma mapActivePlan_active activeId f previous k plan :
  previous !! k = Some plan → TrainingPlan.id plan = activeId →
  mapActivePlan activeId f previous !! k = Some (f plan).
Proof.
  intros H Heq. rewrite mapActivePlan_lookup, H. simpl.
  rewrite bool_decide_eq_false_2; [done|]. by intros ?.
Qed.

Lemma mapActiveExercises_active activeId g previous k plan i exercise :
  previous !! k = Some plan → TrainingPlan.id plan = activeId →
  TrainingPlan.exercises plan !! i = Some exercise →
  ∃ plan', mapActiveExercises activeId g previous !! k = Some plan'
    ∧ TrainingPlan.id plan' = TrainingPlan.id plan
    ∧ TrainingPlan.name plan' = TrainingPlan.name plan
    ∧ length (TrainingPlan.exercises plan') = length (TrainingPlan.exercises plan)
    ∧ TrainingPlan.exercises plan' !! i = Some (g exercise).
Proof.
  intros Hk Hid Hi. eexists. split; [by apply mapActivePlan_active|].
  simpl. rewrite length_fmap, list_lookup_fmap, Hi. done.
Qed.

(** An updater that keeps plan ids keeps the active plan active. *)
Lemma find_mapActivePlan activeId f previous :
  (∀ plan, TrainingPlan.id (f plan) = TrainingPlan.id plan) →
  List.find (λ plan, bool_decide (TrainingPlan.id plan = activeId))
    (mapActivePlan activeId f previous)
  = f <$> List.find (λ plan, bool_decide (TrainingPlan.id plan = activeId))
            previous.
Proof.
  intros Hf. induction previous as [|plan r IH]; [done|]. simpl.
  destruct (decide (TrainingPlan.id plan = activeId)) as [Heq|Hne].
  - rewrite (bool_decide_eq_false_2 (TrainingPlan.id plan ≠ activeId)) by tauto.
    rewrite !bool_decide_eq_true_2; [done..|]. by rewrite Hf.
  - rewrite (bool_decide_eq_true_2 (TrainingPlan.id plan ≠ activeId)) by done.
    rewrite bool_decide_eq_false_2 by done. apply IH.
Qed.

Lemma activePlan_mapActivePlan f s active :
  (∀ plan, TrainingPlan.id (f plan) = TrainingPlan.id plan) →
  activePlan s = Some active →
  activePlan (setPlans (mapActivePlan (TrainingPlan.id active) f) s)
  = Some (f active).
Proof.
  intros Hf Ha. pose proof (activePlan_id _ _ Ha) as Hid.
  unfold activePlan in *. simpl. rewrite Hid.
  rewrite find_mapActivePlan by done. by rewrite Ha.
Qed.

Lemma mapActivePlan_Forall (P : TrainingPlan.t → Prop) activeId f previous :
  (∀ plan, P plan → P (f plan)) →
  Forall P previous → Forall P (mapActivePlan activeId f previous).
Proof.
  intros Hf H. unfold mapActivePlan. apply Forall_fmap.
  eapply Forall_impl; [done|]. intros plan Hp. simpl.
  destruct (bool_decide _); auto.
Qed.

(** ** The two reorder operations, as one move of one element *)

Lemma moveExercise_plan_cases dragId targetId plan :
  let fromIndex :=
    findIndex (λ exercise, bool_decide (Exercise.id exercise = dragId))
              (TrainingPlan.exercises plan) in
  let toIndex :=
    findIndex (λ exercise, bool_decide (Exercise.id exercise = targetId))
              (TrainingPlan.exercises plan) in
  (((fromIndex < 0)%Z ∨ (toIndex < 0)%Z ∨ fromIndex = toIndex)
   ∧ moveExercise_plan dragId targetId plan = plan)
  ∨ (∃ moved,
       (0 ≤ fromIndex)%Z ∧ (0 ≤ toIndex)%Z ∧ fromIndex ≠ toIndex
       ∧ TrainingPlan.exercises plan !! Z.to_nat fromIndex = Some moved
       ∧ Exercise.id moved = dragId
       ∧ Z.to_nat toIndex < length (TrainingPlan.exercises plan)
       ∧ moveExercise_plan dragId targetId plan
         = withExercises plan
             (moved_to (Z.to_nat fromIndex) (Z.to_nat toIndex) moved
                       (TrainingPlan.exercises plan))).
Proof.
  intros fromIndex toIndex. unfold moveExercise_plan.
  fold fromIndex toIndex.
  destruct (fromIndex <? 0)%Z eqn:Hf; [left; split; [lia | done]|].
  destruct (toIndex <? 0)%Z eqn:Ht; [left; split; [lia | done]|].
  destruct (fromIndex =? toIndex)%Z eqn:He; [left; split; [lia | done]|].
  right. cbv zeta.
  apply Z.ltb_ge in Hf, Ht. apply Z.eqb_neq in He.
  destruct (findIndex_found _ _ Hf) as (moved & Hm & Hp).
  fold fromIndex in Hm. apply bool_decide_eq_true in Hp.
  pose proof (findIndex_lt_length
    (λ exercise, bool_decide (Exercise.id exercise = targetId))
    (TrainingPlan.exercises plan)) as Hlt. fold toIndex in Hlt.
  exists moved. repeat split; try done; [lia|].
  rewrite (splice_remove_one _ _ _ Hm). by rewrite splice_insert_one.
Qed.

Lemma moveExercise_plan_id dragId targetId plan :
  TrainingPlan.id (moveExercise_plan dragId targetId plan) = TrainingPlan.id plan.
Proof.
  destruct (moveExercise_plan_cases dragId targetId plan)
    as [[_ ->]|(moved & _ & _ & _ & _ & _ & _ & ->)]; done.
Qed.

Lemma moveExercise_plan_name dragId targetId plan :
  TrainingPlan.name (moveExercise_plan dragId targetId plan)
  = TrainingPlan.name plan.
Proof.
  destruct (moveExercise_plan_cases dragId targetId plan)
    as [[_ ->]|(moved & _ & _ & _ & _ & _ & _ & ->)]; done.
Qed.

Lemma moveExercise_plan_perm dragId targetId plan :
  TrainingPlan.exercises (moveExercise_plan dragId targetId plan)
  ≡ₚ TrainingPlan.exercises plan.
Proof.
  destruct (moveExercise_plan_cases dragId targetId plan)
    as [[_ ->]|(moved & _ & _ & _ & Hm & _ & _ & ->)]; [done|].
  simpl. by apply moved_to_perm.
Qed.

Lemma moveExerciseByOffset_plan_cases exerciseId offset plan :
  let index :=
    findIndex (λ exercise, bool_decide (V3.Exercise.id exercise = exerciseId))
              (V3.TrainingPlan.exercises plan) in
  let target := (index + V3.offset_value offset)%Z in
  (((index < 0)%Z ∨ (target < 0)%Z
    ∨ (Z.of_nat (length (V3.TrainingPlan.exercises plan)) ≤ target)%Z)
   ∧ V3.moveExerciseByOffset_plan exerciseId offset plan = plan)
  ∨ (∃ moved,
       (0 ≤ index)%Z ∧ (0 ≤ target)%Z
       ∧ Z.to_nat target < length (V3.TrainingPlan.exercises plan)
       ∧ V3.TrainingPlan.exercises plan !! Z.to_nat index = Some moved
       ∧ V3.Exercise.id moved = exerciseId
       ∧ V3.moveExerciseByOffset_plan exerciseId offset plan
         = V3.withExercises plan
             (moved_to (Z.to_nat index) (Z.to_nat target) moved
                       (V3.TrainingPlan.exercises plan))).
Proof.
  intros index target. unfold V3.moveExerciseByOffset_plan.
  fold index. fold target.
  destruct (index <? 0)%Z eqn:Hi; [left; split; [lia | done]|].
  destruct (target <? 0)%Z eqn:Ht; [left; split; [lia | done]|].
  destruct (Z.of_nat (length (V3.TrainingPlan.exercises plan)) <=? target)%Z
    eqn:Hl; [left; split; [lia | done]|].
  right. cbv zeta.
  apply Z.ltb_ge in Hi, Ht. apply Z.leb_gt in Hl.
  destruct (findIndex_found _ _ Hi) as (moved & Hm & Hp).
  fold index in Hm. apply bool_decide_eq_true in Hp.
  exists moved. repeat split; try done; [lia|].
  rewrite (splice_remove_one _ _ _ Hm). by rewrite splice_insert_one.
Qed.

(** ** Storage round trip *)

Lemma loadPlans_stored previous :
  loadPlans (Some (storedPlan <$> previous))
  = (λ plan, withExercises plan
               (normalizeExercise ∘ storedExercise
                  <$> TrainingPlan.exercises plan)) <$> previous.
Proof.
  unfold loadPlans. rewrite <- list_fmap_compose.
  apply list_fmap_ext. intros _ plan _. unfold withExercises. simpl.
  by rewrite <- list_fmap_compose.
Qed.

(** ** Predicates on exercises that every transition preserves *)

Section exercise_invariant.
Variable P : Exercise.t → Prop.
Hypothesis P_new : ∀ newId name w, P (newExercise newId name w).
Hypothesis P_shift :
    ∀ exercise nextWeight, P exercise → P (shiftWeight exercise nextWeight).
Hypothesis P_completed :
    ∀ exerciseId completed exercise,
      P exercise → P (setExerciseCompleted_exercise exerciseId completed exercise).
Hypothesis P_sets :
    ∀ exerciseId n exercise,
      P exercise → P (setExerciseSets_exercise exerciseId n exercise).
Hypothesis P_meta :
    ∀ exerciseId patch exercise,
      P exercise → P (updateExerciseMeta_exercise exerciseId patch exercise).
Hypothesis P_finish :
    ∀ exercise, P exercise → P (finishTraining_exercise exercise).
Hypothesis P_stored :
    ∀ exercise, P exercise → P (normalizeExercise (storedExercise exercise)).

Lemma updateExerciseWeight_exercise_keeps exerciseId nextWeight exercise :
    P exercise → P (updateExerciseWeight_exercise exerciseId nextWeight exercise).
  Proof.
    intros H. unfold updateExerciseWeight_exercise.
    destruct (bool_decide _); [done|]. destruct (num_eq _ _); auto.
  Qed.

Lemma changeExerciseByDelta_exercise_keeps exerciseId delta exercise :
    P exercise → P (changeExerciseByDelta_exercise exerciseId delta exercise).
  Proof.
    intros H. unfold changeExerciseByDelta_exercise.
    destruct (bool_decide _); [done|]. cbv zeta. destruct (num_eq _ _); auto.
  Qed.

Lemma mapActiveExercises_keeps activeId g previous :
    (∀ exercise, P exercise → P (g exercise)) →
    Forall (all_in_plan P) previous →
    Forall (all_in_plan P) (mapActiveExercises activeId g previous).
  Proof.
    intros Hg. apply mapActivePlan_Forall. intros plan Hp.
    unfold all_in_plan in *. simpl. apply Forall_fmap.
    eapply Forall_impl; [done|]. intros e He. by apply Hg.
  Qed.

Lemma perform_keeps a s : all_exercises P s → all_exercises P (perform a s).
  Proof.
    unfold all_exercises. intros H. destruct a; cbn [perform plans].
    - unfold createPlan. destruct (bool_decide _); [done|]. simpl.
      constructor; [constructor | done].
    - unfold renameActivePlan. destruct (activePlan s); [|done].
      destruct (bool_decide _); [done|]. simpl.
      by apply mapActivePlan_Forall.
    - unfold deleteActivePlan. destruct (activePlan s); [|done]. simpl.
      apply Forall_forall. intros plan Hp.
      apply list_elem_of_filter in Hp as [_ Hp].
      by eapply Forall_forall in H.
    - done.
    - unfold addExercise. destruct (activePlan s); [|done].
      destruct parsedWeight as [w|]; [|done].
      destruct (_ || _); [done|]. simpl.
      apply mapActivePlan_Forall; [|done]. intros plan Hp.
      unfold all_in_plan in *. simpl. apply Forall_app. split; [done|].
      constructor; [apply P_new | constructor].
    - unfold updateExerciseWeight. destruct parsedWeight as [w|]; [|done].
      destruct (activePlan s); [|done]. destruct (num_lt w 0); [done|]. simpl.
      apply mapActiveExercises_keeps; [|done].
      intros e. apply updateExerciseWeight_exercise_keeps.
    - unfold changeExerciseByDelta. destruct (activePlan s); [|done]. simpl.
      apply mapActiveExercises_keeps; [|done].
      intros e. apply changeExerciseByDelta_exercise_keeps.
    - unfold setExerciseCompleted. destruct (activePlan s); [|done]. simpl.
      apply mapActiveExercises_keeps; [|done]. intros e. apply P_completed.
    - unfold setExerciseSets. destruct (activePlan s); [|done]. simpl.
      apply mapActiveExercises_keeps; [|done]. intros e. apply P_sets.
    - unfold updateExerciseMeta. destruct (activePlan s); [|done]. simpl.
      apply mapActiveExercises_keeps; [|done]. intros e. apply P_meta.
    - unfold deleteExercise. destruct (activePlan s); [|done]. simpl.
      apply mapActivePlan_Forall; [|done]. intros plan Hp.
      unfold all_in_plan in *. simpl. apply Forall_forall. intros e He.
      apply list_elem_of_filter in He as [_ He].
      by eapply Forall_forall in Hp.
    - unfold moveExercise. destruct (activePlan s); [|done].
      destruct (bool_decide _); [done|]. simpl.
      apply mapActivePlan_Forall; [|done]. intros plan Hp.
      unfold all_in_plan in *. by rewrite moveExercise_plan_perm.
    - unfold finishTraining. destruct (activePlan s); [|done].
      destruct (_ =? _)%nat; [done|]. simpl.
      apply mapActiveExercises_keeps; [|done]. apply P_finish.
    - rewrite loadPlans_stored. apply Forall_fmap.
      eapply Forall_impl; [done|]. intros plan Hp.
      unfold all_in_plan in *. simpl. apply Forall_fmap.
      eapply Forall_impl; [done|]. intros e He. by apply P_stored.
  Qed.

Lemma step_keeps a s : all_exercises P s → all_exercises P (step a s).
  Proof.
    intros H. unfold step, all_exercises.
    rewrite plans_syncActivePlan. by apply perform_keeps.
  Qed.

Lemma reachable_keeps s0 s :
    all_exercises P s0 → reachable s0 s → all_exercises P s.
  Proof. intros H0 Hr. induction Hr; [done|]. by apply step_keeps. Qed.
End exercise_invariant.

Lemma reachable_run s0 actions s :
  reachable s0 s → reachable s0 (run actions s).
Proof.
  revert s. induction actions as [|a r IH]; intros s H; [done|].
  simpl. apply IH. by constructor.
Qed.

(** ** Set counters stay within the target *)

Lemma normalizeExercise_sets input :
  target_in_range (normalizeExercise input)
  ∧ sets_in_range (normalizeExercise input).
Proof.
  unfold target_in_range, sets_in_range, normalizeExercise, clampInt. simpl.
  lia.
Qed.

Lemma initialState_sets storedPlans storedHistory :
  all_exercises (λ e, target_in_range e ∧ sets_in_range e)
    (initialState storedPlans storedHistory).
Proof.
  unfold all_exercises, initialState. rewrite plans_syncActivePlan. simpl.
  destruct storedPlans as [parsed|]; simpl; [|constructor].
  apply Forall_fmap, Forall_forall. intros plan _. simpl.
  destruct (RawPlan.exercises plan); [|constructor].
  apply Forall_fmap, Forall_forall. intros input _.
  apply normalizeExercise_sets.
Qed.

Lemma sets_invariant_steps s0 s :
  all_exercises (λ e, target_in_range e ∧ sets_in_range e) s0 →
  reachable s0 s →
  all_exercises (λ e, target_in_range e ∧ sets_in_range e) s.
Proof.
  apply reachable_keeps; unfold target_in_range, sets_in_range.
  - intros. simpl. lia.
  - intros. simpl. lia.
  - intros exerciseId completed e H. unfold setExerciseCompleted_exercise.
    destruct (bool_decide _); [|done]. simpl. destruct completed; lia.
  - intros exerciseId n e H. unfold setExerciseSets_exercise.
    destruct (bool_decide _); [done|]. simpl. unfold clampInt. lia.
  - intros exerciseId patch e H. unfold updateExerciseMeta_exercise.
    destruct (bool_decide _); [done|]. simpl.
    destruct (ExercisePatch.targetSets patch) as [n|];
      [destruct (n =? 0)%Z|]; unfold clampInt; lia.
  - intros e H. simpl. lia.
  - intros e H. simpl. unfold clampInt. lia.
Qed.

(** Saving and loading again returns the exercises as they were, on every
    state the component reaches. *)
Lemma normalizeExercise_stored exercise :
  target_in_range exercise → sets_in_range exercise →
  normalizeExercise (storedExercise exercise) = exercise.
Proof.
  unfold target_in_range, sets_in_range. destruct exercise. simpl.
  intros Ht Hs. unfold normalizeExercise. simpl.
  rewrite (clampInt_id targetSets 1 12) by done.
  by rewrite (clampInt_id completedSets 0 targetSets) by done.
Qed.

Lemma reload_keeps_plans storedPlans storedHistory s :
  reachable (initialState storedPlans storedHistory) s →
  plans (perform Reload s) = plans s.
Proof.
  intros Hr. cbn [perform plans]. rewrite loadPlans_stored.
  pose proof (sets_invariant_steps _ _
                (initialState_sets storedPlans storedHistory) Hr) as Hinv.
  unfold all_exercises in Hinv.
  rewrite <- (list_fmap_id (plans s)) at 2. apply Forall_fmap_ext.
  eapply Forall_impl; [exact Hinv|]. intros plan Hp. unfold all_in_plan in Hp.
  destruct plan as [planId planName exercises]. unfold withExercises.
  simpl in *. f_equal.
  rewrite <- (list_fmap_id exercises) at 2. apply Forall_fmap_ext.
  eapply Forall_impl; [exact Hp|]. intros e [Ht Hs]. simpl.
  by apply normalizeExercise_stored.
Qed.

(** C3.  On whatever the storage held at start-up, every state the component
    reaches by any sequence of operations and reloads has, for every exercise
    of every plan, [0 <= completedSets <= targetSets] (and a target within
    [1, 12]); this covers [updateExerciseMeta] shrinking the target below the
    completed count and freshly normalized persisted records. *)
Theorem completedSets_within_targetSets storedPlans storedHistory s :
  reachable (initialState storedPlans storedHistory) s →
  all_exercises (λ e, target_in_range e ∧ sets_in_range e) s.
Proof. apply sets_invariant_steps, initialState_sets. Qed.

Lemma completedSets_within_targetSets_witness :
  let s0 := initialState strayStorage None in
  let s := run [SetExerciseSets "e8" 3; UpdateExerciseMeta "e8" shrinkTarget;
                UpdateExerciseMeta "e9" shrinkTarget; Reload] s0 in
  reachable s0 s ∧ all_exercises (λ e, target_in_range e ∧ sets_in_range e) s.
Proof.
  intros s0 s.
  assert (reachable s0 s) as Hr by (apply reachable_run; constructor).
  split; [exact Hr|].
  exact (completedSets_within_targetSets strayStorage None s Hr).
Defined.

(** ** Weight changes *)

Lemma exercise_at_Some s k i exercise :
  exercise_at s k i = Some exercise ↔
  ∃ plan, plans s !! k = Some plan
          ∧ TrainingPlan.exercises plan !! i = Some exercise.
Proof.
  unfold exercise_at. destruct (plans s !! k) as [plan|]; simpl.
  - split; [by exists plan | by intros (? & [= <-] & ?)].
  - split; [done | by intros (? & ? & ?)].
Qed.

Lemma shiftWeight_moved exercise nextWeight :
  ¬ (Exercise.currentWeight exercise == nextWeight)%Q →
  weight_moved_to nextWeight exercise (shiftWeight exercise nextWeight).
Proof.
  intros Hne. split; [done|]. intros _. simpl.
  repeat split; [apply Math_max_l | apply Math_max_r].
Qed.

Lemma updateExerciseWeight_exercise_moved exercise nextWeight :
  weight_moved_to nextWeight exercise
    (updateExerciseWeight_exercise (Exercise.id exercise) nextWeight exercise).
Proof.
  unfold updateExerciseWeight_exercise.
  rewrite bool_decide_eq_false_2 by (by intros ?).
  destruct (num_eq _ _) eqn:E.
  - apply num_eq_true in E. by split.
  - apply num_eq_false in E. by apply shiftWeight_moved.
Qed.

Lemma changeExerciseByDelta_exercise_moved exercise delta :
  weight_moved_to
    (clampWeight (toFixed1 (Exercise.currentWeight exercise + delta)))
    exercise
    (changeExerciseByDelta_exercise (Exercise.id exercise) delta exercise).
Proof.
  unfold changeExerciseByDelta_exercise.
  rewrite bool_decide_eq_false_2 by (by intros ?). cbv zeta.
  destruct (num_eq _ _) eqn:E.
  - apply num_eq_true in E. split; [done|]. intros H. by destruct H.
  - apply num_eq_false in E. apply shiftWeight_moved.
    intros H. by destruct E.
Qed.

Lemma exercise_at_mapActiveExercises s active g k plan i exercise :
  activePlan s = Some active →
  plans s !! k = Some plan → TrainingPlan.id plan = TrainingPlan.id active →
  TrainingPlan.exercises plan !! i = Some exercise →
  exercise_at (setPlans (mapActiveExercises (TrainingPlan.id active) g) s) k i
  = Some (g exercise).
Proof.
  intros Ha Hk Hid Hi. apply exercise_at_Some. simpl.
  destruct (mapActiveExercises_active (TrainingPlan.id active) g (plans s)
              k plan i exercise Hk Hid Hi) as (plan' & Hk' & _ & _ & _ & Hi').
  by exists plan'.
Qed.

(** C1.  For an exercise of the active plan, [updateExerciseWeight] with a
    parsed value [w >= 0] and [changeExerciseByDelta] leave the exercise
    untouched when the rounded (resp. rounded and clamped) weight equals the
    current one, and otherwise set [currentWeight] to it, [bestWeight] to the
    maximum of the old best and the new current weight, and [previousWeight]
    to the weight before the change. *)
Theorem weight_change_shifts_previous_and_raises_best
    s active k plan i exercise :
  activePlan s = Some active →
  plans s !! k = Some plan → TrainingPlan.id plan = TrainingPlan.id active →
  TrainingPlan.exercises plan !! i = Some exercise →
  (∀ w, (0 <= w)%Q →
     ∃ exercise',
       exercise_at
         (updateExerciseWeight (Exercise.id exercise) (Some w) s) k i
       = Some exercise'
       ∧ weight_moved_to (toFixed1 w) exercise exercise')
  ∧ (∀ delta,
       ∃ exercise',
         exercise_at
           (changeExerciseByDelta (Exercise.id exercise) delta s) k i
         = Some exercise'
         ∧ weight_moved_to
             (clampWeight
                (toFixed1 (Exercise.currentWeight exercise + delta)))
             exercise exercise').
Proof.
  intros Ha Hk Hid Hi. split.
  - intros w Hw. eexists. split.
    + unfold updateExerciseWeight. rewrite Ha.
      destruct (num_lt w 0) eqn:E.
      { apply num_lt_true in E. by apply Qlt_not_le in E. }
      by eapply exercise_at_mapActiveExercises.
    + apply updateExerciseWeight_exercise_moved.
  - intros delta. eexists. split.
    + unfold changeExerciseByDelta. rewrite Ha.
      by eapply exercise_at_mapActiveExercises.
    + apply changeExerciseByDelta_exercise_moved.
Qed.

Lemma weight_change_shifts_previous_and_raises_best_witness :
  (∀ w, (0 <= w)%Q →
     ∃ exercise',
       exercise_at (updateExerciseWeight "e1" (Some w) sampleState) 0 0
       = Some exercise'
       ∧ weight_moved_to (toFixed1 w) bench exercise')
  ∧ (∀ delta,
       ∃ exercise',
         exercise_at (changeExerciseByDelta "e1" delta sampleState) 0 0
         = Some exercise'
         ∧ weight_moved_to (clampWeight (toFixed1 (20 + delta))) bench exercise').
Proof.
  exact (weight_change_shifts_previous_and_raises_best
           sampleState pushDay 0 pushDay 0 bench
           eq_refl eq_refl eq_refl eq_refl).
Defined.

(** The scenario of the specification: a plan "Push Day", an exercise
    "Bench" at 20.0 kg, two steps of +2.5 kg. *)
Example push_day_scenario :
  let s := run [CreatePlan "p1" "Push Day"; AddExercise "e1" "Bench" (Some 20%Q);
                ChangeExerciseByDelta "e1" (25 # 10);
                ChangeExerciseByDelta "e1" (25 # 10)]
               (initialState None None) in
  ∃ exercise, exercise_at s 0 0 = Some exercise
    ∧ Exercise.currentWeight exercise = (250 # 10)%Q
    ∧ Exercise.previousWeight exercise = Some (225 # 10)%Q
    ∧ Exercise.bestWeight exercise = (250 # 10)%Q.
Proof. eexists. repeat split. Qed.

(** ** The [completed] flag and the set counter *)

Lemma siblings_keep_completed_in_sync exerciseId exercise :
  target_in_range exercise →
  (∀ completed,
     completed_in_sync
       (setExerciseCompleted_exercise (Exercise.id exercise) completed exercise))
  ∧ (∀ n, completed_in_sync (setExerciseSets_exercise exerciseId n exercise)
          ∨ setExerciseSets_exercise exerciseId n exercise = exercise)
  ∧ (∀ patch,
       completed_in_sync (updateExerciseMeta_exercise exerciseId patch exercise)
       ∨ updateExerciseMeta_exercise exerciseId patch exercise = exercise)
  ∧ completed_in_sync (finishTraining_exercise exercise).
Proof.
  unfold target_in_range, completed_in_sync. intros Ht. repeat split.
  - intros completed. unfold setExerciseCompleted_exercise.
    rewrite bool_decide_eq_true_2 by done. simpl. destruct completed; lia.
  - intros n. unfold setExerciseSets_exercise.
    destruct (bool_decide _); [by right | by left].
  - intros patch. unfold updateExerciseMeta_exercise.
    destruct (bool_decide _); [by right | by left].
  - simpl. lia.
Qed.

Lemma shiftWeight_applied exercise nextWeight :
  weight_applied nextWeight exercise (shiftWeight exercise nextWeight).
Proof. by repeat split. Qed.

(** What the two weight operations write when they apply a weight different
    from the current one: the fields of [weight_applied], where the set
    counter and the target are the old ones. *)
Lemma weight_change_applied_keeps_completedSets
    s active k plan i exercise :
  activePlan s = Some active →
  plans s !! k = Some plan → TrainingPlan.id plan = TrainingPlan.id active →
  TrainingPlan.exercises plan !! i = Some exercise →
  (∀ w, (0 <= w)%Q →
     ¬ (Exercise.currentWeight exercise == toFixed1 w)%Q →
     ∃ exercise',
       exercise_at
         (updateExerciseWeight (Exercise.id exercise) (Some w) s) k i
       = Some exercise'
       ∧ weight_applied (toFixed1 w) exercise exercise')
  ∧ (∀ delta,
       ¬ (clampWeight (toFixed1 (Exercise.currentWeight exercise + delta))
          == Exercise.currentWeight exercise)%Q →
       ∃ exercise',
         exercise_at
           (changeExerciseByDelta (Exercise.id exercise) delta s) k i
         = Some exercise'
         ∧ weight_applied
             (clampWeight
                (toFixed1 (Exercise.currentWeight exercise + delta)))
             exercise exercise').
Proof.
  intros Ha Hk Hid Hi. split.
  - intros w Hw Hne. eexists. split.
    + unfold updateExerciseWeight. rewrite Ha.
      destruct (num_lt w 0) eqn:E.
      { apply num_lt_true in E. by apply Qlt_not_le in E. }
      by eapply exercise_at_mapActiveExercises.
    + unfold updateExerciseWeight_exercise.
      rewrite bool_decide_eq_false_2 by (by intros ?).
      apply num_eq_false in Hne. rewrite Hne. apply shiftWeight_applied.
  - intros delta Hne. eexists. split.
    + unfold changeExerciseByDelta. rewrite Ha.
      by eapply exercise_at_mapActiveExercises.
    + unfold changeExerciseByDelta_exercise.
      rewrite bool_decide_eq_false_2 by (by intros ?). cbv zeta.
      apply num_eq_false in Hne. rewrite Hne. apply shiftWeight_applied.
Qed.

Lemma weight_change_applied_keeps_completedSets_witness :
  ∃ exercise',
    exercise_at (updateExerciseWeight "e1" (Some (225 # 10)%Q) sampleState) 0 0
    = Some exercise'
    ∧ weight_applied (toFixed1 (225 # 10)) bench exercise'.
Proof.
  refine (proj1 (weight_change_applied_keeps_completedSets
                   sampleState pushDay 0 pushDay 0 bench
                   eq_refl eq_refl eq_refl eq_refl)
            (225 # 10)%Q _ _).
  - unfold Qle. simpl. lia.
  - intros H. vm_compute in H. discriminate H.
Defined.

(** C2.  The code does not reset [completedSets] on a weight change.  In the
    session [trainedState] the exercise "Bench" has three of three sets done
    and is flagged completed.  Typing 22.5 into its weight field
    ([updateExerciseWeight]) or pressing +2.5 ([changeExerciseByDelta])
    shifts 20 into [previousWeight], sets [currentWeight] and [bestWeight]
    to 22.5 and clears the [completed] flag, but leaves [completedSets] at
    3: the exercise is then not completed with all of its sets done.
    Unchecking the exercise ([setExerciseCompleted]) and [finishTraining],
    from the same state, clear the flag and the counter together. *)
Theorem weight_change_leaves_completedSets :
  (∃ exercise,
     exercise_at trainedState 0 0 = Some exercise
     ∧ Exercise.id exercise = "e1"
     ∧ Exercise.currentWeight exercise = toFixed1 20
     ∧ Exercise.completed exercise = true
     ∧ Exercise.targetSets exercise = 3%Z
     ∧ Exercise.completedSets exercise = 3%Z
     ∧ completed_in_sync exercise)
  ∧ (∃ exercise',
       exercise_at
         (step (UpdateExerciseWeight "e1" (Some (225 # 10)%Q)) trainedState) 0 0
       = Some exercise'
       ∧ exercise_at
           (step (ChangeExerciseByDelta "e1" (25 # 10)) trainedState) 0 0
         = Some exercise'
       ∧ Exercise.previousWeight exercise' = Some (toFixed1 20)
       ∧ Exercise.currentWeight exercise' = toFixed1 (225 # 10)
       ∧ Exercise.bestWeight exercise' = toFixed1 (225 # 10)
       ∧ Exercise.completed exercise' = false
       ∧ Exercise.targetSets exercise' = 3%Z
       ∧ Exercise.completedSets exercise' = 3%Z
       ∧ Exercise.completedSets exercise' ≠ 0%Z
       ∧ ¬ completed_in_sync exercise')
  ∧ (∃ exercise',
       exercise_at (step (SetExerciseCompleted "e1" false) trainedState) 0 0
       = Some exercise'
       ∧ Exercise.completed exercise' = false
       ∧ Exercise.completedSets exercise' = 0%Z)
  ∧ (∃ exercise',
       exercise_at
         (step (FinishTraining "h1" "2024-05-01T18:00:00.000Z") trainedState)
         0 0
       = Some exercise'
       ∧ Exercise.completed exercise' = false
       ∧ Exercise.completedSets exercise' = 0%Z).
Proof.
  split; [|split; [|split]].
  - eexists. split; [vm_compute; reflexivity|].
    split; [done|]. split; [done|]. split; [done|]. split; [done|].
    split; [done|]. by vm_compute.
  - eexists. split; [vm_compute; reflexivity|].
    split; [by vm_compute|]. split; [done|]. split; [done|]. split; [done|].
    split; [done|]. split; [done|]. split; [done|]. split; [done|].
    by vm_compute.
  - eexists. split; [vm_compute; reflexivity|]. by split.
  - eexists. split; [vm_compute; reflexivity|]. by split.
Qed.

(** ** Idempotence of [updateExerciseWeight] *)

Lemma updateExerciseWeight_exercise_idem exerciseId nextWeight exercise :
  updateExerciseWeight_exercise exerciseId nextWeight
    (updateExerciseWeight_exercise exerciseId nextWeight exercise)
  = updateExerciseWeight_exercise exerciseId nextWeight exercise.
Proof.
  unfold updateExerciseWeight_exercise.
  destruct (bool_decide (Exercise.id exercise ≠ exerciseId)) eqn:Hid.
  - by rewrite Hid.
  - destruct (num_eq (Exercise.currentWeight exercise) nextWeight) eqn:Hw.
    + by rewrite Hid, Hw.
    + cbn [shiftWeight Exercise.id Exercise.currentWeight].
      by rewrite Hid, num_eq_refl.
Qed.

Lemma mapActiveExercises_idem activeId g previous :
  (∀ exercise, g (g exercise) = g exercise) →
  mapActiveExercises activeId g (mapActiveExercises activeId g previous)
  = mapActiveExercises activeId g previous.
Proof.
  intros Hg. unfold mapActiveExercises, mapActivePlan.
  rewrite <- list_fmap_compose. apply list_fmap_ext. intros _ plan _. simpl.
  destruct (bool_decide (TrainingPlan.id plan ≠ activeId)) eqn:E.
  - by rewrite E.
  - simpl. rewrite E. unfold withExercises. simpl. f_equal.
    rewrite <- list_fmap_compose. apply list_fmap_ext. intros _ e _. apply Hg.
Qed.

(** C4.  [updateExerciseWeight] is idempotent: a second call with the same
    exercise id and the same value returns the state the first call
    produced, whatever the state and the value (also a value that does not
    parse, or a negative one, on which both calls do nothing). *)
Theorem updateExerciseWeight_idempotent exerciseId parsedWeight s :
  updateExerciseWeight exerciseId parsedWeight
    (updateExerciseWeight exerciseId parsedWeight s)
  = updateExerciseWeight exerciseId parsedWeight s.
Proof.
  destruct parsedWeight as [w|]; [|done].
  destruct (activePlan s) as [active|] eqn:Ha.
  2: { assert (updateExerciseWeight exerciseId (Some w) s = s) as E
         by (unfold updateExerciseWeight; by rewrite Ha).
       by rewrite !E. }
  destruct (num_lt w 0) eqn:Hw.
  { assert (updateExerciseWeight exerciseId (Some w) s = s) as E
      by (unfold updateExerciseWeight; by rewrite Ha, Hw).
    by rewrite !E. }
  assert (updateExerciseWeight exerciseId (Some w) s
          = setPlans (mapActiveExercises (TrainingPlan.id active)
                        (updateExerciseWeight_exercise exerciseId (toFixed1 w)))
                     s) as E
    by (unfold updateExerciseWeight; by rewrite Ha, Hw).
  rewrite E. unfold updateExerciseWeight.
  unfold mapActiveExercises at 1.
  rewrite (activePlan_mapActivePlan _ s active) by done.
  rewrite Hw. cbn [TrainingPlan.id withExercises].
  unfold setPlans. cbn [plans history activePlanId]. f_equal.
  apply mapActiveExercises_idem, updateExerciseWeight_exercise_idem.
Qed.

(** ** Finishing a workout *)

Lemma finishTraining_absent newId dateIso s :
  activePlan s = None → finishTraining newId dateIso s = s.
Proof. intros H. unfold finishTraining. by rewrite H. Qed.

Lemma finishTraining_empty newId dateIso s active :
  activePlan s = Some active → TrainingPlan.exercises active = [] →
  finishTraining newId dateIso s = s.
Proof. intros H He. unfold finishTraining. by rewrite H, He. Qed.

Lemma finishTraining_run newId dateIso s active :
  activePlan s = Some active → TrainingPlan.exercises active ≠ [] →
  finishTraining newId dateIso s
  = setPlans
      (mapActiveExercises (TrainingPlan.id active) finishTraining_exercise)
      (setHistory
         (λ previous,
            slice0 40 (finishTraining_entry newId dateIso active :: previous))
         s).
Proof.
  intros H He. unfold finishTraining. rewrite H.
  destruct (TrainingPlan.exercises active); done.
Qed.

Lemma finishTraining_history newId dateIso s active :
  activePlan s = Some active → TrainingPlan.exercises active ≠ [] →
  history (finishTraining newId dateIso s)
  = finishTraining_entry newId dateIso active :: take 39 (history s).
Proof. intros H He. by rewrite (finishTraining_run _ _ _ _ H He). Qed.

Lemma finishTraining_exercise_reset exercise :
  sets_reset exercise (finishTraining_exercise exercise).
Proof. by repeat split. Qed.

Lemma finishTraining_plans newId dateIso s active :
  activePlan s = Some active → TrainingPlan.exercises active ≠ [] →
  Forall2
    (λ plan plan',
       TrainingPlan.id plan' = TrainingPlan.id plan
       ∧ TrainingPlan.name plan' = TrainingPlan.name plan
       ∧ (TrainingPlan.id plan = TrainingPlan.id active →
          Forall2 sets_reset (TrainingPlan.exercises plan)
                             (TrainingPlan.exercises plan'))
       ∧ (TrainingPlan.id plan ≠ TrainingPlan.id active → plan' = plan))
    (plans s) (plans (finishTraining newId dateIso s)).
Proof.
  intros H He. rewrite (finishTraining_run _ _ _ _ H He). simpl.
  unfold mapActiveExercises, mapActivePlan. apply Forall2_fmap_r.
  apply Forall_Forall2_diag, Forall_forall. intros plan _.
  unfold compose. cbv beta.
  destruct (decide (TrainingPlan.id plan = TrainingPlan.id active)) as [E|E].
  - rewrite bool_decide_eq_false_2 by (by intros ?). simpl.
    repeat split; [|done]. intros _. apply Forall2_fmap_r.
    apply Forall_Forall2_diag, Forall_forall. intros e _.
    apply finishTraining_exercise_reset.
  - rewrite bool_decide_eq_true_2 by done. by repeat split.
Qed.

(** C5.  [finishTraining] does nothing when no plan is active or the active
    plan has no exercise.  On an active plan with [N >= 1] exercises it puts
    one new entry at the head of the history, carrying the plan's current
    name and [N] snapshots (one per exercise, in order), and in that plan
    sets every [completedSets] to 0 while [currentWeight], [bestWeight] and
    [previousWeight] stay as they were; other plans are untouched. *)
Theorem finishTraining_records_and_resets newId dateIso s :
  (activePlan s = None → finishTraining newId dateIso s = s)
  ∧ (∀ active, activePlan s = Some active →
       (TrainingPlan.exercises active = [] → finishTraining newId dateIso s = s)
       ∧ (TrainingPlan.exercises active ≠ [] →
          let s' := finishTraining newId dateIso s in
          (∃ entry,
             history s' = entry :: take 39 (history s)
             ∧ TrainingHistoryEntry.planName entry = TrainingPlan.name active
             ∧ TrainingHistoryEntry.exercises entry
               = snapshot <$> TrainingPlan.exercises active
             ∧ length (TrainingHistoryEntry.exercises entry)
               = length (TrainingPlan.exercises active))
          ∧ Forall2
              (λ plan plan',
                 TrainingPlan.id plan' = TrainingPlan.id plan
                 ∧ TrainingPlan.name plan' = TrainingPlan.name plan
                 ∧ (TrainingPlan.id plan = TrainingPlan.id active →
                    Forall2 sets_reset (TrainingPlan.exercises plan)
                                       (TrainingPlan.exercises plan'))
                 ∧ (TrainingPlan.id plan ≠ TrainingPlan.id active →
                    plan' = plan))
              (plans s) (plans s'))).
Proof.
  split; [apply finishTraining_absent|]. intros active Ha. split.
  - by apply finishTraining_empty.
  - intros He s'. split.
    + exists (finishTraining_entry newId dateIso active). subst s'.
      rewrite (finishTraining_history _ _ _ _ Ha He). simpl.
      by rewrite length_fmap.
    + by apply finishTraining_plans.
Qed.

Lemma finishTraining_records_and_resets_witness :
  let s' := finishTraining "h1" "2024-05-01" sampleState in
  (∃ entry,
     history s' = entry :: take 39 (history sampleState)
     ∧ TrainingHistoryEntry.planName entry = "Push Day"
     ∧ TrainingHistoryEntry.exercises entry = snapshot <$> [bench; squat; row]
     ∧ length (TrainingHistoryEntry.exercises entry) = 3)
  ∧ Forall2
      (λ plan plan',
         TrainingPlan.id plan' = TrainingPlan.id plan
         ∧ TrainingPlan.name plan' = TrainingPlan.name plan
         ∧ (TrainingPlan.id plan = "p1" →
            Forall2 sets_reset (TrainingPlan.exercises plan)
                               (TrainingPlan.exercises plan'))
         ∧ (TrainingPlan.id plan ≠ "p1" → plan' = plan))
      (plans sampleState) (plans s').
Proof.
  refine (proj2 (proj2 (finishTraining_records_and_resets
                           "h1" "2024-05-01" sampleState)
                   pushDay eq_refl) _).
  discriminate.
Defined.

(** ** Personal records *)

Lemma isPr_of_true exercise :
  isPr_of exercise = true ↔
  ∃ previousWeight,
    Exercise.previousWeight exercise = Some previousWeight
    ∧ (Exercise.bestWeight exercise <= Exercise.currentWeight exercise)%Q
    ∧ (previousWeight < Exercise.currentWeight exercise)%Q.
Proof.
  unfold isPr_of. destruct (Exercise.previousWeight exercise) as [p|].
  - rewrite andb_true_iff, num_ge_true, num_lt_true. split.
    + intros [? ?]. by exists p.
    + by intros (? & [= <-] & ? & ?).
  - split; [done | by intros (? & ? & _)].
Qed.

(** C6.  The [isPr] flag of every snapshot taken by [finishTraining] is true
    exactly when the exercise has a previous weight, its current weight is
    at least its best weight, and its current weight is above the previous
    one.  With previous 18.0 and best 20.0 the flag is true at current 20.0
    and false at current 19.0. *)
Theorem isPr_at_finish newId dateIso s active :
  activePlan s = Some active → TrainingPlan.exercises active ≠ [] →
  (∃ entry,
     history (finishTraining newId dateIso s) !! 0 = Some entry
     ∧ Forall2
         (λ exercise recorded,
            HistoryExercise.isPr recorded = true ↔
            ∃ previousWeight,
              Exercise.previousWeight exercise = Some previousWeight
              ∧ (Exercise.bestWeight exercise
                 <= Exercise.currentWeight exercise)%Q
              ∧ (previousWeight < Exercise.currentWeight exercise)%Q)
         (TrainingPlan.exercises active)
         (TrainingHistoryEntry.exercises entry))
  ∧ (∀ exercise,
       Exercise.previousWeight exercise = Some 18%Q →
       Exercise.bestWeight exercise = 20%Q →
       (Exercise.currentWeight exercise = 20%Q → isPr_of exercise = true)
       ∧ (Exercise.currentWeight exercise = 19%Q → isPr_of exercise = false)).
Proof.
  intros Ha He. split.
  - exists (finishTraining_entry newId dateIso active).
    rewrite (finishTraining_history _ _ _ _ Ha He). split; [done|].
    simpl. apply Forall2_fmap_r, Forall_Forall2_diag, Forall_forall.
    intros exercise _. apply isPr_of_true.
  - intros exercise Hp Hb. unfold isPr_of. rewrite Hp, Hb.
    split; intros ->; reflexivity.
Qed.

Lemma isPr_at_finish_witness :
  (∃ entry,
     history (finishTraining "h1" "2024-05-01" sampleState) !! 0 = Some entry
     ∧ Forall2
         (λ exercise recorded,
            HistoryExercise.isPr recorded = true ↔
            ∃ previousWeight,
              Exercise.previousWeight exercise = Some previousWeight
              ∧ (Exercise.bestWeight exercise
                 <= Exercise.currentWeight exercise)%Q
              ∧ (previousWeight < Exercise.currentWeight exercise)%Q)
         [bench; squat; row]
         (TrainingHistoryEntry.exercises entry))
  ∧ isPr_of bench = true ∧ isPr_of squat = false.
Proof.
  assert (TrainingPlan.exercises pushDay ≠ []) as He by discriminate.
  pose proof (isPr_at_finish "h1" "2024-05-01" sampleState pushDay eq_refl He)
    as [Hentry Hexamples].
  split; [exact Hentry|]. split.
  - exact (proj1 (Hexamples bench eq_refl eq_refl) eq_refl).
  - exact (proj2 (Hexamples squat eq_refl eq_refl) eq_refl).
Defined.

(** ** The history *)

Lemma history_perform a s :
  history (perform a s) = history s
  ∨ ∃ entry, history (perform a s) = entry :: take 39 (history s).
Proof.
  destruct a; cbn [perform history loadHistory default]; try by left.
  - left. unfold createPlan. by destruct (bool_decide _).
  - left. unfold renameActivePlan. destruct (activePlan s); [|done].
    by destruct (bool_decide _).
  - left. unfold deleteActivePlan. by destruct (activePlan s).
  - left. unfold addExercise. destruct (activePlan s); [|done].
    destruct parsedWeight; [|done]. by destruct (_ || _).
  - left. unfold updateExerciseWeight. destruct parsedWeight; [|done].
    destruct (activePlan s); [|done]. by destruct (num_lt _ _).
  - left. unfold changeExerciseByDelta. by destruct (activePlan s).
  - left. unfold setExerciseCompleted. by destruct (activePlan s).
  - left. unfold setExerciseSets. by destruct (activePlan s).
  - left. unfold updateExerciseMeta. by destruct (activePlan s).
  - left. unfold deleteExercise. by destruct (activePlan s).
  - left. unfold moveExercise. destruct (activePlan s); [|done].
    by destruct (bool_decide _).
  - destruct (activePlan s) as [active|] eqn:Ha.
    + destruct (TrainingPlan.exercises active) as [|e r] eqn:He.
      * left. by rewrite (finishTraining_empty _ _ _ _ Ha He).
      * right. eexists. apply (finishTraining_history _ _ _ _ Ha).
        by rewrite He.
    + left. by rewrite finishTraining_absent.
Qed.

Lemma history_untouched a s :
  (∀ newId dateIso, a ≠ FinishTraining newId dateIso) →
  history (step a s) = history s.
Proof.
  intros Ha. unfold step. rewrite history_syncActivePlan.
  destruct a; cbn [perform history loadHistory default]; try done.
  - unfold createPlan. by destruct (bool_decide _).
  - unfold renameActivePlan. destruct (activePlan s); [|done].
    by destruct (bool_decide _).
  - unfold deleteActivePlan. by destruct (activePlan s).
  - unfold addExercise. destruct (activePlan s); [|done].
    destruct parsedWeight; [|done]. by destruct (_ || _).
  - unfold updateExerciseWeight. destruct parsedWeight; [|done].
    destruct (activePlan s); [|done]. by destruct (num_lt _ _).
  - unfold changeExerciseByDelta. by destruct (activePlan s).
  - unfold setExerciseCompleted. by destruct (activePlan s).
  - unfold setExerciseSets. by destruct (activePlan s).
  - unfold updateExerciseMeta. by destruct (activePlan s).
  - unfold deleteExercise. by destruct (activePlan s).
  - unfold moveExercise. destruct (activePlan s); [|done].
    by destruct (bool_decide _).
  - by destruct (Ha newId dateIso).
Qed.

Lemma finishWorkout_history newId dateIso s active :
  V3.activePlan s = Some active → V3.TrainingPlan.exercises active ≠ [] →
  V3.history (V3.finishWorkout newId dateIso s)
  = V3.finishWorkout_entry newId dateIso active :: take 59 (V3.history s).
Proof.
  intros H He. unfold V3.finishWorkout. rewrite H.
  destruct (V3.TrainingPlan.exercises active); done.
Qed.

(** C7, as the code has it.  The history is recency ordered and append
    only, with a cap of 40 entries (60 in the [gymapp:v3] iteration), not 50:
    [finishTraining] on a non-empty active plan puts the new entry at index 0
    followed by the 39 most recent older entries in their order; every
    transition either leaves the history as it is or does exactly that, and
    every transition other than [FinishTraining] leaves it as it is. *)
Theorem history_recency_ordered_capped_at_40 :
  (∀ newId dateIso s active,
     activePlan s = Some active → TrainingPlan.exercises active ≠ [] →
     history (step (FinishTraining newId dateIso) s)
     = finishTraining_entry newId dateIso active :: take 39 (history s))
  ∧ (∀ a s,
       history (step a s) = history s
       ∨ ∃ entry, history (step a s) = entry :: take 39 (history s))
  ∧ (∀ a s,
       (∀ newId dateIso, a ≠ FinishTraining newId dateIso) →
       history (step a s) = history s)
  ∧ (∀ a s, length (history s) ≤ 40 → length (history (step a s)) ≤ 40)
  ∧ (∀ newId dateIso s active,
       V3.activePlan s = Some active → V3.TrainingPlan.exercises active ≠ [] →
       V3.history (V3.finishWorkout newId dateIso s)
       = V3.finishWorkout_entry newId dateIso active
         :: take 59 (V3.history s)).
Proof.
  assert (∀ a s,
            history (step a s) = history s
            ∨ ∃ entry, history (step a s) = entry :: take 39 (history s)) as Hs.
  { intros a s. unfold step. rewrite history_syncActivePlan.
    apply history_perform. }
  split; [|split; [exact Hs|split; [exact history_untouched|split]]].
  - intros newId dateIso s active Ha He. unfold step.
    rewrite history_syncActivePlan. by apply finishTraining_history.
  - intros a s Hl. destruct (Hs a s) as [->|[entry ->]]; [done|].
    simpl. rewrite length_take. lia.
  - exact finishWorkout_history.
Qed.

Lemma history_recency_ordered_capped_at_40_witness :
  history (step (FinishTraining "h46" "2024-06-01") seasonedState)
  = finishTraining_entry "h46" "2024-06-01" pushDay
    :: take 39 (history seasonedState)
  ∧ length (history (step (FinishTraining "h46" "2024-06-01") seasonedState))
    = 40.
Proof.
  assert (TrainingPlan.exercises pushDay ≠ []) as He by discriminate.
  pose proof (proj1 history_recency_ordered_capped_at_40
                "h46" "2024-06-01" seasonedState pushDay eq_refl He) as H.
  split; [exact H|]. rewrite H. reflexivity.
Defined.

(** With 45 entries in the history, a cap of 50 would keep all of them next
    to the new one; [finishTraining] keeps 40 entries. *)
Lemma history_cap_is_not_50 :
  length (history seasonedState) = 45
  ∧ length (history (finishTraining "h46" "2024-06-01" seasonedState)) = 40
  ∧ history (finishTraining "h46" "2024-06-01" seasonedState)
    ≠ slice0 50 (finishTraining_entry "h46" "2024-06-01" pushDay
                   :: history seasonedState).
Proof.
  split; [reflexivity|]. split; [reflexivity|].
  intros H. apply (f_equal length) in H. vm_compute in H. discriminate.
Qed.

(** ** Reordering *)

Lemma moveExercise_plan_reordered dragId targetId plan :
  reordered plan (moveExercise_plan dragId targetId plan).
Proof.
  split; [apply moveExercise_plan_id|].
  split; [apply moveExercise_plan_name | apply moveExercise_plan_perm].
Qed.

Lemma mapActivePlan_Forall2 (R : TrainingPlan.t → TrainingPlan.t → Prop)
    activeId f previous :
  (∀ plan, R plan plan) → (∀ plan, R plan (f plan)) →
  Forall2 R previous (mapActivePlan activeId f previous).
Proof.
  intros Hrefl Hf. unfold mapActivePlan. apply Forall2_fmap_r.
  apply Forall_Forall2_diag, Forall_forall. intros plan _.
  unfold compose. cbv beta. destruct (bool_decide _); auto.
Qed.

Lemma Forall2_refl_same {A} (R : A → A → Prop) (l : list A) :
  (∀ x, R x x) → Forall2 R l l.
Proof. intros H. apply Forall_Forall2_diag, Forall_forall. auto. Qed.

Lemma reordered_refl plan : reordered plan plan.
Proof. by repeat split. Qed.

Lemma moveExercise_reordered dragId targetId s :
  Forall2 reordered (plans s) (plans (moveExercise dragId targetId s)).
Proof.
  unfold moveExercise.
  destruct (activePlan s);
    [|by apply Forall2_refl_same, reordered_refl].
  destruct (bool_decide _); [by apply Forall2_refl_same, reordered_refl|].
  simpl. apply mapActivePlan_Forall2; [apply reordered_refl|].
  apply moveExercise_plan_reordered.
Qed.

Lemma moveExercise_same_id dragId s : moveExercise dragId dragId s = s.
Proof.
  unfold moveExercise. destruct (activePlan s); [|done].
  by rewrite bool_decide_eq_true_2.
Qed.

Lemma findIndex_id_absent (exerciseId : string) (l : list Exercise.t) :
  Forall (λ exercise, Exercise.id exercise ≠ exerciseId) l →
  (findIndex (λ exercise, bool_decide (Exercise.id exercise = exerciseId)) l
   < 0)%Z.
Proof.
  intros H. apply findIndex_absent. eapply Forall_impl; [done|].
  intros e He. simpl. by apply bool_decide_eq_false_2.
Qed.

Lemma moveExercise_plan_noop dragId targetId plan :
  Forall (λ exercise, Exercise.id exercise ≠ dragId)
         (TrainingPlan.exercises plan)
  ∨ Forall (λ exercise, Exercise.id exercise ≠ targetId)
           (TrainingPlan.exercises plan)
  ∨ dragId = targetId →
  moveExercise_plan dragId targetId plan = plan.
Proof.
  intros H. unfold moveExercise_plan.
  destruct H as [H|[H|H]].
  - apply findIndex_id_absent in H. apply Z.ltb_lt in H. by rewrite H.
  - apply findIndex_id_absent in H. apply Z.ltb_lt in H. rewrite H.
    by rewrite orb_true_r.
  - subst. rewrite Z.eqb_refl. by rewrite orb_true_r.
Qed.

Lemma moveExercise_plan_position dragId targetId plan fromIndex toIndex :
  fromIndex
  = findIndex (λ exercise, bool_decide (Exercise.id exercise = dragId))
              (TrainingPlan.exercises plan) →
  toIndex
  = findIndex (λ exercise, bool_decide (Exercise.id exercise = targetId))
              (TrainingPlan.exercises plan) →
  (0 ≤ fromIndex)%Z → (0 ≤ toIndex)%Z → fromIndex ≠ toIndex →
  ∃ moved,
    TrainingPlan.exercises plan !! Z.to_nat fromIndex = Some moved
    ∧ Exercise.id moved = dragId
    ∧ TrainingPlan.exercises (moveExercise_plan dragId targetId plan)
        !! Z.to_nat toIndex = Some moved
    ∧ delete (Z.to_nat toIndex)
        (TrainingPlan.exercises (moveExercise_plan dragId targetId plan))
      = delete (Z.to_nat fromIndex) (TrainingPlan.exercises plan).
Proof.
  intros -> -> Hf Ht Hne.
  destruct (moveExercise_plan_cases dragId targetId plan)
    as [[Hno _]|(moved & _ & _ & _ & Hm & Hid & Hlt & ->)]; [lia|].
  exists moved. simpl. repeat split; try done.
  - by apply moved_to_lookup.
  - by apply moved_to_others.
Qed.

Lemma moveExerciseByOffset_plan_reordered exerciseId offset plan :
  V3.reordered plan (V3.moveExerciseByOffset_plan exerciseId offset plan).
Proof.
  destruct (moveExerciseByOffset_plan_cases exerciseId offset plan)
    as [[_ ->]|(moved & _ & _ & _ & Hm & _ & ->)]; [by repeat split|].
  repeat split. simpl. by apply moved_to_perm.
Qed.

Lemma moveExerciseByOffset_reordered exerciseId offset s :
  Forall2 V3.reordered (V3.plans s)
          (V3.plans (V3.moveExerciseByOffset exerciseId offset s)).
Proof.
  unfold V3.moveExerciseByOffset.
  destruct (V3.activePlan s);
    [|by apply Forall2_refl_same; repeat split].
  simpl. unfold V3.mapActivePlan. apply Forall2_fmap_r.
  apply Forall_Forall2_diag, Forall_forall. intros plan _.
  unfold compose. cbv beta.
  destruct (bool_decide _); [by repeat split|].
  apply moveExerciseByOffset_plan_reordered.
Qed.

Lemma moveExerciseByOffset_plan_boundary exerciseId offset plan index :
  index
  = findIndex (λ exercise, bool_decide (V3.Exercise.id exercise = exerciseId))
              (V3.TrainingPlan.exercises plan) →
  (index < 0)%Z ∨ (index + V3.offset_value offset < 0)%Z
  ∨ (Z.of_nat (length (V3.TrainingPlan.exercises plan))
     ≤ index + V3.offset_value offset)%Z →
  V3.moveExerciseByOffset_plan exerciseId offset plan = plan.
Proof.
  intros -> H.
  destruct (moveExerciseByOffset_plan_cases exerciseId offset plan)
    as [[_ ->]|(moved & Hi & Ht & Hl & _)]; [done|]. lia.
Qed.

Lemma moveExerciseByOffset_plan_position exerciseId offset plan index target :
  index
  = findIndex (λ exercise, bool_decide (V3.Exercise.id exercise = exerciseId))
              (V3.TrainingPlan.exercises plan) →
  target = (index + V3.offset_value offset)%Z →
  (0 ≤ index)%Z → (0 ≤ target)%Z →
  (target < Z.of_nat (length (V3.TrainingPlan.exercises plan)))%Z →
  ∃ moved,
    V3.TrainingPlan.exercises plan !! Z.to_nat index = Some moved
    ∧ V3.Exercise.id moved = exerciseId
    ∧ V3.TrainingPlan.exercises
        (V3.moveExerciseByOffset_plan exerciseId offset plan)
        !! Z.to_nat target = Some moved
    ∧ delete (Z.to_nat target)
        (V3.TrainingPlan.exercises
           (V3.moveExerciseByOffset_plan exerciseId offset plan))
      = delete (Z.to_nat index) (V3.TrainingPlan.exercises plan).
Proof.
  intros -> -> Hi Ht Hl.
  destruct (moveExerciseByOffset_plan_cases exerciseId offset plan)
    as [[Hno _]|(moved & _ & _ & Hlt & Hm & Hid & ->)]; [lia|].
  exists moved. simpl. repeat split; try done.
  - by apply moved_to_lookup.
  - by apply moved_to_others.
Qed.

Lemma mapActivePlan_fixed activeId f previous :
  (∀ plan, plan ∈ previous → TrainingPlan.id plan = activeId → f plan = plan) →
  mapActivePlan activeId f previous = previous.
Proof.
  intros H. unfold mapActivePlan.
  rewrite <- (list_fmap_id previous) at 2.
  apply list_fmap_ext. intros k plan Hk. simpl.
  destruct (decide (TrainingPlan.id plan = activeId)) as [E|E].
  - rewrite bool_decide_eq_false_2 by (by intros ?).
    apply H; [|done]. by eapply list_elem_of_lookup_2.
  - by rewrite bool_decide_eq_true_2.
Qed.

Lemma setPlans_fixed f s : f (plans s) = plans s → setPlans f s = s.
Proof. intros H. unfold setPlans. rewrite H. by destruct s. Qed.

Lemma moveExercise_position dragId targetId s active k plan fromIndex toIndex :
  activePlan s = Some active →
  plans s !! k = Some plan → TrainingPlan.id plan = TrainingPlan.id active →
  fromIndex
  = findIndex (λ exercise, bool_decide (Exercise.id exercise = dragId))
              (TrainingPlan.exercises plan) →
  toIndex
  = findIndex (λ exercise, bool_decide (Exercise.id exercise = targetId))
              (TrainingPlan.exercises plan) →
  (0 ≤ fromIndex)%Z → (0 ≤ toIndex)%Z → fromIndex ≠ toIndex →
  ∃ plan' moved,
    plans (moveExercise dragId targetId s) !! k = Some plan'
    ∧ Exercise.id moved = dragId
    ∧ taken_to (Z.to_nat fromIndex) (Z.to_nat toIndex) moved
               (TrainingPlan.exercises plan) (TrainingPlan.exercises plan').
Proof.
  intros Ha Hk Hid Hf Ht H0f H0t Hne.
  destruct (moveExercise_plan_position dragId targetId plan fromIndex toIndex
              Hf Ht H0f H0t Hne) as (moved & Hm & Hmid & Hto & Hrest).
  exists (moveExercise_plan dragId targetId plan), moved.
  split; [|by split].
  unfold moveExercise. rewrite Ha.
  rewrite bool_decide_eq_false_2.
  - cbn [setPlans plans]. by apply mapActivePlan_active.
  - intros ->. apply Hne. by rewrite Hf, Ht.
Qed.

Lemma moveExercise_noop dragId targetId s :
  dragId = targetId ∨ activePlan s = None
  ∨ (∀ plan,
       plan ∈ plans s → TrainingPlan.id plan = activePlanId s →
       Forall (λ exercise, Exercise.id exercise ≠ dragId)
              (TrainingPlan.exercises plan)
       ∨ Forall (λ exercise, Exercise.id exercise ≠ targetId)
                (TrainingPlan.exercises plan)) →
  moveExercise dragId targetId s = s.
Proof.
  intros [->|[H|H]].
  - apply moveExercise_same_id.
  - unfold moveExercise. by rewrite H.
  - unfold moveExercise. destruct (activePlan s) as [active|] eqn:Ha; [|done].
    destruct (bool_decide _); [done|].
    apply setPlans_fixed, mapActivePlan_fixed. intros plan Hin Hid.
    apply moveExercise_plan_noop.
    rewrite (activePlan_id _ _ Ha) in Hid.
    destruct (H plan Hin Hid) as [H'|H']; [by left | by right; left].
Qed.

Lemma moveExercise_frame dragId targetId s :
  history (moveExercise dragId targetId s) = history s
  ∧ activePlanId (moveExercise dragId targetId s) = activePlanId s
  ∧ (∀ k plan,
       plans s !! k = Some plan → TrainingPlan.id plan ≠ activePlanId s →
       plans (moveExercise dragId targetId s) !! k = Some plan).
Proof.
  unfold moveExercise. destruct (activePlan s) as [active|] eqn:Ha; [|done].
  destruct (bool_decide _); [done|].
  split; [done|]. split; [done|]. intros k plan Hk Hid.
  cbn [setPlans plans]. rewrite mapActivePlan_lookup, Hk. simpl.
  rewrite (activePlan_id _ _ Ha). by rewrite bool_decide_eq_true_2.
Qed.

Lemma V3_activePlan_id s active :
  V3.activePlan s = Some active →
  V3.TrainingPlan.id active = V3.activePlanId s.
Proof.
  unfold V3.activePlan. intros H. apply find_some in H as [_ H].
  by apply bool_decide_eq_true in H.
Qed.

Lemma V3_mapActivePlan_lookup activeId f previous k :
  V3.mapActivePlan activeId f previous !! k
  = (λ plan, if bool_decide (V3.TrainingPlan.id plan ≠ activeId) then plan
             else f plan) <$> previous !! k.
Proof. unfold V3.mapActivePlan. apply list_lookup_fmap. Qed.

Lemma V3_mapActivePlan_fixed activeId f previous :
  (∀ plan,
     plan ∈ previous → V3.TrainingPlan.id plan = activeId → f plan = plan) →
  V3.mapActivePlan activeId f previous = previous.
Proof.
  intros H. unfold V3.mapActivePlan.
  rewrite <- (list_fmap_id previous) at 2.
  apply list_fmap_ext. intros k plan Hk. simpl.
  destruct (decide (V3.TrainingPlan.id plan = activeId)) as [E|E].
  - rewrite bool_decide_eq_false_2 by (by intros ?).
    apply H; [|done]. by eapply list_elem_of_lookup_2.
  - by rewrite bool_decide_eq_true_2.
Qed.

Lemma moveExerciseByOffset_position
    exerciseId offset s active k plan index target :
  V3.activePlan s = Some active →
  V3.plans s !! k = Some plan →
  V3.TrainingPlan.id plan = V3.TrainingPlan.id active →
  index
  = findIndex (λ exercise, bool_decide (V3.Exercise.id exercise = exerciseId))
              (V3.TrainingPlan.exercises plan) →
  target = (index + V3.offset_value offset)%Z →
  (0 ≤ index)%Z → (0 ≤ target)%Z →
  (target < Z.of_nat (length (V3.TrainingPlan.exercises plan)))%Z →
  ∃ plan' moved,
    V3.plans (V3.moveExerciseByOffset exerciseId offset s) !! k = Some plan'
    ∧ V3.Exercise.id moved = exerciseId
    ∧ taken_to (Z.to_nat index) (Z.to_nat target) moved
               (V3.TrainingPlan.exercises plan)
               (V3.TrainingPlan.exercises plan').
Proof.
  intros Ha Hk Hid Hi Ht H0i H0t Hlt.
  destruct (moveExerciseByOffset_plan_position exerciseId offset plan
              index target Hi Ht H0i H0t Hlt)
    as (moved & Hm & Hmid & Hto & Hrest).
  exists (V3.moveExerciseByOffset_plan exerciseId offset plan), moved.
  split; [|by split].
  unfold V3.moveExerciseByOffset. rewrite Ha. cbn [V3.plans].
  rewrite V3_mapActivePlan_lookup, Hk. simpl.
  rewrite bool_decide_eq_false_2; [done|]. by intros ?.
Qed.

Lemma moveExerciseByOffset_noop exerciseId offset s :
  V3.activePlan s = None
  ∨ (∀ plan index,
       plan ∈ V3.plans s → V3.TrainingPlan.id plan = V3.activePlanId s →
       index
       = findIndex
           (λ exercise, bool_decide (V3.Exercise.id exercise = exerciseId))
           (V3.TrainingPlan.exercises plan) →
       Forall (λ exercise, V3.Exercise.id exercise ≠ exerciseId)
              (V3.TrainingPlan.exercises plan)
       ∨ (index + V3.offset_value offset < 0)%Z
       ∨ (Z.of_nat (length (V3.TrainingPlan.exercises plan))
          ≤ index + V3.offset_value offset)%Z) →
  V3.moveExerciseByOffset exerciseId offset s = s.
Proof.
  intros [H|H]; unfold V3.moveExerciseByOffset.
  - by rewrite H.
  - destruct (V3.activePlan s) as [active|] eqn:Ha; [|done].
    rewrite V3_mapActivePlan_fixed; [by destruct s|].
    intros plan Hin Hid. rewrite (V3_activePlan_id _ _ Ha) in Hid.
    eapply moveExerciseByOffset_plan_boundary; [done|].
    destruct (H plan _ Hin Hid eq_refl) as [H'|[H'|H']];
      [left | by right; left | by right; right].
    apply findIndex_absent. eapply Forall_impl; [done|].
    intros e He. simpl. by apply bool_decide_eq_false_2.
Qed.

Lemma moveExerciseByOffset_frame exerciseId offset s :
  V3.history (V3.moveExerciseByOffset exerciseId offset s) = V3.history s
  ∧ V3.activePlanId (V3.moveExerciseByOffset exerciseId offset s)
    = V3.activePlanId s
  ∧ (∀ k plan,
       V3.plans s !! k = Some plan →
       V3.TrainingPlan.id plan ≠ V3.activePlanId s →
       V3.plans (V3.moveExerciseByOffset exerciseId offset s) !! k
       = Some plan).
Proof.
  unfold V3.moveExerciseByOffset.
  destruct (V3.activePlan s) as [active|] eqn:Ha; [|done].
  split; [done|]. split; [done|]. intros k plan Hk Hid.
  cbn [V3.plans]. rewrite V3_mapActivePlan_lookup, Hk. simpl.
  rewrite (V3_activePlan_id _ _ Ha). by rewrite bool_decide_eq_true_2.
Qed.

(** C8.  Both reorder operations, on the whole state: every plan comes back
    as the same plan with a permutation of its exercises (so the length is
    kept and nothing is dropped or duplicated), the history and the
    selection are untouched, and plans other than the active one are the
    same records.  In the active plan [moveExercise] puts the dragged
    exercise at the index of the anchor and keeps the others in their order;
    it returns the state as it is when the two ids are equal, no plan is
    active, or one of the ids is absent from the active plan.
    [moveExerciseByOffset] puts the exercise one index up or down and
    returns the state as it is when no plan is active, the id is absent, or
    the step would leave the list. *)
Theorem reorder_is_permutation :
  (∀ dragId targetId s,
     Forall2 reordered (plans s) (plans (moveExercise dragId targetId s))
     ∧ history (moveExercise dragId targetId s) = history s
     ∧ activePlanId (moveExercise dragId targetId s) = activePlanId s
     ∧ (∀ k plan,
          plans s !! k = Some plan → TrainingPlan.id plan ≠ activePlanId s →
          plans (moveExercise dragId targetId s) !! k = Some plan))
  ∧ (∀ dragId targetId s active k plan fromIndex toIndex,
       activePlan s = Some active →
       plans s !! k = Some plan →
       TrainingPlan.id plan = TrainingPlan.id active →
       fromIndex
       = findIndex (λ exercise, bool_decide (Exercise.id exercise = dragId))
                   (TrainingPlan.exercises plan) →
       toIndex
       = findIndex (λ exercise, bool_decide (Exercise.id exercise = targetId))
                   (TrainingPlan.exercises plan) →
       (0 ≤ fromIndex)%Z → (0 ≤ toIndex)%Z → fromIndex ≠ toIndex →
       ∃ plan' moved,
         plans (moveExercise dragId targetId s) !! k = Some plan'
         ∧ Exercise.id moved = dragId
         ∧ taken_to (Z.to_nat fromIndex) (Z.to_nat toIndex) moved
                    (TrainingPlan.exercises plan)
                    (TrainingPlan.exercises plan'))
  ∧ (∀ dragId targetId s,
       dragId = targetId ∨ activePlan s = None
       ∨ (∀ plan,
            plan ∈ plans s → TrainingPlan.id plan = activePlanId s →
            Forall (λ exercise, Exercise.id exercise ≠ dragId)
                   (TrainingPlan.exercises plan)
            ∨ Forall (λ exercise, Exercise.id exercise ≠ targetId)
                     (TrainingPlan.exercises plan)) →
       moveExercise dragId targetId s = s)
  ∧ (∀ exerciseId offset s,
       Forall2 V3.reordered (V3.plans s)
               (V3.plans (V3.moveExerciseByOffset exerciseId offset s))
       ∧ V3.history (V3.moveExerciseByOffset exerciseId offset s)
         = V3.history s
       ∧ V3.activePlanId (V3.moveExerciseByOffset exerciseId offset s)
         = V3.activePlanId s
       ∧ (∀ k plan,
            V3.plans s !! k = Some plan →
            V3.TrainingPlan.id plan ≠ V3.activePlanId s →
            V3.plans (V3.moveExerciseByOffset exerciseId offset s) !! k
            = Some plan))
  ∧ (∀ exerciseId offset s active k plan index target,
       V3.activePlan s = Some active →
       V3.plans s !! k = Some plan →
       V3.TrainingPlan.id plan = V3.TrainingPlan.id active →
       index
       = findIndex
           (λ exercise, bool_decide (V3.Exercise.id exercise = exerciseId))
           (V3.TrainingPlan.exercises plan) →
       target = (index + V3.offset_value offset)%Z →
       (0 ≤ index)%Z → (0 ≤ target)%Z →
       (target < Z.of_nat (length (V3.TrainingPlan.exercises plan)))%Z →
       ∃ plan' moved,
         V3.plans (V3.moveExerciseByOffset exerciseId offset s) !! k
         = Some plan'
         ∧ V3.Exercise.id moved = exerciseId
         ∧ taken_to (Z.to_nat index) (Z.to_nat target) moved
                    (V3.TrainingPlan.exercises plan)
                    (V3.TrainingPlan.exercises plan'))
  ∧ (∀ exerciseId offset s,
       V3.activePlan s = None
       ∨ (∀ plan index,
            plan ∈ V3.plans s →
            V3.TrainingPlan.id plan = V3.activePlanId s →
            index
            = findIndex
                (λ exercise,
                   bool_decide (V3.Exercise.id exercise = exerciseId))
                (V3.TrainingPlan.exercises plan) →
            Forall (λ exercise, V3.Exercise.id exercise ≠ exerciseId)
                   (V3.TrainingPlan.exercises plan)
            ∨ (index + V3.offset_value offset < 0)%Z
            ∨ (Z.of_nat (length (V3.TrainingPlan.exercises plan))
               ≤ index + V3.offset_value offset)%Z) →
       V3.moveExerciseByOffset exerciseId offset s = s).
Proof.
  split.
  { intros dragId targetId s.
    split; [apply moveExercise_reordered | apply moveExercise_frame]. }
  split; [exact moveExercise_position|].
  split; [exact moveExercise_noop|].
  split.
  { intros exerciseId offset s.
    split; [apply moveExerciseByOffset_reordered
           | apply moveExerciseByOffset_frame]. }
  split; [exact moveExerciseByOffset_position|].
  exact moveExerciseByOffset_noop.
Qed.

Lemma reorder_is_permutation_witness :
  (∃ plan' moved,
     plans (moveExercise "e1" "e3" sampleState) !! 0 = Some plan'
     ∧ Exercise.id moved = "e1"
     ∧ taken_to 0 2 moved [bench; squat; row] (TrainingPlan.exercises plan'))
  ∧ plans (moveExercise "e1" "e3" sampleState) !! 0
    = Some {| TrainingPlan.id := "p1"; TrainingPlan.name := "Push Day";
              TrainingPlan.exercises := [squat; row; bench] |}
  ∧ moveExercise "e1" "e9" sampleState = sampleState.
Proof.
  split; [|split; [reflexivity|]].
  - refine (proj1 (proj2 reorder_is_permutation)
              "e1" "e3" sampleState pushDay 0 pushDay 0%Z 2%Z
              eq_refl eq_refl eq_refl eq_refl eq_refl _ _ _); lia.
  - refine (proj1 (proj2 (proj2 reorder_is_permutation))
              "e1" "e9" sampleState _).
    right. right. intros plan Hin Hid. right.
    apply elem_of_cons in Hin as [->|Hin].
    + repeat constructor; by intros [=].
    + apply list_elem_of_singleton in Hin. subst plan. discriminate Hid.
Defined.

(** ** Frame of the single-exercise operations *)

Lemma framed_refl (inside : list Exercise.t → list Exercise.t → Prop) s :
  (∀ l, inside l l) → framed inside s s.
Proof.
  intros H. repeat split. apply Forall2_refl_same. intros plan.
  by repeat split.
Qed.

Lemma framed_mapActivePlan
    (inside : list Exercise.t → list Exercise.t → Prop) f s active :
  activePlan s = Some active →
  (∀ l, inside l l) →
  (∀ plan, TrainingPlan.id (f plan) = TrainingPlan.id plan
           ∧ TrainingPlan.name (f plan) = TrainingPlan.name plan
           ∧ inside (TrainingPlan.exercises plan)
                    (TrainingPlan.exercises (f plan))) →
  framed inside s (setPlans (mapActivePlan (TrainingPlan.id active) f) s).
Proof.
  intros Ha Hrefl Hf. apply activePlan_id in Ha. rewrite Ha.
  repeat split. simpl. unfold mapActivePlan. apply Forall2_fmap_r.
  apply Forall_Forall2_diag, Forall_forall. intros plan _.
  unfold compose. cbv beta.
  destruct (decide (TrainingPlan.id plan = activePlanId s)) as [E|E].
  - rewrite bool_decide_eq_false_2 by (by intros ?).
    destruct (Hf plan) as (? & ? & ?). by repeat split.
  - rewrite bool_decide_eq_true_2 by done. by repeat split.
Qed.

Lemma touches_only_refl exerciseId l : touches_only exerciseId l l.
Proof. by apply Forall2_refl_same. Qed.

Lemma touches_only_fmap exerciseId g l :
  (∀ exercise, Exercise.id exercise ≠ exerciseId → g exercise = exercise) →
  touches_only exerciseId l (g <$> l).
Proof.
  intros Hg. unfold touches_only. apply Forall2_fmap_r.
  apply Forall_Forall2_diag, Forall_forall. intros e _.
  unfold compose. cbv beta. apply Hg.
Qed.

Lemma framed_mapActiveExercises exerciseId g s active :
  activePlan s = Some active →
  (∀ exercise, Exercise.id exercise ≠ exerciseId → g exercise = exercise) →
  framed (touches_only exerciseId) s
    (setPlans (mapActiveExercises (TrainingPlan.id active) g) s).
Proof.
  intros Ha Hg. apply framed_mapActivePlan;
    [done | apply touches_only_refl |].
  intros plan. repeat split. simpl. by apply touches_only_fmap.
Qed.

Lemma others_idem exerciseId l :
  others exerciseId (others exerciseId l) = others exerciseId l.
Proof.
  unfold others. rewrite list_filter_filter. apply list_filter_iff.
  intros e. tauto.
Qed.

(** Position by position implies in order. *)
Lemma touches_only_others exerciseId l l' :
  touches_only exerciseId l l' →
  length l' = length l
  ∧ (∀ i exercise, l !! i = Some exercise →
       Exercise.id exercise ≠ exerciseId → l' !! i = Some exercise).
Proof.
  intros H. split; [symmetry; by eapply Forall2_length|].
  intros i e Hi Hne.
  destruct (Forall2_lookup_l _ _ _ _ _ H Hi) as (e' & Hi' & He').
  by rewrite Hi', (He' Hne).
Qed.

(** C10.  [updateExerciseWeight], [changeExerciseByDelta], [setExerciseSets],
    [updateExerciseMeta] and [deleteExercise], aimed at exercise
    [exerciseId], leave the history and the selection alone, keep the list
    of plans with their ids and names, return every plan other than the
    active one as it was, and inside the active plan leave every exercise
    with another id as it was: at its position for the four updates, and in
    order, with only the exercises carrying the id removed, for the
    deletion. *)
Theorem single_exercise_operations_frame exerciseId s :
  (∀ parsedWeight,
     framed (touches_only exerciseId) s
       (updateExerciseWeight exerciseId parsedWeight s))
  ∧ (∀ delta,
       framed (touches_only exerciseId) s
         (changeExerciseByDelta exerciseId delta s))
  ∧ (∀ n,
       framed (touches_only exerciseId) s (setExerciseSets exerciseId n s))
  ∧ (∀ patch,
       framed (touches_only exerciseId) s
         (updateExerciseMeta exerciseId patch s))
  ∧ framed (λ l l', others exerciseId l' = others exerciseId l
                    ∧ (l' = l ∨ l' = others exerciseId l))
      s (deleteExercise exerciseId s).
Proof.
  split; [|split; [|split; [|split]]].
  - intros parsedWeight. unfold updateExerciseWeight.
    destruct parsedWeight as [w|];
      [|by apply framed_refl, touches_only_refl].
    destruct (activePlan s) as [active|] eqn:Ha;
      [|by apply framed_refl, touches_only_refl].
    destruct (num_lt w 0); [by apply framed_refl, touches_only_refl|].
    apply framed_mapActiveExercises; [done|]. intros e He.
    unfold updateExerciseWeight_exercise. by rewrite bool_decide_eq_true_2.
  - intros delta. unfold changeExerciseByDelta.
    destruct (activePlan s) as [active|] eqn:Ha;
      [|by apply framed_refl, touches_only_refl].
    apply framed_mapActiveExercises; [done|]. intros e He.
    unfold changeExerciseByDelta_exercise. by rewrite bool_decide_eq_true_2.
  - intros n. unfold setExerciseSets.
    destruct (activePlan s) as [active|] eqn:Ha;
      [|by apply framed_refl, touches_only_refl].
    apply framed_mapActiveExercises; [done|]. intros e He.
    unfold setExerciseSets_exercise. by rewrite bool_decide_eq_true_2.
  - intros patch. unfold updateExerciseMeta.
    destruct (activePlan s) as [active|] eqn:Ha;
      [|by apply framed_refl, touches_only_refl].
    apply framed_mapActiveExercises; [done|]. intros e He.
    unfold updateExerciseMeta_exercise. by rewrite bool_decide_eq_true_2.
  - unfold deleteExercise.
    destruct (activePlan s) as [active|] eqn:Ha;
      [|apply framed_refl; intros l; split; [done | by left]].
    apply framed_mapActivePlan; [done | intros l; split; [done | by left] |].
    intros plan. repeat split; simpl.
    + apply others_idem.
    + by right.
Qed.

(** ** The best weight *)

Lemma normalizeExercise_best input :
  stored_best_ok input → best_covers_current (normalizeExercise input).
Proof.
  unfold stored_best_ok, best_covers_current. simpl.
  destruct (RawExercise.bestWeight input); simpl; [done|].
  intros _. apply Qle_refl.
Qed.

Lemma initialState_best storedPlans storedHistory :
  storage_best_ok storedPlans →
  all_exercises best_covers_current (initialState storedPlans storedHistory).
Proof.
  intros Hok. unfold all_exercises, initialState.
  rewrite plans_syncActivePlan. simpl.
  destruct storedPlans as [parsed|]; simpl; [|constructor].
  apply Forall_fmap, Forall_forall. intros plan Hp. simpl.
  destruct (RawPlan.exercises plan) as [exercises|] eqn:E; [|constructor].
  apply Forall_fmap. eapply Forall_impl; [by eapply Hok|].
  intros input. apply normalizeExercise_best.
Qed.

Lemma best_invariant_steps s0 s :
  all_exercises best_covers_current s0 → reachable s0 s →
  all_exercises best_covers_current s.
Proof.
  apply reachable_keeps; unfold best_covers_current.
  - intros. simpl. apply Qle_refl.
  - intros. simpl. apply Math_max_r.
  - intros exerciseId completed e H. unfold setExerciseCompleted_exercise.
    by destruct (bool_decide _).
  - intros exerciseId n e H. unfold setExerciseSets_exercise.
    by destruct (bool_decide _).
  - intros exerciseId patch e H. unfold updateExerciseMeta_exercise.
    by destruct (bool_decide _).
  - by intros e H.
  - by intros e H.
Qed.

Lemma best_not_lowered_refl exercise : best_not_lowered exercise exercise.
Proof. split; [done | apply Qle_refl]. Qed.

Lemma best_not_lowered_same exercise exercise' :
  Exercise.id exercise' = Exercise.id exercise →
  Exercise.bestWeight exercise' = Exercise.bestWeight exercise →
  best_not_lowered exercise exercise'.
Proof. intros Hid Hb. split; [done|]. rewrite Hb. apply Qle_refl. Qed.

Lemma exercises_evolve_refl l : exercises_evolve l l.
Proof. apply evolve_each, Forall2_refl_same, best_not_lowered_refl. Qed.

Lemma exercises_evolve_fmap g l :
  (∀ exercise, best_not_lowered exercise (g exercise)) →
  exercises_evolve l (g <$> l).
Proof.
  intros Hg. apply evolve_each, Forall2_fmap_r.
  apply Forall_Forall2_diag, Forall_forall. intros e _.
  unfold compose. cbv beta. apply Hg.
Qed.

Lemma plans_evolve_refl previous : plans_evolve previous previous.
Proof.
  apply plans_each, Forall2_refl_same. intros plan.
  split; [done | apply exercises_evolve_refl].
Qed.

Lemma plans_evolve_mapActivePlan activeId f previous :
  (∀ plan, TrainingPlan.id (f plan) = TrainingPlan.id plan
           ∧ exercises_evolve (TrainingPlan.exercises plan)
                              (TrainingPlan.exercises (f plan))) →
  plans_evolve previous (mapActivePlan activeId f previous).
Proof.
  intros Hf. apply plans_each, mapActivePlan_Forall2; [|done].
  intros plan. split; [done | apply exercises_evolve_refl].
Qed.

Lemma plans_evolve_mapActiveExercises activeId g previous :
  (∀ exercise, best_not_lowered exercise (g exercise)) →
  plans_evolve previous (mapActiveExercises activeId g previous).
Proof.
  intros Hg. apply plans_evolve_mapActivePlan. intros plan.
  split; [done|]. simpl. by apply exercises_evolve_fmap.
Qed.

Lemma shiftWeight_best exercise nextWeight :
  best_not_lowered exercise (shiftWeight exercise nextWeight).
Proof. split; [done | apply Math_max_l]. Qed.

Lemma plans_evolve_perform a s : plans_evolve (plans s) (plans (perform a s)).
Proof.
  destruct a; cbn [perform plans].
  - unfold createPlan. destruct (bool_decide _); [apply plans_evolve_refl|].
    simpl. by apply plans_created.
  - unfold renameActivePlan.
    destruct (activePlan s); [|apply plans_evolve_refl].
    destruct (bool_decide _); [apply plans_evolve_refl|]. simpl.
    apply plans_evolve_mapActivePlan. intros plan.
    split; [done | apply exercises_evolve_refl].
  - unfold deleteActivePlan.
    destruct (activePlan s); [|apply plans_evolve_refl]. simpl.
    apply plans_deleted.
  - apply plans_evolve_refl.
  - unfold addExercise. destruct (activePlan s); [|apply plans_evolve_refl].
    destruct parsedWeight as [w|]; [|apply plans_evolve_refl].
    destruct (_ || _); [apply plans_evolve_refl|]. simpl.
    apply plans_evolve_mapActivePlan. intros plan.
    split; [done|]. simpl. by apply evolve_added.
  - unfold updateExerciseWeight.
    destruct parsedWeight as [w|]; [|apply plans_evolve_refl].
    destruct (activePlan s); [|apply plans_evolve_refl].
    destruct (num_lt w 0); [apply plans_evolve_refl|]. simpl.
    apply plans_evolve_mapActiveExercises. intros e.
    unfold updateExerciseWeight_exercise.
    destruct (bool_decide _); [apply best_not_lowered_refl|].
    destruct (num_eq _ _);
      [apply best_not_lowered_refl | apply shiftWeight_best].
  - unfold changeExerciseByDelta.
    destruct (activePlan s); [|apply plans_evolve_refl]. simpl.
    apply plans_evolve_mapActiveExercises. intros e.
    unfold changeExerciseByDelta_exercise.
    destruct (bool_decide _); [apply best_not_lowered_refl|]. cbv zeta.
    destruct (num_eq _ _);
      [apply best_not_lowered_refl | apply shiftWeight_best].
  - unfold setExerciseCompleted.
    destruct (activePlan s); [|apply plans_evolve_refl]. simpl.
    apply plans_evolve_mapActiveExercises. intros e.
    unfold setExerciseCompleted_exercise.
    destruct (bool_decide _); by apply best_not_lowered_same.
  - unfold setExerciseSets.
    destruct (activePlan s); [|apply plans_evolve_refl]. simpl.
    apply plans_evolve_mapActiveExercises. intros e.
    unfold setExerciseSets_exercise.
    destruct (bool_decide _); by apply best_not_lowered_same.
  - unfold updateExerciseMeta.
    destruct (activePlan s); [|apply plans_evolve_refl]. simpl.
    apply plans_evolve_mapActiveExercises. intros e.
    unfold updateExerciseMeta_exercise.
    destruct (bool_decide _); by apply best_not_lowered_same.
  - unfold deleteExercise.
    destruct (activePlan s); [|apply plans_evolve_refl]. simpl.
    apply plans_evolve_mapActivePlan. intros plan.
    split; [done|]. simpl. apply evolve_deleted.
  - unfold moveExercise. destruct (activePlan s); [|apply plans_evolve_refl].
    destruct (bool_decide _); [apply plans_evolve_refl|]. simpl.
    apply plans_evolve_mapActivePlan. intros plan.
    split; [apply moveExercise_plan_id|].
    apply evolve_moved, moveExercise_plan_perm.
  - unfold finishTraining. destruct (activePlan s); [|apply plans_evolve_refl].
    destruct (_ =? _)%nat; [apply plans_evolve_refl|]. simpl.
    apply plans_evolve_mapActiveExercises. intros e.
    by apply best_not_lowered_same.
  - rewrite loadPlans_stored. apply plans_each, Forall2_fmap_r.
    apply Forall_Forall2_diag, Forall_forall. intros plan _.
    unfold compose. cbv beta. split; [done|]. simpl.
    apply exercises_evolve_fmap. intros e. by apply best_not_lowered_same.
Qed.

Lemma storage_best_ok_legacy : storage_best_ok legacyStorage.
Proof.
  intros parsed plan exercises [= <-] Hin Hex.
  apply list_elem_of_singleton in Hin. subst plan. simpl in Hex.
  injection Hex as <-. repeat constructor.
Qed.

Lemma storage_best_ok_saved s :
  all_exercises best_covers_current s →
  storage_best_ok (Some (storedPlan <$> plans s)).
Proof.
  intros H parsed raw exercises [= <-] Hin Hex.
  apply list_elem_of_fmap in Hin as (plan & -> & Hin).
  simpl in Hex. injection Hex as <-.
  apply Forall_fmap. unfold all_exercises in H.
  rewrite Forall_forall in H. specialize (H plan Hin).
  eapply Forall_impl; [exact H|]. intros exercise He. exact He.
Qed.

Lemma addExercise_starts_at_best s active k plan newId exerciseName w :
  activePlan s = Some active →
  plans s !! k = Some plan → TrainingPlan.id plan = TrainingPlan.id active →
  trim exerciseName ≠ EmptyString → (0 <= w)%Q →
  exercise_at (step (AddExercise newId exerciseName (Some w)) s) k
    (length (TrainingPlan.exercises plan))
  = Some (newExercise newId (trim exerciseName) (toFixed1 w)).
Proof.
  intros Ha Hk Hid Hn Hw. apply exercise_at_Some.
  unfold step. rewrite plans_syncActivePlan. cbn [perform].
  unfold addExercise. rewrite Ha.
  rewrite bool_decide_eq_false_2 by done.
  destruct (num_lt w 0) eqn:E.
  { apply num_lt_true in E. by apply Qlt_not_le in E. }
  cbn [orb]. cbv zeta. eexists. split.
  - cbn [setPlans plans]. by apply mapActivePlan_active.
  - cbn [withExercises TrainingPlan.exercises].
    rewrite lookup_app_r by done. by rewrite Nat.sub_diag.
Qed.

(** C9.  Started on an empty storage, where every exercise comes from
    [addExercise], every state reached by operations and reloads has
    [currentWeight <= bestWeight] for every exercise; [addExercise] puts the
    new exercise at the end of the active plan with current and best weight
    both the rounded start weight; and no transition lowers a best weight:
    exercises are updated in place with a best weight at least the old one,
    appended, removed or permuted.  The same holds started on any storage
    whose records carry no best weight or one that is not below their
    current weight, which is so of everything the component saves. *)
Theorem bestWeight_covers_current_and_never_drops :
  (∀ storedHistory s,
     reachable (initialState None storedHistory) s →
     all_exercises best_covers_current s)
  ∧ (∀ s active k plan newId exerciseName w,
       activePlan s = Some active →
       plans s !! k = Some plan →
       TrainingPlan.id plan = TrainingPlan.id active →
       trim exerciseName ≠ EmptyString → (0 <= w)%Q →
       ∃ exercise',
         exercise_at (step (AddExercise newId exerciseName (Some w)) s) k
           (length (TrainingPlan.exercises plan))
         = Some exercise'
         ∧ Exercise.id exercise' = newId
         ∧ Exercise.currentWeight exercise' = toFixed1 w
         ∧ Exercise.bestWeight exercise' = toFixed1 w)
  ∧ (∀ a s, plans_evolve (plans s) (plans (step a s)))
  ∧ (∀ storedPlans storedHistory s,
       storage_best_ok storedPlans →
       reachable (initialState storedPlans storedHistory) s →
       all_exercises best_covers_current s)
  ∧ (∀ s,
       all_exercises best_covers_current s →
       storage_best_ok (Some (storedPlan <$> plans s))
       ∧ all_exercises best_covers_current (step Reload s)).
Proof.
  split; [|split; [|split; [|split]]].
  - intros storedHistory s.
    apply best_invariant_steps, initialState_best. by intros ? ? ? [=].
  - intros s active k plan newId exerciseName w Ha Hk Hid Hn Hw.
    eexists. split; [by eapply addExercise_starts_at_best|]. done.
  - intros a s. unfold step. rewrite plans_syncActivePlan.
    apply plans_evolve_perform.
  - intros storedPlans storedHistory s Hok.
    by apply best_invariant_steps, initialState_best.
  - intros s H. split; [by apply storage_best_ok_saved|].
    apply (best_invariant_steps s); [done|]. constructor. constructor.
Qed.

Lemma bestWeight_covers_current_and_never_drops_witness :
  let s0 := initialState None None in
  let s := run [CreatePlan "p1" "Push Day";
                AddExercise "e1" "Bench" (Some 20%Q);
                UpdateExerciseWeight "e1" (Some (325 # 10)%Q);
                ChangeExerciseByDelta "e1" (- (25 # 10)); Reload;
                AddExercise "e7" "Press" (Some 40%Q)] s0 in
  reachable s0 s
  ∧ all_exercises best_covers_current s
  ∧ exercise_at s 0 0
    = Some {| Exercise.id := "e1"; Exercise.name := "Bench";
              Exercise.currentWeight := 300 # 10;
              Exercise.previousWeight := Some (325 # 10)%Q;
              Exercise.bestWeight := 325 # 10;
              Exercise.completed := false; Exercise.notes := EmptyString;
              Exercise.targetSets := 3; Exercise.completedSets := 0 |}.
Proof.
  intros s0 s.
  assert (reachable s0 s) as Hr by (apply reachable_run; constructor).
  split; [exact Hr|]. split; [|reflexivity].
  exact (proj1 bestWeight_covers_current_and_never_drops None s Hr).
Defined.

(** Outside what the component writes: a record edited by hand in the
    storage, with current weight 50 and best weight 20, comes out of
    [normalizeExercise] as it went in. *)
Lemma stored_best_below_current_survives :
  let s := initialState strayStorage None in
  (∃ exercise,
     exercise_at s 0 0 = Some exercise
     ∧ Exercise.currentWeight exercise = 50%Q
     ∧ Exercise.bestWeight exercise = 20%Q)
  ∧ ¬ storage_best_ok strayStorage.
Proof.
  split; [eexists; repeat split|].
  intros H. unfold strayStorage in H.
  match type of H with
  | storage_best_ok (Some ?parsed) =>
      match parsed with
      | ?plan :: _ =>
          specialize (H parsed plan _ eq_refl (list_elem_of_here _ _) eq_refl)
      end
  end.
  apply Forall_cons in H as [H _]. vm_compute in H. by apply H.
Qed.

(** * Further properties of [src/App.tsx] *)

(** ** Clamping and rounding *)

Lemma Math_min_le_l a b : (Math_min a b <= a)%Q.
Proof.
  unfold Math_min. destruct (Qle_bool a b) eqn:E; [apply Qle_refl|].
  apply Qlt_le_weak, Qnot_le_lt. intros H. apply Qle_bool_iff in H. congruence.
Qed.

Lemma Math_min_le_r a b : (Math_min a b <= b)%Q.
Proof.
  unfold Math_min. destruct (Qle_bool a b) eqn:E; [|apply Qle_refl].
  by apply Qle_bool_iff.
Qed.

Lemma Math_min_glb a b c : (c <= a)%Q → (c <= b)%Q → (c <= Math_min a b)%Q.
Proof. intros. unfold Math_min. by destruct (Qle_bool a b). Qed.

Lemma Math_max_lub a b c : (a <= c)%Q → (b <= c)%Q → (Math_max a b <= c)%Q.
Proof. intros. unfold Math_max. by destruct (Qle_bool a b). Qed.

Lemma clampWeight_bounds value :
  (0 <= clampWeight value)%Q ∧ (clampWeight value <= 300)%Q
  ∧ ((0 <= value)%Q → (value <= 300)%Q → (clampWeight value == value)%Q).
Proof.
  unfold clampWeight. split; [apply Math_max_l|]. split.
  - apply Math_max_lub; [done | apply Math_min_le_l].
  - intros H0 H300. apply Qle_antisym.
    + apply Math_max_lub; [done | apply Math_min_le_r].
    + eapply Qle_trans; [|apply Math_max_r].
      apply Math_min_glb; [done | apply Qle_refl].
Qed.

(** X1.  [clampWeight] returns a weight within [0, 300] on every input, and
    returns (a number equal to) its argument when that is within
    [0, 300]. *)
Theorem clampWeight_range value :
  (0 <= clampWeight value)%Q ∧ (clampWeight value <= 300)%Q
  ∧ ((0 <= value)%Q → (value <= 300)%Q → (clampWeight value == value)%Q).
Proof. exact (clampWeight_bounds value). Qed.

Lemma clampWeight_range_witness :
  (clampWeight (2975 # 10) == 2975 # 10)%Q.
Proof.
  refine (proj2 (proj2 (clampWeight_range (2975 # 10))) _ _);
    unfold Qle; simpl; lia.
Defined.

Lemma Qfloor_nonneg x : (0 <= x)%Q → (0 ≤ Qfloor x)%Z.
Proof. intros H. by apply (Qfloor_resp_le 0 x). Qed.

Lemma toFixed1_of_nonneg x :
  (0 <= x)%Q → toFixed1 x = (Qfloor (Qabs x * 10 + (1 # 2)) # 10)%Q.
Proof.
  intros H. unfold toFixed1.
  destruct (num_lt x 0) eqn:E; [|done].
  apply num_lt_true in E. by apply Qlt_not_le in E.
Qed.

Lemma tenths_nonneg x : (0 <= Qabs x * 10 + (1 # 2))%Q.
Proof.
  pose proof (Qabs_nonneg x) as H.
  assert (0 <= Qabs x * 10)%Q by (apply Qmult_le_0_compat; [done | easy]).
  assert (0 <= 1 # 2)%Q by easy.
  replace 0%Q with (0 + 0)%Q by done. by apply Qplus_le_compat.
Qed.

Lemma tenths_ge (a n : Z) : (a * 10 ≤ n)%Z → (inject_Z a <= n # 10)%Q.
Proof. intros H. unfold Qle, inject_Z. cbn [Qnum Qden]. lia. Qed.

Lemma tenths_le (a n : Z) : (n ≤ a * 10)%Z → (n # 10 <= inject_Z a)%Q.
Proof. intros H. unfold Qle, inject_Z. cbn [Qnum Qden]. lia. Qed.

Lemma toFixed1_nonneg x : (0 <= x)%Q → (0 <= toFixed1 x)%Q.
Proof.
  intros H. rewrite (toFixed1_of_nonneg x H).
  pose proof (Qfloor_nonneg _ (tenths_nonneg x)) as Hn.
  apply (tenths_ge 0). lia.
Qed.

Lemma toFixed1_one_decimal x : ∃ n : Z, toFixed1 x = (n # 10)%Q.
Proof. unfold toFixed1. destruct (num_lt x 0); eauto. Qed.

Lemma toFixed1_ge_300 x : (300 <= x)%Q → (300 <= toFixed1 x)%Q.
Proof.
  intros H. assert (0 <= x)%Q as H0 by (eapply Qle_trans; [|exact H]; easy).
  rewrite (toFixed1_of_nonneg x H0). rewrite (Qabs_pos x H0).
  assert (3000 <= x * 10 + (1 # 2))%Q as Hge.
  { replace 3000%Q with (300 * 10 + 0)%Q by done.
    apply Qplus_le_compat; [|easy].
    apply Qmult_le_compat_r; [done | easy]. }
  apply Qfloor_resp_le in Hge. change (Qfloor 3000) with 3000%Z in Hge.
  apply (tenths_ge 300). lia.
Qed.

Lemma toFixed1_nonpos x : (x <= 0)%Q → (toFixed1 x <= 0)%Q.
Proof.
  intros H. unfold toFixed1. destruct (num_lt x 0) eqn:E.
  - pose proof (Qfloor_nonneg _ (tenths_nonneg x)) as Hn.
    apply (tenths_le 0). lia.
  - assert (x == 0)%Q as Hx.
    { apply Qle_antisym; [done|]. apply Qnot_lt_le. intros Hlt.
      apply num_lt_true in Hlt. congruence. }
    assert (Qabs x * 10 + (1 # 2) == 1 # 2)%Q as Hq by (rewrite Hx; reflexivity).
    rewrite (Qfloor_comp _ _ Hq). done.
Qed.

Lemma clampWeight_ceiling value : (300 <= value)%Q → clampWeight value = 300%Q.
Proof.
  intros H. unfold clampWeight, Math_min.
  apply Qle_bool_iff in H. by rewrite H.
Qed.

Lemma clampWeight_floor value : (value <= 0)%Q → (clampWeight value == 0)%Q.
Proof.
  intros H. apply Qle_antisym; [|apply clampWeight_bounds].
  unfold clampWeight. apply Math_max_lub; [apply Qle_refl|].
  eapply Qle_trans; [apply Math_min_le_r | done].
Qed.

(** X2.  [changeExerciseByDelta] keeps a weight that is within [0, 300]
    within [0, 300], whatever the delta. *)
Theorem changeExerciseByDelta_within_range s active k plan i exercise delta :
  activePlan s = Some active →
  plans s !! k = Some plan → TrainingPlan.id plan = TrainingPlan.id active →
  TrainingPlan.exercises plan !! i = Some exercise →
  (0 <= Exercise.currentWeight exercise)%Q →
  (Exercise.currentWeight exercise <= 300)%Q →
  ∃ exercise',
    exercise_at (changeExerciseByDelta (Exercise.id exercise) delta s) k i
    = Some exercise'
    ∧ (0 <= Exercise.currentWeight exercise')%Q
    ∧ (Exercise.currentWeight exercise' <= 300)%Q.
Proof.
  intros Ha Hk Hid Hi H0 H300. eexists. split.
  - unfold changeExerciseByDelta. rewrite Ha.
    by eapply exercise_at_mapActiveExercises.
  - unfold changeExerciseByDelta_exercise.
    destruct (bool_decide _); [done|]. cbv zeta.
    destruct (num_eq _ _); [done|]. simpl.
    split; apply clampWeight_bounds.
Qed.

Lemma changeExerciseByDelta_within_range_witness :
  ∃ exercise',
    exercise_at (changeExerciseByDelta "e1" 1000 sampleState) 0 0
    = Some exercise'
    ∧ (0 <= Exercise.currentWeight exercise')%Q
    ∧ (Exercise.currentWeight exercise' <= 300)%Q.
Proof.
  refine (changeExerciseByDelta_within_range
            sampleState pushDay 0 pushDay 0 bench 1000
            eq_refl eq_refl eq_refl eq_refl _ _);
    unfold Qle; simpl; lia.
Defined.

(** X3.  At the ceiling (current weight 300) a delta that is not negative,
    and at the floor (current weight 0) a delta that is not positive, leave
    the exercise as it is: [previousWeight] is not overwritten. *)
Theorem changeExerciseByDelta_noop_at_bounds s active k plan i exercise delta :
  activePlan s = Some active →
  plans s !! k = Some plan → TrainingPlan.id plan = TrainingPlan.id active →
  TrainingPlan.exercises plan !! i = Some exercise →
  ((Exercise.currentWeight exercise == 300)%Q ∧ (0 <= delta)%Q)
  ∨ ((Exercise.currentWeight exercise == 0)%Q ∧ (delta <= 0)%Q) →
  exercise_at (changeExerciseByDelta (Exercise.id exercise) delta s) k i
  = Some exercise.
Proof.
  intros Ha Hk Hid Hi Hb.
  unfold changeExerciseByDelta. rewrite Ha.
  rewrite (exercise_at_mapActiveExercises _ _ _ _ _ _ _ Ha Hk Hid Hi).
  f_equal. unfold changeExerciseByDelta_exercise.
  rewrite bool_decide_eq_false_2 by (by intros ?). cbv zeta.
  assert (num_eq
            (clampWeight (toFixed1 (Exercise.currentWeight exercise + delta)))
            (Exercise.currentWeight exercise) = true) as ->; [|done].
  apply num_eq_true. destruct Hb as [[Hc Hd]|[Hc Hd]].
  - rewrite clampWeight_ceiling; [by rewrite Hc|].
    apply toFixed1_ge_300. rewrite Hc.
    replace 300%Q with (300 + 0)%Q at 1 by done.
    apply Qplus_le_compat; [apply Qle_refl | done].
  - transitivity 0%Q; [|by symmetry].
    apply clampWeight_floor, toFixed1_nonpos. rewrite Hc.
    by rewrite Qplus_0_l.
Qed.

Lemma changeExerciseByDelta_noop_at_bounds_witness :
  let s := updateExerciseWeight "e1" (Some 300%Q) sampleState in
  let exercise := shiftWeight bench (3000 # 10) in
  exercise_at (changeExerciseByDelta "e1" (25 # 10) s) 0 0 = Some exercise.
Proof.
  intros s exercise.
  set (plan := withExercises pushDay [exercise; squat; row]).
  assert ((Exercise.currentWeight exercise == 300)%Q ∧ (0 <= 25 # 10)%Q) as Hb.
  { split; [reflexivity | unfold Qle; simpl; lia]. }
  exact (changeExerciseByDelta_noop_at_bounds s plan 0 plan 0 exercise (25 # 10)
           eq_refl eq_refl eq_refl eq_refl (or_introl Hb)).
Defined.

(** ** Invariants of the current weight *)

Lemma num_lt_false a b : num_lt a b = false → (b <= a)%Q.
Proof.
  intros H. apply Qnot_lt_le. intros Hlt. apply num_lt_true in Hlt. congruence.
Qed.

Section weight_invariant.
Variable P : Exercise.t → Prop.
Hypothesis P_new :
  ∀ newId name w, (0 <= w)%Q → P (newExercise newId name (toFixed1 w)).
Hypothesis P_update :
  ∀ exercise w, (0 <= w)%Q → P exercise → P (shiftWeight exercise (toFixed1 w)).
Hypothesis P_delta :
  ∀ exercise x,
    P exercise → P (shiftWeight exercise (clampWeight (toFixed1 x))).
Hypothesis P_same :
  ∀ exercise exercise',
    Exercise.currentWeight exercise' = Exercise.currentWeight exercise →
    P exercise → P exercise'.

Lemma mapActiveExercises_keeps_weight activeId g previous :
  (∀ exercise, P exercise → P (g exercise)) →
  Forall (all_in_plan P) previous →
  Forall (all_in_plan P) (mapActiveExercises activeId g previous).
Proof.
  intros Hg. apply mapActivePlan_Forall. intros plan Hp.
  unfold all_in_plan in *. simpl. apply Forall_fmap.
  eapply Forall_impl; [done|]. intros e He. by apply Hg.
Qed.

Lemma perform_keeps_weight a s :
  all_exercises P s → all_exercises P (perform a s).
Proof.
  unfold all_exercises. intros H. destruct a; cbn [perform plans].
  - unfold createPlan. destruct (bool_decide _); [done|]. simpl.
    constructor; [constructor | done].
  - unfold renameActivePlan. destruct (activePlan s); [|done].
    destruct (bool_decide _); [done|]. simpl.
    by apply mapActivePlan_Forall.
  - unfold deleteActivePlan. destruct (activePlan s); [|done]. simpl.
    apply Forall_forall. intros plan Hp.
    apply list_elem_of_filter in Hp as [_ Hp].
    by eapply Forall_forall in H.
  - done.
  - unfold addExercise. destruct (activePlan s); [|done].
    destruct parsedWeight as [w|]; [|done].
    destruct (_ || _) eqn:E; [done|]. simpl.
    apply orb_false_iff in E as [_ E]. apply num_lt_false in E.
    apply mapActivePlan_Forall; [|done]. intros plan Hp.
    unfold all_in_plan in *. simpl. apply Forall_app. split; [done|].
    constructor; [by apply P_new | constructor].
  - unfold updateExerciseWeight. destruct parsedWeight as [w|]; [|done].
    destruct (activePlan s); [|done].
    destruct (num_lt w 0) eqn:E; [done|]. simpl. apply num_lt_false in E.
    apply mapActiveExercises_keeps_weight; [|done]. intros e He.
    unfold updateExerciseWeight_exercise.
    destruct (bool_decide _); [done|]. destruct (num_eq _ _); auto.
  - unfold changeExerciseByDelta. destruct (activePlan s); [|done]. simpl.
    apply mapActiveExercises_keeps_weight; [|done]. intros e He.
    unfold changeExerciseByDelta_exercise.
    destruct (bool_decide _); [done|]. cbv zeta. destruct (num_eq _ _); auto.
  - unfold setExerciseCompleted. destruct (activePlan s); [|done]. simpl.
    apply mapActiveExercises_keeps_weight; [|done]. intros e He.
    unfold setExerciseCompleted_exercise.
    destruct (bool_decide _); [|done]. by apply (P_same e).
  - unfold setExerciseSets. destruct (activePlan s); [|done]. simpl.
    apply mapActiveExercises_keeps_weight; [|done]. intros e He.
    unfold setExerciseSets_exercise.
    destruct (bool_decide _); [done|]. by apply (P_same e).
  - unfold updateExerciseMeta. destruct (activePlan s); [|done]. simpl.
    apply mapActiveExercises_keeps_weight; [|done]. intros e He.
    unfold updateExerciseMeta_exercise.
    destruct (bool_decide _); [done|]. by apply (P_same e).
  - unfold deleteExercise. destruct (activePlan s); [|done]. simpl.
    apply mapActivePlan_Forall; [|done]. intros plan Hp.
    unfold all_in_plan in *. simpl. apply Forall_forall. intros e He.
    apply list_elem_of_filter in He as [_ He].
    by eapply Forall_forall in Hp.
  - unfold moveExercise. destruct (activePlan s); [|done].
    destruct (bool_decide _); [done|]. simpl.
    apply mapActivePlan_Forall; [|done]. intros plan Hp.
    unfold all_in_plan in *. by rewrite moveExercise_plan_perm.
  - unfold finishTraining. destruct (activePlan s); [|done].
    destruct (_ =? _)%nat; [done|]. simpl.
    apply mapActiveExercises_keeps_weight; [|done]. intros e He.
    by apply (P_same e).
  - rewrite loadPlans_stored. apply Forall_fmap.
    eapply Forall_impl; [done|]. intros plan Hp.
    unfold all_in_plan in *. simpl. apply Forall_fmap.
    eapply Forall_impl; [done|]. intros e He. by apply (P_same e).
Qed.

Lemma initialState_weight storedPlans storedHistory :
  stored_weight_ok P storedPlans →
  all_exercises P (initialState storedPlans storedHistory).
Proof.
  intros Hok. unfold all_exercises, initialState.
  rewrite plans_syncActivePlan. simpl.
  destruct storedPlans as [parsed|]; simpl; [|constructor].
  apply Forall_fmap, Forall_forall. intros plan Hp.
  unfold all_in_plan. simpl.
  destruct (RawPlan.exercises plan) as [exercises|] eqn:E; [|constructor].
  apply Forall_fmap. by eapply Hok.
Qed.

Lemma reachable_keeps_weight storedPlans storedHistory s :
  stored_weight_ok P storedPlans →
  reachable (initialState storedPlans storedHistory) s →
  all_exercises P s.
Proof.
  intros Hok Hr. induction Hr; [by apply initialState_weight|].
  unfold step, all_exercises. rewrite plans_syncActivePlan.
  by apply perform_keeps_weight.
Qed.
End weight_invariant.

Lemma stored_weight_ok_legacy P :
  P (normalizeExercise legacyExercise) → stored_weight_ok P legacyStorage.
Proof.
  intros HP parsed plan exercises [= <-] Hin Hex.
  apply list_elem_of_singleton in Hin. subst plan. simpl in Hex.
  injection Hex as <-. by repeat constructor.
Qed.

(** X4.  Started on a storage without negative weights, the component never
    holds a negative current weight, whatever is typed, selected or
    stepped. *)
Theorem currentWeight_never_negative storedPlans storedHistory s :
  stored_weight_ok weight_nonneg storedPlans →
  reachable (initialState storedPlans storedHistory) s →
  all_exercises weight_nonneg s.
Proof.
  apply reachable_keeps_weight; unfold weight_nonneg.
  - intros. simpl. by apply toFixed1_nonneg.
  - intros. simpl. by apply toFixed1_nonneg.
  - intros. simpl. apply clampWeight_bounds.
  - intros e e' ->. done.
Qed.

Lemma currentWeight_never_negative_witness :
  let s0 := initialState legacyStorage None in
  let s := run [ChangeExerciseByDelta "e8" (-100);
                UpdateExerciseWeight "e8" (Some (- (5 # 1))%Q);
                AddExercise "e7" "Press" (Some (-3)%Q)] s0 in
  all_exercises weight_nonneg s.
Proof.
  intros s0 s.
  refine (currentWeight_never_negative legacyStorage None s _ _).
  - apply stored_weight_ok_legacy. unfold weight_nonneg, Qle. simpl. lia.
  - apply reachable_run. constructor.
Defined.

Lemma clampWeight_one_decimal n : ∃ m : Z, (clampWeight (n # 10) == m # 10)%Q.
Proof.
  unfold clampWeight, Math_max, Math_min.
  destruct (Qle_bool 300 (n # 10)); simpl.
  - by exists 3000%Z.
  - destruct (Qle_bool 0 (n # 10)); [by exists n | by exists 0%Z].
Qed.

(** X5.  Started on a storage whose weights have one decimal, every current
    weight the component holds is a whole number of tenths of a kilogram:
    typed and stepped weights are rounded before they are stored. *)
Theorem currentWeight_has_one_decimal storedPlans storedHistory s :
  stored_weight_ok one_decimal storedPlans →
  reachable (initialState storedPlans storedHistory) s →
  all_exercises one_decimal s.
Proof.
  apply reachable_keeps_weight; unfold one_decimal.
  - intros newId name w _. simpl.
    destruct (toFixed1_one_decimal w) as [n ->]. by exists n.
  - intros e w _ _. simpl.
    destruct (toFixed1_one_decimal w) as [n ->]. by exists n.
  - intros e x _. simpl.
    destruct (toFixed1_one_decimal x) as [n ->]. apply clampWeight_one_decimal.
  - intros e e' ->. done.
Qed.

Lemma currentWeight_has_one_decimal_witness :
  let s0 := initialState legacyStorage None in
  let s := run [ChangeExerciseByDelta "e8" (1 # 3);
                AddExercise "e7" "Press" (Some (2047 # 100)%Q)] s0 in
  all_exercises one_decimal s.
Proof.
  intros s0 s.
  refine (currentWeight_has_one_decimal legacyStorage None s _ _).
  - apply stored_weight_ok_legacy. exists 300%Z. reflexivity.
  - apply reachable_run. constructor.
Defined.

(** ** Loading and saving *)

(** X6.  Normalizing is idempotent across the storage: a normalized record,
    saved and loaded again, is normalized to itself, whatever the record it
    came from. *)
Theorem normalizeExercise_idempotent input :
  normalizeExercise (storedExercise (normalizeExercise input))
  = normalizeExercise input.
Proof.
  destruct (normalizeExercise_sets input) as [Ht Hs].
  by apply normalizeExercise_stored.
Qed.

(** X7.  A reload (save, then load in a fresh component) gives back the
    same plans, with the same exercises in the same order, and the same
    history, in every state the component can reach. *)
Theorem reload_round_trip storedPlans storedHistory s :
  reachable (initialState storedPlans storedHistory) s →
  plans (step Reload s) = plans s ∧ history (step Reload s) = history s.
Proof.
  intros Hr. unfold step.
  rewrite plans_syncActivePlan, history_syncActivePlan. split.
  - by eapply reload_keeps_plans.
  - done.
Qed.

Lemma reload_round_trip_witness :
  let s0 := initialState strayStorage None in
  let s := run [SetExerciseSets "e8" 2; FinishTraining "h1" "2024-05-01";
                ChangeExerciseByDelta "e9" (25 # 10)] s0 in
  plans (step Reload s) = plans s ∧ history (step Reload s) = history s.
Proof.
  intros s0 s.
  refine (reload_round_trip strayStorage None s _).
  apply reachable_run. constructor.
Defined.

(** ** The selection *)

Lemma selection_ok_syncActivePlan s : selection_ok (syncActivePlan s).
Proof.
  unfold selection_ok, syncActivePlan.
  destruct (plans s) as [|first rest] eqn:Hp; simpl; [by rewrite Hp|].
  destruct (bool_decide (TrainingPlan.id first = activePlanId s)) eqn:Hf; simpl.
  - rewrite Hp. unfold activePlan. rewrite Hp. simpl. rewrite Hf. by eexists.
  - destruct (existsb _ rest) eqn:Hex.
    + rewrite Hp. unfold activePlan. rewrite Hp. simpl. rewrite Hf.
      apply existsb_exists in Hex as (plan & Hin & Hid).
      destruct (List.find _ rest) as [found|] eqn:Hfind; [by eexists|].
      eapply find_none in Hfind; [|done]. simpl in Hfind. congruence.
    + simpl. rewrite Hp. unfold activePlan. simpl. rewrite Hp. simpl.
      rewrite bool_decide_eq_true_2 by done. by eexists.
Qed.

Lemma syncActivePlan_fixed s : selection_ok s → syncActivePlan s = s.
Proof.
  unfold selection_ok, syncActivePlan.
  destruct (plans s) as [|first rest] eqn:Hp.
  - intros Hi. destruct s as [ps h i]. simpl in *. by subst.
  - intros [plan Hplan]. unfold activePlan in Hplan. rewrite Hp in Hplan.
    apply find_some in Hplan as [Hin Hid].
    assert (existsb
              (λ plan, bool_decide (TrainingPlan.id plan = activePlanId s))
              (first :: rest) = true) as Hex.
    { apply existsb_exists. by exists plan. }
    by rewrite Hex.
Qed.

(** X8.  After every transition, and at start-up, the selection either
    names a plan of the list or is empty because there is no plan; on such
    a state the selection effect has nothing left to do. *)
Theorem selection_always_valid :
  (∀ storedPlans storedHistory,
     selection_ok (initialState storedPlans storedHistory))
  ∧ (∀ a s, selection_ok (step a s))
  ∧ (∀ s, selection_ok s → syncActivePlan s = s).
Proof.
  split; [|split].
  - intros. apply selection_ok_syncActivePlan.
  - intros. apply selection_ok_syncActivePlan.
  - apply syncActivePlan_fixed.
Qed.

Lemma selection_always_valid_witness :
  syncActivePlan (step DeleteActivePlan sampleState)
  = step DeleteActivePlan sampleState.
Proof.
  exact (proj2 (proj2 selection_always_valid) _
           (proj1 (proj2 selection_always_valid) DeleteActivePlan sampleState)).
Defined.

(** ** Plan lifecycle *)

Lemma existsb_false_Forall {A} (p : A → bool) (l : list A) :
  Forall (λ x, p x = false) l → existsb p l = false.
Proof.
  intros H. induction H as [|x r Hx _ IH]; [done|]. simpl. by rewrite Hx, IH.
Qed.

Lemma deleteActivePlan_step s active :
  activePlan s = Some active →
  let s' := step DeleteActivePlan s in
  plans s'
  = filter (λ plan, TrainingPlan.id plan ≠ TrainingPlan.id active) (plans s)
  ∧ Forall (λ plan, TrainingPlan.id plan ≠ TrainingPlan.id active) (plans s')
  ∧ activePlanId s'
    = match plans s' with
      | [] => EmptyString
      | first :: _ => TrainingPlan.id first
      end
  ∧ history s' = history s.
Proof.
  intros Ha s'.
  assert (plans s'
          = filter (λ plan, TrainingPlan.id plan ≠ TrainingPlan.id active)
                   (plans s)) as Hp.
  { subst s'. unfold step. rewrite plans_syncActivePlan. simpl.
    unfold deleteActivePlan. by rewrite Ha. }
  assert (Forall (λ plan, TrainingPlan.id plan ≠ TrainingPlan.id active)
                 (plans s')) as Hall.
  { rewrite Hp. apply Forall_forall. intros plan Hin.
    by apply list_elem_of_filter in Hin as [? _]. }
  split; [done|]. split; [done|]. split.
  - subst s'. unfold step in *. rewrite plans_syncActivePlan in *.
    set (t := perform DeleteActivePlan s) in *.
    assert (activePlanId t = TrainingPlan.id active) as Hid.
    { subst t. simpl. unfold deleteActivePlan. rewrite Ha. simpl.
      symmetry. by apply activePlan_id. }
    unfold syncActivePlan. destruct (plans t) as [|first rest] eqn:Ht; [done|].
    rewrite existsb_false_Forall; [done|].
    eapply Forall_impl; [exact Hall|]. intros plan Hne. simpl.
    rewrite Hid. by apply bool_decide_eq_false_2.
  - subst s'. unfold step. rewrite history_syncActivePlan. simpl.
    unfold deleteActivePlan. by rewrite Ha.
Qed.

(** X9.  Deleting the active plan removes every plan with its id and keeps
    the others in order; the selection moves to the first plan that is
    left, or becomes empty when none is. *)
Theorem deleteActivePlan_falls_back s active :
  activePlan s = Some active →
  let s' := step DeleteActivePlan s in
  plans s'
  = filter (λ plan, TrainingPlan.id plan ≠ TrainingPlan.id active) (plans s)
  ∧ Forall (λ plan, TrainingPlan.id plan ≠ TrainingPlan.id active) (plans s')
  ∧ activePlanId s'
    = match plans s' with
      | [] => EmptyString
      | first :: _ => TrainingPlan.id first
      end
  ∧ history s' = history s.
Proof. exact (deleteActivePlan_step s active). Qed.

Lemma deleteActivePlan_falls_back_witness :
  let s' := step DeleteActivePlan sampleState in
  plans s' = [pullDay] ∧ activePlanId s' = "p2"
  ∧ plans (step DeleteActivePlan s') = []
  ∧ activePlanId (step DeleteActivePlan s') = "".
Proof.
  intros s'.
  destruct (deleteActivePlan_falls_back sampleState pushDay eq_refl)
    as (Hp & _ & Hi & _).
  destruct (deleteActivePlan_falls_back s' pullDay eq_refl)
    as (Hp' & _ & Hi' & _).
  split; [exact Hp|]. split; [exact Hi|]. split; [exact Hp' | exact Hi'].
Defined.

Lemma createPlan_step newId planName s :
  (trim planName ≠ EmptyString →
   let newPlan :=
     {| TrainingPlan.id := newId; TrainingPlan.name := trim planName;
        TrainingPlan.exercises := [] |} in
   step (CreatePlan newId planName) s
   = {| plans := newPlan :: plans s; history := history s;
        activePlanId := newId |}
   ∧ activePlan (step (CreatePlan newId planName) s) = Some newPlan)
  ∧ (trim planName = EmptyString → createPlan newId planName s = s).
Proof.
  split.
  - intros Hne newPlan.
    assert (step (CreatePlan newId planName) s
            = {| plans := newPlan :: plans s; history := history s;
                 activePlanId := newId |}) as ->.
    { unfold step. simpl. unfold createPlan.
      rewrite bool_decide_eq_false_2 by done.
      unfold syncActivePlan. simpl.
      by rewrite bool_decide_eq_true_2. }
    split; [done|]. unfold activePlan. simpl.
    by rewrite bool_decide_eq_true_2.
  - intros He. unfold createPlan. by rewrite bool_decide_eq_true_2.
Qed.

(** X10.  [createPlan] with a name that is not blank puts the new, empty
    plan (with the trimmed name) in front of the others and selects it;
    with a blank name it changes nothing. *)
Theorem createPlan_prepends_and_selects newId planName s :
  (trim planName ≠ EmptyString →
   let newPlan :=
     {| TrainingPlan.id := newId; TrainingPlan.name := trim planName;
        TrainingPlan.exercises := [] |} in
   step (CreatePlan newId planName) s
   = {| plans := newPlan :: plans s; history := history s;
        activePlanId := newId |}
   ∧ activePlan (step (CreatePlan newId planName) s) = Some newPlan)
  ∧ (trim planName = EmptyString → createPlan newId planName s = s).
Proof. exact (createPlan_step newId planName s). Qed.

Lemma createPlan_prepends_and_selects_witness :
  activePlan (step (CreatePlan "p3" "  Leg Day ") sampleState)
  = Some {| TrainingPlan.id := "p3"; TrainingPlan.name := "Leg Day";
            TrainingPlan.exercises := [] |}
  ∧ createPlan "p4" "   " sampleState = sampleState.
Proof.
  split.
  - refine (proj2 (proj1 (createPlan_prepends_and_selects
                            "p3" "  Leg Day " sampleState) _)).
    discriminate.
  - exact (proj2 (createPlan_prepends_and_selects "p4" "   " sampleState)
             eq_refl).
Defined.

(** X11.  [addExercise] with a name that is not blank and a parsed weight
    that is not negative appends one exercise to the active plan: rounded
    start weight as current and best weight, no previous weight, three
    target sets, none completed; the exercises already there keep their
    places and other plans are untouched.  Without an active plan, with a
    blank name, a weight that does not parse or a negative weight, nothing
    changes. *)
Theorem addExercise_appends newId exerciseName parsedWeight s :
  (∀ active w,
     activePlan s = Some active → trim exerciseName ≠ EmptyString →
     parsedWeight = Some w → (0 <= w)%Q →
     Forall2
       (λ plan plan',
          (TrainingPlan.id plan ≠ TrainingPlan.id active → plan' = plan)
          ∧ (TrainingPlan.id plan = TrainingPlan.id active →
             TrainingPlan.id plan' = TrainingPlan.id plan
             ∧ TrainingPlan.name plan' = TrainingPlan.name plan
             ∧ TrainingPlan.exercises plan'
               = TrainingPlan.exercises plan
                 ++ [ {| Exercise.id := newId;
                         Exercise.name := trim exerciseName;
                         Exercise.currentWeight := toFixed1 w;
                         Exercise.previousWeight := None;
                         Exercise.bestWeight := toFixed1 w;
                         Exercise.completed := false;
                         Exercise.notes := EmptyString;
                         Exercise.targetSets := 3;
                         Exercise.completedSets := 0 |} ]))
       (plans s)
       (plans (addExercise newId exerciseName parsedWeight s)))
  ∧ (activePlan s = None ∨ trim exerciseName = EmptyString
     ∨ parsedWeight = None
     ∨ (∃ w, parsedWeight = Some w ∧ (w < 0)%Q) →
     addExercise newId exerciseName parsedWeight s = s).
Proof.
  split.
  - intros active w Ha Hn -> Hw. unfold addExercise. rewrite Ha.
    rewrite bool_decide_eq_false_2 by done.
    destruct (num_lt w 0) eqn:E.
    { apply num_lt_true in E. by apply Qlt_not_le in E. }
    simpl. unfold mapActivePlan. apply Forall2_fmap_r.
    apply Forall_Forall2_diag, Forall_forall. intros plan _.
    unfold compose. cbv beta.
    destruct (decide (TrainingPlan.id plan = TrainingPlan.id active)) as [E'|E'].
    + rewrite bool_decide_eq_false_2 by (by intros ?). by split.
    + rewrite bool_decide_eq_true_2 by done. by split.
  - intros H. unfold addExercise.
    destruct (activePlan s) as [active|]; [|done].
    destruct parsedWeight as [w|]; [|done].
    destruct H as [H|[H|[H|(w' & [= <-] & H)]]]; try done.
    + by rewrite bool_decide_eq_true_2.
    + apply num_lt_true in H. rewrite H. by rewrite orb_true_r.
Qed.

Lemma addExercise_appends_witness :
  Forall2
    (λ plan plan',
       (TrainingPlan.id plan ≠ "p1" → plan' = plan)
       ∧ (TrainingPlan.id plan = "p1" →
          TrainingPlan.id plan' = TrainingPlan.id plan
          ∧ TrainingPlan.name plan' = TrainingPlan.name plan
          ∧ TrainingPlan.exercises plan'
            = TrainingPlan.exercises plan
              ++ [ {| Exercise.id := "e7";
                      Exercise.name := "Press";
                      Exercise.currentWeight := 205 # 10;
                      Exercise.previousWeight := None;
                      Exercise.bestWeight := 205 # 10;
                      Exercise.completed := false;
                      Exercise.notes := EmptyString;
                      Exercise.targetSets := 3;
                      Exercise.completedSets := 0 |} ]))
    (plans sampleState)
    (plans (addExercise "e7" " Press" (Some (2047 # 100)%Q) sampleState))
  ∧ addExercise "e7" "Press" (Some (- (1 # 2))%Q) sampleState = sampleState.
Proof.
  pose proof (addExercise_appends "e7" " Press" (Some (2047 # 100)%Q)
                sampleState) as [Hadd _].
  pose proof (addExercise_appends "e7" "Press" (Some (- (1 # 2))%Q)
                sampleState) as [_ Hno].
  split.
  - refine (Hadd pushDay (2047 # 100)%Q eq_refl _ eq_refl _);
      [discriminate | unfold Qle; simpl; lia].
  - apply Hno. right. right. right. exists (- (1 # 2))%Q.
    split; [done | unfold Qlt; simpl; lia].
Defined.

(** ** Sets *)

(** X12.  A click on set chip [setNumber] (between 1 and the target) of an
    exercise of the active plan whose counter is within its target: on an
    open chip the counter becomes [setNumber], on a done chip
    [setNumber - 1]; the [completed] flag is set exactly when the counter
    reaches the target; weights are not touched.  In particular the next
    open chip adds one set and the last done chip takes one back. *)
Theorem clickSetChip_counts s active k plan i exercise setNumber :
  activePlan s = Some active →
  plans s !! k = Some plan → TrainingPlan.id plan = TrainingPlan.id active →
  TrainingPlan.exercises plan !! i = Some exercise →
  sets_in_range exercise →
  (1 ≤ setNumber ≤ Exercise.targetSets exercise)%Z →
  ∃ exercise',
    exercise_at (clickSetChip exercise setNumber s) k i = Some exercise'
    ∧ Exercise.completedSets exercise'
      = (if (setNumber <=? Exercise.completedSets exercise)%Z
         then setNumber - 1 else setNumber)%Z
    ∧ (setNumber = Exercise.completedSets exercise + 1 →
       Exercise.completedSets exercise'
       = Exercise.completedSets exercise + 1)%Z
    ∧ (setNumber = Exercise.completedSets exercise →
       Exercise.completedSets exercise'
       = Exercise.completedSets exercise - 1)%Z
    ∧ (Exercise.completed exercise' = true ↔
       Exercise.completedSets exercise' = Exercise.targetSets exercise)
    ∧ Exercise.targetSets exercise' = Exercise.targetSets exercise
    ∧ Exercise.currentWeight exercise' = Exercise.currentWeight exercise
    ∧ Exercise.previousWeight exercise' = Exercise.previousWeight exercise
    ∧ Exercise.bestWeight exercise' = Exercise.bestWeight exercise.
Proof.
  unfold sets_in_range. intros Ha Hk Hid Hi Hs Hn. eexists. split.
  - unfold clickSetChip, setExerciseSets. rewrite Ha.
    by eapply exercise_at_mapActiveExercises.
  - unfold setExerciseSets_exercise.
    rewrite bool_decide_eq_false_2 by (by intros ?). cbn.
    unfold clampInt.
    destruct (setNumber <=? Exercise.completedSets exercise)%Z eqn:E;
      [apply Z.leb_le in E | apply Z.leb_gt in E];
      repeat split; lia.
Qed.

Lemma clickSetChip_counts_witness :
  ∃ exercise',
    exercise_at (clickSetChip squat 2 sampleState) 0 1 = Some exercise'
    ∧ Exercise.completedSets exercise' = 2%Z.
Proof.
  assert (sets_in_range squat) as Hs by (unfold sets_in_range; simpl; lia).
  assert (1 ≤ 2 ≤ Exercise.targetSets squat)%Z as Hn by (simpl; lia).
  destruct (clickSetChip_counts sampleState pushDay 0 pushDay 1 squat 2
              eq_refl eq_refl eq_refl eq_refl Hs Hn)
    as (e' & He & Hc & _).
  exists e'. split; [exact He | exact Hc].
Defined.

(** X13.  [updateExerciseMeta] on an exercise of the active plan whose
    counters are in range: a patch without [targetSets], or with a
    [targetSets] of 0 (what a failed [parseInt] amounts to), keeps target
    and counter; another [targetSets] is clamped to [1, 12] and the counter
    is cut down to the new target when it exceeds it.  Weights are never
    touched, and name and notes change only when the patch carries them. *)
Theorem updateExerciseMeta_reclamps s active k plan i exercise patch :
  activePlan s = Some active →
  plans s !! k = Some plan → TrainingPlan.id plan = TrainingPlan.id active →
  TrainingPlan.exercises plan !! i = Some exercise →
  target_in_range exercise → sets_in_range exercise →
  ∃ exercise',
    exercise_at (updateExerciseMeta (Exercise.id exercise) patch s) k i
    = Some exercise'
    ∧ Exercise.targetSets exercise'
      = match ExercisePatch.targetSets patch with
        | None | Some 0%Z => Exercise.targetSets exercise
        | Some n => Z.max 1 (Z.min 12 n)
        end
    ∧ Exercise.completedSets exercise'
      = Z.min (Exercise.completedSets exercise) (Exercise.targetSets exercise')
    ∧ (1 ≤ Exercise.targetSets exercise' ≤ 12)%Z
    ∧ Exercise.name exercise'
      = default (Exercise.name exercise) (ExercisePatch.name patch)
    ∧ Exercise.notes exercise'
      = default (Exercise.notes exercise) (ExercisePatch.notes patch)
    ∧ Exercise.currentWeight exercise' = Exercise.currentWeight exercise
    ∧ Exercise.previousWeight exercise' = Exercise.previousWeight exercise
    ∧ Exercise.bestWeight exercise' = Exercise.bestWeight exercise.
Proof.
  unfold target_in_range, sets_in_range. intros Ha Hk Hid Hi Ht Hs.
  eexists. split.
  - unfold updateExerciseMeta. rewrite Ha.
    by eapply exercise_at_mapActiveExercises.
  - unfold updateExerciseMeta_exercise.
    rewrite bool_decide_eq_false_2 by (by intros ?). cbn.
    unfold clampInt.
    destruct (ExercisePatch.targetSets patch) as [[|n|n]|]; cbn;
      repeat split; lia.
Qed.

Lemma updateExerciseMeta_reclamps_witness :
  ∃ exercise',
    exercise_at (updateExerciseMeta "e1" shrinkTarget sampleState) 0 0
    = Some exercise'
    ∧ Exercise.targetSets exercise' = 2%Z
    ∧ Exercise.completedSets exercise' = 2%Z.
Proof.
  assert (target_in_range bench) as Ht by (unfold target_in_range; simpl; lia).
  assert (sets_in_range bench) as Hs by (unfold sets_in_range; simpl; lia).
  destruct (updateExerciseMeta_reclamps sampleState pushDay 0 pushDay 0 bench
              shrinkTarget eq_refl eq_refl eq_refl eq_refl Ht Hs)
    as (e' & He & Htarget & Hdone & _).
  exists e'. split; [exact He|]. split; [exact Htarget|].
  rewrite Hdone, Htarget. reflexivity.
Defined.

(** ** Deleting an exercise *)


(** X14.  After [deleteExercise] no exercise of the active plan carries the
    deleted id, and deleting the same id again changes nothing. *)
Theorem deleteExercise_removes_id exerciseId s :
  (∀ plan,
     plan ∈ plans (deleteExercise exerciseId s) →
     TrainingPlan.id plan = activePlanId s →
     Forall (λ exercise, Exercise.id exercise ≠ exerciseId)
            (TrainingPlan.exercises plan))
  ∧ deleteExercise exerciseId (deleteExercise exerciseId s)
    = deleteExercise exerciseId s.
Proof.
  destruct (activePlan s) as [active|] eqn:Ha.
  - pose proof (activePlan_id _ _ Ha) as Hid.
    assert (deleteExercise exerciseId s
            = setPlans
                (mapActivePlan (TrainingPlan.id active)
                   (λ plan, withExercises plan (others exerciseId
                      (TrainingPlan.exercises plan)))) s) as E
      by (unfold deleteExercise; by rewrite Ha).
    split.
    + intros plan Hin Hp. rewrite E in Hin. simpl in Hin.
      unfold mapActivePlan in Hin. apply list_elem_of_fmap in Hin
        as (plan0 & -> & _).
      destruct (decide (TrainingPlan.id plan0 = TrainingPlan.id active))
        as [E'|E'].
      * rewrite bool_decide_eq_false_2 by (by intros ?). simpl.
        apply Forall_forall. intros e He.
        by apply list_elem_of_filter in He as [? _].
      * rewrite bool_decide_eq_true_2 in Hp by done. congruence.
    + rewrite E. unfold deleteExercise.
      rewrite (activePlan_mapActivePlan _ s active) by done.
      cbn [TrainingPlan.id withExercises]. unfold setPlans.
      cbn [plans history activePlanId]. f_equal.
      unfold mapActivePlan. rewrite <- list_fmap_compose.
      apply list_fmap_ext. intros _ plan _. simpl.
      destruct (bool_decide (TrainingPlan.id plan ≠ TrainingPlan.id active))
        eqn:E'; [by rewrite E'|].
      simpl. rewrite E'. unfold withExercises. simpl. f_equal.
      apply others_idem.
  - assert (deleteExercise exerciseId s = s) as E
      by (unfold deleteExercise; by rewrite Ha).
    rewrite !E. split; [|done]. intros plan Hin Hp.
    unfold activePlan in Ha. eapply find_none in Ha;
      [|by apply list_elem_of_In]. simpl in Ha.
    by rewrite bool_decide_eq_true_2 in Ha.
Qed.

Lemma deleteExercise_removes_id_witness :
  Forall (λ exercise, Exercise.id exercise ≠ "e2")
         (TrainingPlan.exercises
            (withExercises pushDay (others "e2" [bench; squat; row]))).
Proof.
  refine (proj1 (deleteExercise_removes_id "e2" sampleState)
            (withExercises pushDay (others "e2" [bench; squat; row]))
            _ eq_refl).
  vm_compute. apply list_elem_of_here.
Defined.

(** ** Plan statistics *)

Lemma filter_length_le {A} (p : A → bool) (l : list A) :
  length (List.filter p l) ≤ length l.
Proof.
  induction l as [|x r IH]; simpl; [done|]. destruct (p x); simpl; lia.
Qed.

Lemma filter_length_mono {A} (p q : A → bool) (l : list A) :
  (∀ x, p x = true → q x = true) →
  length (List.filter p l) ≤ length (List.filter q l).
Proof.
  intros H. induction l as [|x r IH]; simpl; [done|].
  destruct (p x) eqn:Hp.
  - rewrite (H x Hp). simpl. lia.
  - destruct (q x); simpl; lia.
Qed.

Lemma filter_length_all {A} (p : A → bool) (l : list A) :
  length (List.filter p l) = length l ↔ Forall (λ x, p x = true) l.
Proof.
  induction l as [|x r IH]; simpl; [by split|].
  pose proof (filter_length_le p r) as Hle.
  destruct (p x) eqn:E; simpl.
  - rewrite Forall_cons. split.
    + intros H. split; [done|]. apply IH. lia.
    + intros [_ H]. apply IH in H. lia.
  - split; [lia|]. intros [H _]%Forall_cons. congruence.
Qed.

Lemma filter_length_none {A} (p : A → bool) (l : list A) :
  length (List.filter p l) = 0 ↔ Forall (λ x, p x = false) l.
Proof.
  induction l as [|x r IH]; simpl; [by split|].
  destruct (p x) eqn:E; simpl.
  - split; [lia|]. intros [H _]%Forall_cons. congruence.
  - rewrite Forall_cons. rewrite IH. tauto.
Qed.

(** X15.  The statistics of the active plan: without an active plan every
    number is 0; the count is the number of exercises; the numbers of
    progressed and of completed exercises never exceed it; all exercises
    count as completed exactly when each has its [completed] flag, and none
    as progressed exactly when none went up; and the average weight of a
    plan without exercises is 0 (nothing is divided by zero). *)
Theorem planStats_bounds s :
  progressCount (planStats s) ≤ exerciseCount (planStats s)
  ∧ completedCount (planStats s) ≤ exerciseCount (planStats s)
  ∧ (exerciseCount (planStats s) = 0 → avgWeight (planStats s) = 0%Q)
  ∧ (activePlan s = None →
     planStats s
     = {| exerciseCount := 0; avgWeight := 0; progressCount := 0;
          completedCount := 0 |})
  ∧ (∀ active,
       activePlan s = Some active →
       exerciseCount (planStats s) = length (TrainingPlan.exercises active)
       ∧ (completedCount (planStats s) = exerciseCount (planStats s) ↔
          Forall (λ exercise, Exercise.completed exercise = true)
                 (TrainingPlan.exercises active))
       ∧ (progressCount (planStats s) = 0 ↔
          Forall (λ exercise, progressed exercise = false)
                 (TrainingPlan.exercises active))).
Proof.
  unfold planStats. destruct (activePlan s) as [active|] eqn:Ha; simpl.
  - split; [apply filter_length_le|]. split; [apply filter_length_le|].
    split; [|split].
    + intros H. by rewrite H.
    + done.
    + intros active' [= <-]. split; [done|].
      split; [apply filter_length_all | apply filter_length_none].
  - split; [lia|]. split; [lia|]. split; [done|]. split; [done|].
    by intros ? [=].
Qed.

Lemma planStats_bounds_witness :
  exerciseCount (planStats sampleState) = 3
  ∧ (completedCount (planStats sampleState)
     = exerciseCount (planStats sampleState) ↔
     Forall (λ exercise, Exercise.completed exercise = true)
            [bench; squat; row]).
Proof.
  destruct (proj2 (proj2 (proj2 (proj2 (planStats_bounds sampleState))))
              pushDay eq_refl) as (Hn & Hc & _).
  split; [exact Hn | exact Hc].
Defined.

Lemma syncActivePlan_active s active :
  activePlan s = Some active → syncActivePlan s = s.
Proof.
  intros Ha. apply syncActivePlan_fixed. unfold selection_ok.
  destruct (plans s) as [|first rest] eqn:Hp; [|by eexists].
  unfold activePlan in Ha. by rewrite Hp in Ha.
Qed.

Lemma totalWeight_fmap g (l : list Exercise.t) a :
  (∀ exercise,
     Exercise.currentWeight (g exercise) = Exercise.currentWeight exercise) →
  foldl (λ sum exercise, (sum + Exercise.currentWeight exercise)%Q) a (g <$> l)
  = foldl (λ sum exercise, (sum + Exercise.currentWeight exercise)%Q) a l.
Proof.
  intros Hg. revert a. induction l as [|e r IH]; intros a; [done|].
  simpl. rewrite Hg. apply IH.
Qed.

Lemma filter_fmap_same (p : Exercise.t → bool) g (l : list Exercise.t) :
  (∀ exercise, p (g exercise) = p exercise) →
  length (List.filter p (g <$> l)) = length (List.filter p l).
Proof.
  intros Hg. induction l as [|e r IH]; [done|]. simpl. rewrite Hg.
  destruct (p e); cbn [length]; [f_equal|]; exact IH.
Qed.

Lemma filter_fmap_none (p : Exercise.t → bool) g (l : list Exercise.t) :
  (∀ exercise, p (g exercise) = false) → List.filter p (g <$> l) = [].
Proof.
  intros Hg. induction l as [|e r IH]; [done|]. simpl. by rewrite Hg.
Qed.

(** X16.  After [finishTraining] on an active plan with exercises, the
    statistics show no completed exercise, while the number of exercises,
    the average weight and the number of progressed exercises are what they
    were. *)
Theorem finishTraining_resets_completedCount newId dateIso s active :
  activePlan s = Some active → TrainingPlan.exercises active ≠ [] →
  let stats := planStats s in
  let stats' := planStats (step (FinishTraining newId dateIso) s) in
  completedCount stats' = 0
  ∧ exerciseCount stats' = exerciseCount stats
  ∧ avgWeight stats' = avgWeight stats
  ∧ progressCount stats' = progressCount stats.
Proof.
  intros Ha He.
  assert (activePlan (finishTraining newId dateIso s)
          = Some (withExercises active
                    (finishTraining_exercise <$> TrainingPlan.exercises active)))
    as Ha'.
  { rewrite (finishTraining_run _ _ _ _ Ha He).
    exact (activePlan_mapActivePlan
             (λ plan, withExercises plan
                        (finishTraining_exercise
                           <$> TrainingPlan.exercises plan))
             (setHistory
                (λ previous,
                   slice0 40
                     (finishTraining_entry newId dateIso active :: previous))
                s)
             active (λ _, eq_refl) Ha). }
  unfold step. cbn [perform]. rewrite (syncActivePlan_active _ _ Ha').
  unfold planStats. rewrite Ha, Ha'. cbn.
  rewrite length_fmap. unfold totalWeight.
  rewrite totalWeight_fmap by done.
  rewrite filter_fmap_none by done.
  rewrite filter_fmap_same by done. done.
Qed.

Lemma finishTraining_resets_completedCount_witness :
  completedCount (planStats sampleState) = 1
  ∧ completedCount
      (planStats (step (FinishTraining "h1" "2024-05-01") sampleState)) = 0.
Proof.
  split; [reflexivity|].
  refine (proj1 (finishTraining_resets_completedCount
                   "h1" "2024-05-01" sampleState pushDay eq_refl _)).
  discriminate.
Defined.

(** ** The delta badge and personal records *)

Lemma delta_nonpos_iff current previous :
  Qle_bool (current - previous) 0 = negb (num_lt previous current).
Proof.
  unfold num_lt. rewrite negb_involutive.
  apply eq_true_iff_eq. rewrite !Qle_bool_iff. split; intros; lra.
Qed.

Lemma formatDelta_progressed exercise :
  is_Some (formatDelta exercise) ↔ progressed exercise = true.
Proof.
  unfold formatDelta, progressed.
  destruct (Exercise.previousWeight exercise) as [p|].
  - cbv zeta. rewrite delta_nonpos_iff.
    destruct (num_lt p (Exercise.currentWeight exercise)); simpl.
    + split; [done | by eexists].
    + split; [by intros [? ?] | done].
  - split; [by intros [? ?] | done].
Qed.

Lemma filter_length_ext {A} (p q : A → bool) (l : list A) :
  (∀ x, p x = q x) → length (List.filter p l) = length (List.filter q l).
Proof.
  intros H. induction l as [|x r IH]; [done|]. simpl. rewrite H.
  destruct (q x); cbn [length]; [f_equal|]; exact IH.
Qed.

Lemma formatDelta_positive exercise d :
  formatDelta exercise = Some d → (0 < deltaKg d)%Q ∧ (0 < deltaPercent d)%Q.
Proof.
  unfold formatDelta. destruct (Exercise.previousWeight exercise) as [p|];
    [|done]. cbv zeta.
  destruct (Qle_bool (Exercise.currentWeight exercise - p) 0) eqn:E; [done|].
  intros [= <-]. simpl.
  assert (0 < Exercise.currentWeight exercise - p)%Q as Hk.
  { apply Qnot_le_lt. intros H. apply Qle_bool_iff in H. congruence. }
  split; [done|].
  destruct (num_lt 0 p) eqn:Hp; [|done]. apply num_lt_true in Hp.
  apply Qmult_lt_0_compat; [|done].
  apply Qlt_shift_div_l; [done|]. by rewrite Qmult_0_l.
Qed.

(** X17.  [formatDelta] gives no text exactly when the exercise has no
    previous weight or its current weight is not above it; when it gives
    one, both numbers in it are positive; after a previous weight of 0 the
    percentage is the constant 100 (nothing is divided by zero) and the
    difference is the current weight; and the progress count of the
    statistics is the number of exercises of the active plan for which
    [formatDelta] gives a text. *)
Theorem formatDelta_shown_iff_progressed :
  (∀ exercise,
     formatDelta exercise = None ↔
     (Exercise.previousWeight exercise = None
      ∨ ∃ previousWeight,
          Exercise.previousWeight exercise = Some previousWeight
          ∧ (Exercise.currentWeight exercise <= previousWeight)%Q))
  ∧ (∀ exercise d,
       formatDelta exercise = Some d →
       (0 < deltaKg d)%Q ∧ (0 < deltaPercent d)%Q)
  ∧ (∀ exercise previousWeight,
       Exercise.previousWeight exercise = Some previousWeight →
       (previousWeight == 0)%Q →
       (0 < Exercise.currentWeight exercise)%Q →
       ∃ d, formatDelta exercise = Some d
            ∧ deltaPercent d = 100%Q
            ∧ (deltaKg d == Exercise.currentWeight exercise)%Q)
  ∧ (∀ s active,
       activePlan s = Some active →
       progressCount (planStats s)
       = length
           (List.filter (λ exercise, bool_decide (is_Some (formatDelta exercise)))
                        (TrainingPlan.exercises active))).
Proof.
  split; [|split; [|split]].
  - intros e. rewrite eq_None_not_Some, formatDelta_progressed.
    unfold progressed. destruct (Exercise.previousWeight e) as [p|].
    + destruct (num_lt p (Exercise.currentWeight e)) eqn:E.
      * apply num_lt_true in E. split; [done|].
        intros [?|(p' & [= <-] & Hle)]; [done|]. by apply Qlt_not_le in E.
      * apply num_lt_false in E. split; [|done].
        intros _. right. by exists p.
    + split; [by left | done].
  - apply formatDelta_positive.
  - intros e p Hp Hz Hc. unfold formatDelta. rewrite Hp. cbv zeta.
    rewrite delta_nonpos_iff.
    assert (num_lt p (Exercise.currentWeight e) = true) as ->
      by (apply num_lt_true; by rewrite Hz).
    assert (num_lt 0 p = false) as ->.
    { destruct (num_lt 0 p) eqn:E; [|done]. apply num_lt_true in E.
      rewrite Hz in E. by apply Qlt_irrefl in E. }
    simpl. eexists. split; [done|]. split; [done|]. simpl. rewrite Hz.
    unfold Qminus. by rewrite Qplus_0_r.
  - intros s active Ha. unfold planStats. rewrite Ha. simpl.
    apply filter_length_ext. intros e.
    destruct (progressed e) eqn:E.
    + symmetry. apply bool_decide_eq_true. by apply formatDelta_progressed.
    + symmetry. apply bool_decide_eq_false. rewrite formatDelta_progressed.
      congruence.
Qed.

Lemma formatDelta_shown_iff_progressed_witness :
  let s := run [CreatePlan "p1" "Core"; AddExercise "e1" "Plank" (Some 0%Q);
                ChangeExerciseByDelta "e1" (25 # 10)]
               (initialState None None) in
  (∃ exercise d,
     exercise_at s 0 0 = Some exercise
     ∧ Exercise.previousWeight exercise = Some (0 # 10)%Q
     ∧ formatDelta exercise = Some d
     ∧ deltaPercent d = 100%Q
     ∧ (deltaKg d == 25 # 10)%Q)
  ∧ formatDelta row = None
  ∧ progressCount (planStats sampleState) = 2.
Proof.
  intros s.
  destruct formatDelta_shown_iff_progressed as (Hnone & _ & Hzero & Hcount).
  split; [|split].
  - set (exercise :=
           shiftWeight (newExercise "e1" "Plank" (0 # 10)) (25 # 10)).
    assert (0 < Exercise.currentWeight exercise)%Q as Hc by reflexivity.
    assert ((0 # 10) == 0)%Q as Hz by reflexivity.
    destruct (Hzero exercise (0 # 10)%Q eq_refl Hz Hc) as (d & Hd & Hp & Hk).
    exists exercise, d. split; [reflexivity|]. split; [reflexivity|].
    split; [exact Hd|]. split; [exact Hp | exact Hk].
  - apply (Hnone row). by left.
  - exact (Hcount sampleState pushDay eq_refl).
Defined.

Lemma isPr_of_progressed exercise :
  isPr_of exercise = true → progressed exercise = true.
Proof.
  unfold isPr_of, progressed.
  destruct (Exercise.previousWeight exercise); [|done].
  by intros [_ ?]%andb_true_iff.
Qed.

Lemma filter_length_fmap {A B} (p : B → bool) (f : A → B) (l : list A) :
  length (List.filter p (f <$> l)) = length (List.filter (p ∘ f) l).
Proof.
  induction l as [|x r IH]; [done|]. simpl.
  destruct (p (f x)); cbn [length]; [f_equal|]; exact IH.
Qed.

(** X18.  The entry written by [finishTraining] never flags more personal
    records than the statistics counted progressed exercises just before:
    an exercise flagged [isPr] is one whose weight went up. *)
Theorem finishTraining_prs_among_progressed newId dateIso s active :
  activePlan s = Some active → TrainingPlan.exercises active ≠ [] →
  ∃ entry,
    history (finishTraining newId dateIso s) !! 0 = Some entry
    ∧ length (List.filter HistoryExercise.isPr
                          (TrainingHistoryEntry.exercises entry))
      ≤ progressCount (planStats s).
Proof.
  intros Ha He. exists (finishTraining_entry newId dateIso active).
  rewrite (finishTraining_history _ _ _ _ Ha He). split; [done|].
  unfold planStats. rewrite Ha. simpl.
  rewrite filter_length_fmap. apply filter_length_mono.
  intros e. apply isPr_of_progressed.
Qed.

Lemma finishTraining_prs_among_progressed_witness :
  ∃ entry,
    history (finishTraining "h1" "2024-05-01" sampleState) !! 0 = Some entry
    ∧ length (List.filter HistoryExercise.isPr
                          (TrainingHistoryEntry.exercises entry))
      ≤ 2.
Proof.
  refine (finishTraining_prs_among_progressed
            "h1" "2024-05-01" sampleState pushDay eq_refl _).
  discriminate.
Defined.

(** ** The rest timer *)

Lemma restTimer_step_nonneg e t :
  (0 ≤ restSeconds t)%Z → (0 ≤ restSeconds (restTimer_step e t))%Z.
Proof.
  intros H. destruct e; simpl; try lia.
  destruct (restRunning t); [|done].
  destruct (restSeconds t <=? 1)%Z eqn:E; simpl; lia.
Qed.

Lemma restTimer_run_nonneg events t :
  (0 ≤ restSeconds t)%Z → (0 ≤ restSeconds (restTimer_run events t))%Z.
Proof.
  revert t. induction events as [|e r IH]; intros t H; [done|].
  simpl. by apply IH, restTimer_step_nonneg.
Qed.

Lemma restTimer_run_cons e events t :
  restTimer_run (e :: events) t = restTimer_run events (restTimer_step e t).
Proof. done. Qed.

Lemma restTimer_ticks_stopped n seconds :
  restTimer_run (replicate n Tick)
    {| restSeconds := seconds; restRunning := false |}
  = {| restSeconds := seconds; restRunning := false |}.
Proof.
  induction n as [|n IH]; [done|].
  change (replicate (S n) Tick) with (Tick :: replicate n Tick).
  rewrite restTimer_run_cons. exact IH.
Qed.

Lemma restTimer_ticks_running n (k : nat) :
  restTimer_run (replicate n Tick)
    {| restSeconds := Z.of_nat k; restRunning := true |}
  = if decide (n < k) then
      {| restSeconds := Z.of_nat k - Z.of_nat n; restRunning := true |}
    else if decide (n = 0) then
      {| restSeconds := Z.of_nat k; restRunning := true |}
    else {| restSeconds := 0; restRunning := false |}.
Proof.
  revert k. induction n as [|n IH]; intros k.
  - simpl. destruct (decide (0 < k)); [|done]. f_equal. lia.
  - change (replicate (S n) Tick) with (Tick :: replicate n Tick).
    rewrite restTimer_run_cons.
    cbn [restTimer_step restRunning restSeconds].
    destruct (Z.of_nat k <=? 1)%Z eqn:E.
    + apply Z.leb_le in E. rewrite restTimer_ticks_stopped.
      destruct (decide (S n < k)); [lia|]. done.
    + apply Z.leb_gt in E.
      replace (Z.of_nat k - 1)%Z with (Z.of_nat (k - 1)) by lia.
      rewrite IH.
      destruct (decide (n < k - 1)), (decide (S n < k)); try lia.
      * f_equal. lia.
      * destruct (decide (n = 0)); [lia | done].
Qed.

(** X19.  The rest timer never shows a negative time, whatever buttons are
    pressed and however often the interval fires.  A running timer at [k]
    seconds shows [k - n] after [n < k] ticks and is still running; from
    the [k]-th tick on (the first, if it was at 0) it shows 0 and has
    stopped itself; a paused timer ignores ticks. *)
Theorem restTimer_counts_down :
  (∀ events, (0 ≤ restSeconds (restTimer_run events restTimer_initial))%Z)
  ∧ (∀ (k n : nat),
       n < k →
       restTimer_run (replicate n Tick)
         {| restSeconds := Z.of_nat k; restRunning := true |}
       = {| restSeconds := Z.of_nat k - Z.of_nat n; restRunning := true |})
  ∧ (∀ (k n : nat),
       k ≤ n → 0 < n →
       restTimer_run (replicate n Tick)
         {| restSeconds := Z.of_nat k; restRunning := true |}
       = {| restSeconds := 0; restRunning := false |})
  ∧ (∀ n seconds,
       restTimer_run (replicate n Tick)
         {| restSeconds := seconds; restRunning := false |}
       = {| restSeconds := seconds; restRunning := false |}).
Proof.
  split; [|split; [|split]].
  - intros events. by apply restTimer_run_nonneg.
  - intros k n H. rewrite restTimer_ticks_running.
    by destruct (decide (n < k)).
  - intros k n H H0. rewrite restTimer_ticks_running.
    destruct (decide (n < k)); [lia|]. destruct (decide (n = 0)); [lia | done].
  - apply restTimer_ticks_stopped.
Qed.

Lemma restTimer_counts_down_witness :
  restTimer_run (ToggleRunning :: replicate 30 Tick) restTimer_initial
  = {| restSeconds := 60; restRunning := true |}
  ∧ restTimer_run (ToggleRunning :: replicate 90 Tick) restTimer_initial
    = {| restSeconds := 0; restRunning := false |}.
Proof.
  split.
  - refine (proj1 (proj2 restTimer_counts_down) 90 30 _). lia.
  - refine (proj1 (proj2 (proj2 restTimer_counts_down)) 90 90 _ _); lia.
Defined.

(** ** The timer display *)

Lemma padStart2_two_digits (n : Z) :
  (0 ≤ n < 100)%Z →
  padStart2 (pretty n)
  = String (pretty_N_char (Z.to_N (n `div` 10)))
      (String (pretty_N_char (Z.to_N (n `mod` 10))) EmptyString).
Proof.
  intros H. rewrite <- (Z2Nat.id n) by lia.
  assert (Z.to_nat n < 100) as Hm by lia.
  generalize dependent (Z.to_nat n). clear H. intros m Hm.
  do 100 (destruct m as [|m]; [reflexivity|]). lia.
Qed.

Lemma two_digits_inj (a b : Z) :
  (0 ≤ a < 100)%Z → (0 ≤ b < 100)%Z →
  pretty_N_char (Z.to_N (a `div` 10)) = pretty_N_char (Z.to_N (b `div` 10)) →
  pretty_N_char (Z.to_N (a `mod` 10)) = pretty_N_char (Z.to_N (b `mod` 10)) →
  a = b.
Proof.
  intros Ha Hb Hd Hm.
  pose proof (Z.div_pos a 10) as Ha1. pose proof (Z.div_pos b 10) as Hb1.
  pose proof (Z.div_lt_upper_bound a 10 10) as Ha2.
  pose proof (Z.div_lt_upper_bound b 10 10) as Hb2.
  pose proof (Z.mod_pos_bound a 10) as Ha3.
  pose proof (Z.mod_pos_bound b 10) as Hb3.
  apply pretty_N_char_inj in Hd; [|lia..].
  apply pretty_N_char_inj in Hm; [|lia..].
  rewrite (Z.div_mod a 10), (Z.div_mod b 10) by lia. lia.
Qed.

Lemma formatTimer_digits (seconds : Z) :
  (0 ≤ seconds < 6000)%Z →
  formatTimer seconds
  = String (pretty_N_char (Z.to_N ((seconds `div` 60) `div` 10)))
      (String (pretty_N_char (Z.to_N ((seconds `div` 60) `mod` 10)))
         (String (Ascii.ascii_of_nat 58)
            (String (pretty_N_char (Z.to_N ((seconds `mod` 60) `div` 10)))
               (String (pretty_N_char (Z.to_N ((seconds `mod` 60) `mod` 10)))
                  EmptyString)))).
Proof.
  intros H. unfold formatTimer. cbv zeta.
  rewrite Z.rem_mod_nonneg by lia.
  pose proof (Z.div_pos seconds 60) as H1.
  pose proof (Z.div_lt_upper_bound seconds 60 100) as H2.
  pose proof (Z.mod_pos_bound seconds 60) as H3.
  rewrite !padStart2_two_digits by lia. done.
Qed.

(** X20.  For a time from 0 up to 99 minutes 59 seconds, [formatTimer]
    prints five characters, two digits of minutes, a colon and two digits
    of seconds, and two different times never print the same. *)
Theorem formatTimer_unambiguous :
  (∀ seconds,
     (0 ≤ seconds < 6000)%Z → String.length (formatTimer seconds) = 5)
  ∧ (∀ a b,
       (0 ≤ a < 6000)%Z → (0 ≤ b < 6000)%Z →
       formatTimer a = formatTimer b → a = b).
Proof.
  split.
  - intros seconds H. by rewrite formatTimer_digits.
  - intros a b Ha Hb. rewrite !formatTimer_digits by done.
    intros [= H1 H2 H3 H4].
    pose proof (Z.div_pos a 60) as Ha1. pose proof (Z.div_pos b 60) as Hb1.
    pose proof (Z.div_lt_upper_bound a 60 100) as Ha2.
    pose proof (Z.div_lt_upper_bound b 60 100) as Hb2.
    pose proof (Z.mod_pos_bound a 60) as Ha3.
    pose proof (Z.mod_pos_bound b 60) as Hb3.
    assert (a `div` 60 = b `div` 60)%Z as Hm
      by (apply two_digits_inj; [lia | lia | done | done]).
    assert (a `mod` 60 = b `mod` 60)%Z as Hs
      by (apply two_digits_inj; [lia | lia | done | done]).
    rewrite (Z.div_mod a 60), (Z.div_mod b 60) by lia. lia.
Qed.

Lemma formatTimer_unambiguous_witness :
  String.length (formatTimer 90) = 5 ∧ formatTimer 90 = "01:30".
Proof.
  split; [|reflexivity].
  apply (proj1 formatTimer_unambiguous). lia.
Defined.

(** * Further properties of the [gymapp:v3] iteration *)

Lemma moved_to_back {A} (l : list A) from to x :
  l !! from = Some x → to < length l →
  moved_to to from x (moved_to from to x l) = l.
Proof.
  intros H Hto. unfold moved_to at 1.
  rewrite (moved_to_others l from to x H Hto).
  assert (from < length l) as Hfrom by (by eapply lookup_lt_Some).
  rewrite delete_take_drop.
  rewrite take_app_le by (rewrite length_take; lia).
  rewrite take_take, Nat.min_id.
  rewrite drop_app_ge by (rewrite length_take; lia).
  rewrite length_take. replace (from - from `min` length l) with 0 by lia.
  rewrite drop_0. by apply take_drop_middle.
Qed.

Lemma findIndex_unique {A} (p : A → bool) (l : list A) j x :
  l !! j = Some x → p x = true →
  (∀ k y, l !! k = Some y → p y = true → k = j) →
  findIndex p l = Z.of_nat j.
Proof.
  intros Hj Hp Huniq.
  destruct (Z.lt_ge_cases (findIndex p l) 0) as [Hneg|Hpos].
  - apply findIndex_absent in Hneg.
    eapply Forall_lookup_1 in Hneg; [|done]. simpl in Hneg. congruence.
  - destruct (findIndex_found p l Hpos) as (y & Hy & Hpy).
    specialize (Huniq _ _ Hy Hpy). lia.
Qed.

Lemma moveExerciseByOffset_plan_back exerciseId offset back plan :
  V3.offset_value back = (- V3.offset_value offset)%Z →
  NoDup (V3.Exercise.id <$> V3.TrainingPlan.exercises plan) →
  V3.moveExerciseByOffset_plan exerciseId offset plan ≠ plan
  ∨ (let index :=
       findIndex
         (λ exercise, bool_decide (V3.Exercise.id exercise = exerciseId))
         (V3.TrainingPlan.exercises plan) in
     (0 ≤ index)%Z ∧ (0 ≤ index + V3.offset_value offset)%Z
     ∧ (index + V3.offset_value offset
        < Z.of_nat (length (V3.TrainingPlan.exercises plan)))%Z) →
  V3.moveExerciseByOffset_plan exerciseId back
    (V3.moveExerciseByOffset_plan exerciseId offset plan)
  = plan.
Proof.
  intros Hback Hnodup Hmoved.
  destruct (moveExerciseByOffset_plan_cases exerciseId offset plan)
    as [[Hno Heq]|(moved & Hi & Ht & Hlt & Hm & Hid & Heq)].
  { destruct Hmoved as [Hne|(? & ? & ?)]; [done | lia]. }
  rewrite Heq.
  set (l := V3.TrainingPlan.exercises plan) in *.
  set (index := findIndex
         (λ exercise, bool_decide (V3.Exercise.id exercise = exerciseId)) l)
    in *.
  set (target := (index + V3.offset_value offset)%Z) in *.
  set (l1 := moved_to (Z.to_nat index) (Z.to_nat target) moved l).
  assert (l1 !! Z.to_nat target = Some moved) as Hm1
    by (by apply moved_to_lookup).
  assert (NoDup (V3.Exercise.id <$> l1)) as Hnodup1.
  { subst l1. by rewrite (moved_to_perm l _ _ _ Hm). }
  assert (findIndex
            (λ exercise, bool_decide (V3.Exercise.id exercise = exerciseId)) l1
          = target) as Hindex1.
  { rewrite (findIndex_unique _ l1 (Z.to_nat target) moved Hm1);
      [lia | by apply bool_decide_eq_true |].
    intros k y Hk Hy. apply bool_decide_eq_true in Hy.
    eapply (NoDup_lookup (V3.Exercise.id <$> l1)); [done | |].
    - by rewrite list_lookup_fmap, Hk.
    - rewrite list_lookup_fmap, Hm1. simpl. congruence. }
  destruct (moveExerciseByOffset_plan_cases exerciseId back
              (V3.withExercises plan l1))
    as [[Hno _]|(moved' & _ & _ & _ & Hm' & _ & ->)].
  - cbn [V3.TrainingPlan.exercises V3.withExercises] in Hno.
    rewrite Hindex1, Hback in Hno.
    assert (length l1 = length l) as Hlen
      by (subst l1; by rewrite (moved_to_perm l _ _ _ Hm)).
    pose proof (findIndex_lt_length
      (λ exercise, bool_decide (V3.Exercise.id exercise = exerciseId)) l).
    fold index in H. lia.
  - cbn [V3.TrainingPlan.exercises V3.withExercises] in *.
    rewrite Hindex1 in *. rewrite Hback.
    rewrite Hm1 in Hm'. injection Hm' as <-.
    replace (target + - V3.offset_value offset)%Z with index
      by (subst target; lia).
    subst l1. rewrite (moved_to_back l _ _ _ Hm Hlt).
    subst l. by destruct plan.
Qed.

(** X21.  With distinct exercise ids, a step of [moveExerciseByOffset] that
    stays inside the list is undone by the opposite step on the same
    exercise: down then up, or up then down, gives back the plan. *)
Theorem moveExerciseByOffset_there_and_back exerciseId plan index :
  NoDup (V3.Exercise.id <$> V3.TrainingPlan.exercises plan) →
  index
  = findIndex (λ exercise, bool_decide (V3.Exercise.id exercise = exerciseId))
              (V3.TrainingPlan.exercises plan) →
  (0 ≤ index)%Z →
  ((index + 1 < Z.of_nat (length (V3.TrainingPlan.exercises plan)))%Z →
   V3.moveExerciseByOffset_plan exerciseId V3.MinusOne
     (V3.moveExerciseByOffset_plan exerciseId V3.PlusOne plan)
   = plan)
  ∧ ((1 ≤ index)%Z →
     V3.moveExerciseByOffset_plan exerciseId V3.PlusOne
       (V3.moveExerciseByOffset_plan exerciseId V3.MinusOne plan)
     = plan).
Proof.
  intros Hnodup -> Hi.
  pose proof (findIndex_lt_length
    (λ exercise, bool_decide (V3.Exercise.id exercise = exerciseId))
    (V3.TrainingPlan.exercises plan)) as Hlt.
  split; intros H.
  - apply moveExerciseByOffset_plan_back; [done | done |].
    right. simpl. lia.
  - apply moveExerciseByOffset_plan_back; [done | done |].
    right. simpl. lia.
Qed.

Lemma moveExerciseByOffset_there_and_back_witness :
  V3.moveExerciseByOffset_plan "b" V3.MinusOne
    (V3.moveExerciseByOffset_plan "b" V3.PlusOne v3Plan)
  = v3Plan
  ∧ V3.moveExerciseByOffset_plan "b" V3.PlusOne
      (V3.moveExerciseByOffset_plan "b" V3.MinusOne v3Plan)
    = v3Plan.
Proof.
  assert (NoDup (V3.Exercise.id <$> V3.TrainingPlan.exercises v3Plan)) as Hn.
  { apply (bool_decide_unpack _). by vm_compute. }
  destruct (moveExerciseByOffset_there_and_back "b" v3Plan 1 Hn eq_refl)
    as [Hdown Hup]; [lia|].
  split; [apply Hdown | apply Hup]; simpl; lia.
Defined.

(** * Two ways to the same state *)

Lemma mapActiveExercises_ext P activeId g1 g2 previous :
  (∀ exercise, P exercise → g1 exercise = g2 exercise) →
  Forall (all_in_plan P) previous →
  mapActiveExercises activeId g1 previous
  = mapActiveExercises activeId g2 previous.
Proof.
  intros Hg Hall. unfold mapActiveExercises, mapActivePlan.
  apply Forall_fmap_ext. eapply Forall_impl; [exact Hall|].
  intros plan Hp. simpl. destruct (bool_decide _); [done|].
  f_equal. apply Forall_fmap_ext. eapply Forall_impl; [exact Hp|].
  intros e He. by apply Hg.
Qed.

(** X22.  When every target is within [1, 12] (as in every state the
    component reaches), the button that marks an exercise complete does
    what setting its counter to 12 does, and the button that marks it open
    does what setting its counter to 0 does. *)
Theorem setExerciseCompleted_as_setExerciseSets exerciseId s :
  all_exercises target_in_range s →
  setExerciseCompleted exerciseId true s = setExerciseSets exerciseId 12 s
  ∧ setExerciseCompleted exerciseId false s = setExerciseSets exerciseId 0 s.
Proof.
  unfold all_exercises, target_in_range. intros Hall.
  unfold setExerciseCompleted, setExerciseSets.
  destruct (activePlan s) as [active|]; [|done].
  unfold setPlans. split; f_equal.
  - eapply mapActiveExercises_ext; [|exact Hall]. intros e He. simpl in He.
    unfold setExerciseCompleted_exercise, setExerciseSets_exercise.
    destruct (decide (Exercise.id e = exerciseId)) as [E|E].
    + rewrite bool_decide_eq_true_2, bool_decide_eq_false_2 by tauto.
      cbv zeta. unfold clampInt.
      replace (Z.max 0 (Z.min (Exercise.targetSets e) 12))
        with (Exercise.targetSets e) by lia.
      by rewrite Z.leb_refl.
    + by rewrite bool_decide_eq_false_2, bool_decide_eq_true_2 by tauto.
  - eapply mapActiveExercises_ext; [|exact Hall]. intros e He. simpl in He.
    unfold setExerciseCompleted_exercise, setExerciseSets_exercise.
    destruct (decide (Exercise.id e = exerciseId)) as [E|E].
    + rewrite bool_decide_eq_true_2, bool_decide_eq_false_2 by tauto.
      cbv zeta. unfold clampInt.
      replace (Z.max 0 (Z.min (Exercise.targetSets e) 0)) with 0%Z by lia.
      replace (Exercise.targetSets e <=? 0)%Z with false; [done|].
      symmetry. apply Z.leb_gt. lia.
    + by rewrite bool_decide_eq_false_2, bool_decide_eq_true_2 by tauto.
Qed.

Lemma setExerciseCompleted_as_setExerciseSets_witness :
  setExerciseCompleted "e2" true sampleState = setExerciseSets "e2" 12 sampleState
  ∧ setExerciseCompleted "e1" false sampleState
    = setExerciseSets "e1" 0 sampleState.
Proof.
  assert (all_exercises target_in_range sampleState) as Hall.
  { unfold all_exercises, all_in_plan, target_in_range.
    repeat constructor; simpl; lia. }
  split.
  - exact (proj1 (setExerciseCompleted_as_setExerciseSets "e2" sampleState Hall)).
  - exact (proj2 (setExerciseCompleted_as_setExerciseSets "e1" sampleState Hall)).
Defined.

(** * Adding and removing again *)

Lemma filter_all_kept {A} (P : A → Prop) `{∀ x, Decision (P x)} (l : list A) :
  Forall P l → filter P l = l.
Proof.
  intros Hall. induction Hall as [|x r Hx _ IH]; [done|].
  rewrite filter_cons_True by done. by rewrite IH.
Qed.

Lemma mapActivePlan_id_on (P : TrainingPlan.t → Prop) activeId f previous :
  (∀ plan, P plan → TrainingPlan.id plan = activeId → f plan = plan) →
  Forall P previous →
  mapActivePlan activeId f previous = previous.
Proof.
  intros Hf Hall. unfold mapActivePlan.
  rewrite <- (list_fmap_id previous) at 2. apply Forall_fmap_ext.
  eapply Forall_impl; [exact Hall|]. intros plan Hp. simpl.
  destruct (decide (TrainingPlan.id plan = activeId)) as [E|E].
  - rewrite bool_decide_eq_false_2 by (by intros ?). by apply Hf.
  - by rewrite bool_decide_eq_true_2.
Qed.

(** X23.  Deleting an exercise right after adding it, under an id that no
    exercise of the active plan carried, gives back the state as it was
    before the addition. *)
Theorem addExercise_then_deleteExercise newId exerciseName parsedWeight s :
  (∀ plan exercise,
     plan ∈ plans s → TrainingPlan.id plan = activePlanId s →
     exercise ∈ TrainingPlan.exercises plan → Exercise.id exercise ≠ newId) →
  deleteExercise newId (addExercise newId exerciseName parsedWeight s) = s.
Proof.
  intros Hfresh.
  assert (deleteExercise newId s = s) as Hdel.
  { unfold deleteExercise. destruct (activePlan s) as [active|] eqn:Ha; [|done].
    pose proof (activePlan_id _ _ Ha) as Hid.
    destruct s as [ps h i]. unfold setPlans. simpl in *. f_equal.
    apply (mapActivePlan_id_on (λ plan, plan ∈ ps)).
    - intros plan Hin Hp. destruct plan as [pid pname exs].
      unfold withExercises. simpl in *. f_equal.
      apply filter_all_kept, Forall_forall. intros e He.
      eapply Hfresh; [done | simpl; congruence | done].
    - by apply Forall_forall. }
  unfold addExercise at 1.
  destruct (activePlan s) as [active|] eqn:Ha; [|done].
  destruct parsedWeight as [w|]; [|done].
  destruct (_ || _); [done|].
  pose proof (activePlan_id _ _ Ha) as Hid.
  unfold deleteExercise.
  rewrite (activePlan_mapActivePlan _ s active) by done.
  cbn [TrainingPlan.id withExercises].
  destruct s as [ps h i]. unfold setPlans. simpl in *. f_equal.
  unfold mapActivePlan at 1. unfold mapActivePlan at 1.
  rewrite <- list_fmap_compose.
  rewrite <- (list_fmap_id ps) at 2. apply Forall_fmap_ext, Forall_forall.
  intros plan Hin. simpl.
  destruct (decide (TrainingPlan.id plan = TrainingPlan.id active)) as [E|E].
  - rewrite (bool_decide_eq_false_2 (TrainingPlan.id plan ≠ _)) by tauto.
    simpl. rewrite bool_decide_eq_false_2 by tauto.
    destruct plan as [pid pname exs]. unfold withExercises. simpl in *.
    f_equal. rewrite filter_app, filter_cons_False by (simpl; tauto).
    rewrite filter_nil, app_nil_r.
    apply filter_all_kept, Forall_forall. intros e He.
    eapply Hfresh; [done | simpl; congruence | done].
  - rewrite (bool_decide_eq_true_2 (TrainingPlan.id plan ≠ _)) by done.
    by rewrite bool_decide_eq_true_2.
Qed.

Lemma addExercise_then_deleteExercise_witness :
  deleteExercise "e7" (addExercise "e7" "Press" (Some 40%Q) sampleState)
  = sampleState.
Proof.
  apply addExercise_then_deleteExercise.
  intros plan e Hin Hid He.
  assert (plan = pushDay) as ->.
  { apply elem_of_cons in Hin as [->|Hin]; [done|].
    apply list_elem_of_singleton in Hin as ->. discriminate Hid. }
  simpl in He. repeat (apply elem_of_cons in He as [->|He]; [done|]).
  by apply elem_of_nil in He.
Defined.

(** X24.  Creating a plan and deleting it at once, under an id that no plan
    carried, gives back the list of plans; the selection does not return to
    the plan selected before but goes to the first plan of the list. *)
Theorem createPlan_then_deleteActivePlan newId planName s :
  trim planName ≠ EmptyString →
  Forall (λ plan, TrainingPlan.id plan ≠ newId) (plans s) →
  let s' := step DeleteActivePlan (step (CreatePlan newId planName) s) in
  plans s' = plans s
  ∧ activePlanId s'
    = match plans s with
      | [] => EmptyString
      | first :: _ => TrainingPlan.id first
      end.
Proof.
  intros Hne Hfresh s'.
  destruct (createPlan_step newId planName s) as [Hcreate _].
  destruct (Hcreate Hne) as [Hs1 Ha1]. cbv zeta in Hs1, Ha1.
  destruct (deleteActivePlan_step _ _ Ha1) as (Hp & _ & Hi & _).
  fold s' in Hp, Hi. rewrite Hs1 in Hp. cbn [plans TrainingPlan.id] in Hp.
  assert (plans s' = plans s) as Hplans.
  { rewrite Hp. rewrite filter_cons_False by (simpl; tauto).
    by apply filter_all_kept. }
  split; [done|]. by rewrite Hi, Hplans.
Qed.

Lemma createPlan_then_deleteActivePlan_witness :
  let s := setActivePlanId "p2" sampleState in
  let s' := step DeleteActivePlan (step (CreatePlan "p3" "Leg Day") s) in
  activePlanId s = "p2" ∧ plans s' = plans s ∧ activePlanId s' = "p1".
Proof.
  intros s s'. split; [reflexivity|].
  refine (createPlan_then_deleteActivePlan "p3" "Leg Day" s _ _).
  - discriminate.
  - repeat constructor; discriminate.
Defined.
